(** * deepshell: the topic router and drift analysis of [chatbot/history.py]

    A shallow embedding of [Topic] and [HistoryManager] and the properties
    of the conversational-memory core that follow from the code.

    Conventions of the embedding:
    - Python objects with identity ([Topic] instances) live in a heap
      indexed by locations; [topics] and [current_topic] hold locations,
      so that aliasing between the stored list and the current pointer is
      visible.
    - An embedding is a list of rationals; the Python value [None] that
      [add_message] accepts for its [embedding] argument is [None] of
      [option vec].
    - Coroutines are state transformers that may raise:
      [M A := State -> Res A * State].  State changes made before an
      exception is raised are kept, as in Python.
    - A float score is a rational; the comparisons of the source are the
      comparisons on [Q].
    - A text is a [string] that holds its UTF-8 encoding. *)

From Stdlib Require Import QArith ZArith Lia Ascii String.
From stdpp Require Import base option list gmap strings.

Local Open Scope string_scope.
Local Open Scope Z_scope.

(** ** Python values and built-ins *)

Module Py.

(** Exceptions that the modelled code can raise. *)
Inductive exn : Type :=
| ValueError
| TypeError
| ZeroDivisionError.

Inductive Res (A : Type) : Type :=
| Ok (a : A)
| Raise (e : exn).
Arguments Ok {A} a.
Arguments Raise {A} e.

Definition is_raise {A} (r : Res A) : bool :=
  match r with Ok _ => false | Raise _ => true end.

(** A vector of floats, for an embedding; [[]] is the empty sentinel
    [np.array([])]. *)
Definition vec : Type := list Q.

(** The value of an [embedding] argument: [None] or a vector. *)
Definition pyemb : Type := option vec.

(** Truth value of a sequence: [if xs:]. *)
Definition truthy_list {A} (xs : list A) : bool :=
  match xs with [] => false | _ :: _ => true end.

Definition truthy_str (s : string) : bool :=
  match s with EmptyString => false | String _ _ => true end.

(** Truth value of [None] or a sequence. *)
Definition truthy_emb (e : pyemb) : bool :=
  match e with None => false | Some v => truthy_list v end.

Definition truthy_opt_str (o : option string) : bool :=
  match o with None => false | Some s => truthy_str s end.

(** [len(x)]: a [TypeError] on [None]. *)
Definition py_len (e : pyemb) : Res Z :=
  match e with
  | None => Raise TypeError
  | Some v => Ok (Z.of_nat (length v))
  end.

(** [xs[start:]] with Python's treatment of negative and out-of-range
    bounds. *)
Definition slice_from {A} (start : Z) (xs : list A) : list A :=
  let n := Z.of_nat (length xs) in
  let i := if start <? 0 then Z.max (n + start) 0 else Z.min start n in
  drop (Z.to_nat i) xs.

(** [xs[:stop]]. *)
Definition slice_to {A} (stop : Z) (xs : list A) : list A :=
  let n := Z.of_nat (length xs) in
  let i := if stop <? 0 then Z.max (n + stop) 0 else Z.min stop n in
  take (Z.to_nat i) xs.

(** Comparisons of floats. *)
Definition Qltb (x y : Q) : bool := negb (Qle_bool y x).
Definition Qgeb (x y : Q) : bool := Qle_bool y x.

(** *** Strings *)

Definition chars (s : string) : list ascii := list_ascii_of_string s.

Definition is_upper (c : ascii) : bool :=
  let n := nat_of_ascii c in (65 <=? n)%nat && (n <=? 90)%nat.

(** [str.lower()] on ASCII letters; other characters are unchanged. *)
Definition lower_char (c : ascii) : ascii :=
  if is_upper c then ascii_of_nat (nat_of_ascii c + 32) else c.

Definition lower (s : list ascii) : list ascii := map lower_char s.

(** White space is what [str.isspace] accepts, and [str.strip()]
    removes: the code points 9 to 13, 28 to 32, U+0085, U+00A0, U+1680,
    U+2000 to U+200A, U+2028, U+2029, U+202F, U+205F and U+3000.  A
    [string] holds the UTF-8 encoding of the text, so that a white-space
    character is one, two or three bytes long. *)
Definition is_space (c : ascii) : bool :=
  let n := nat_of_ascii c in
  ((9 <=? n)%nat && (n <=? 13)%nat) || ((28 <=? n)%nat && (n <=? 32)%nat).

(** U+0085 and U+00A0. *)
Definition is_space2 (b0 b1 : ascii) : bool :=
  let n0 := nat_of_ascii b0 in
  let n1 := nat_of_ascii b1 in
  (n0 =? 194)%nat && ((n1 =? 133)%nat || (n1 =? 160)%nat).

(** U+1680; U+2000 to U+200A, U+2028, U+2029 and U+202F; U+205F;
    U+3000. *)
Definition is_space3 (b0 b1 b2 : ascii) : bool :=
  let n0 := nat_of_ascii b0 in
  let n1 := nat_of_ascii b1 in
  let n2 := nat_of_ascii b2 in
  ((n0 =? 225)%nat && (n1 =? 154)%nat && (n2 =? 128)%nat) ||
  ((n0 =? 226)%nat && (n1 =? 128)%nat &&
   (((128 <=? n2)%nat && (n2 <=? 138)%nat) ||
    (n2 =? 168)%nat || (n2 =? 169)%nat || (n2 =? 175)%nat)) ||
  ((n0 =? 226)%nat && (n1 =? 129)%nat && (n2 =? 159)%nat) ||
  ((n0 =? 227)%nat && (n1 =? 128)%nat && (n2 =? 128)%nat).

(** The text is made of white-space characters only. *)
Fixpoint only_space (bs : list ascii) : bool :=
  match bs with
  | [] => true
  | b0 :: rest =>
      if is_space b0 then only_space rest
      else
        match rest with
        | [] => false
        | b1 :: rest1 =>
            if is_space2 b0 b1 then only_space rest1
            else
              match rest1 with
              | [] => false
              | b2 :: rest2 =>
                  if is_space3 b0 b1 b2 then only_space rest2 else false
              end
        end
  end.

(** [not s.strip()]: the string is empty once white space is stripped,
    that is, it holds white space only. *)
Definition strip_is_empty (s : string) : bool := only_space (chars s).

Fixpoint starts_with (p s : list ascii) : bool :=
  match p, s with
  | [], _ => true
  | _ :: _, [] => false
  | a :: p', b :: s' => if Ascii.eqb a b then starts_with p' s' else false
  end.

(** [p in s] for strings. *)
Fixpoint contains (p s : list ascii) : bool :=
  starts_with p s ||
  match s with
  | [] => false
  | _ :: s' => contains p s'
  end.

Definition slash : ascii := "/"%char.

(** [posixpath.basename]: [i = p.rfind('/') + 1; return p[i:]]. *)
Fixpoint basename (p : list ascii) : list ascii :=
  match p with
  | [] => []
  | c :: p' =>
      if existsb (Ascii.eqb slash) p' then basename p'
      else if Ascii.eqb slash c then p' else c :: p'
  end.

End Py.
Export Py.

(** ** [sklearn.metrics.pairwise.cosine_similarity]

    The library function is not part of the repository.  Its input
    validation ([check_pairwise_arrays], which calls [check_array] with
    [ensure_min_samples = 1] and [ensure_min_features = 1]) is modelled as
    the library documents it: both arguments must be rectangular, numeric
    2-D arrays with at least one row and one column, and with the same
    number of columns; anything else raises.  The numeric part (normalise
    the rows, multiply) is the parameter [kernel]: the cosine of two
    non-empty vectors of the same dimension. *)

Module Sklearn.

(** [check_array]: the rows as a rectangular array, together with its
    number of columns. *)
Definition check_array (X : list pyemb) : Res (list vec * nat) :=
  match X with
  | [] => Raise ValueError                 (* a 1-D array of shape (0,) *)
  | None :: _ => Raise TypeError           (* float(None) *)
  | Some r0 :: rest =>
      if forallb (fun r => match r with Some _ => true | None => false end) rest
      then
        let rows := r0 :: omap id rest in
        if forallb (fun r => Nat.eqb (length r) (length r0)) rows
        then
          if Nat.eqb (length r0) 0
          then Raise ValueError            (* 0 feature(s), minimum 1 *)
          else Ok (rows, length r0)
        else Raise ValueError              (* inhomogeneous shape *)
      else Raise TypeError
  end.

Definition cosine_similarity (kernel : vec -> vec -> Q)
    (X Y : list pyemb) : Res (list (list Q)) :=
  match check_array X with
  | Raise e => Raise e
  | Ok (xs, dx) =>
      match check_array Y with
      | Raise e => Raise e
      | Ok (ys, dy) =>
          if Nat.eqb dx dy
          then Ok (map (fun x => map (kernel x) ys) xs)
          else Raise ValueError            (* incompatible dimension *)
      end
  end.

(** [cosine_similarity([a], [b])[0][0]]. *)
Definition cosine_similarity_00 (kernel : vec -> vec -> Q)
    (a b : pyemb) : Res Q :=
  match cosine_similarity kernel [a] [b] with
  | Raise e => Raise e
  | Ok ((s :: _) :: _) => Ok s
  | Ok _ => Raise ValueError
  end.

(** [cosine_similarity([a], rows)[0]]. *)
Definition cosine_similarity_0 (kernel : vec -> vec -> Q)
    (a : pyemb) (rows : list pyemb) : Res (list Q) :=
  match cosine_similarity kernel [a] rows with
  | Raise e => Raise e
  | Ok (r :: _) => Ok r
  | Ok [] => Raise ValueError
  end.

(** The dot product: the cosine of two vectors of norm one. *)
Fixpoint dot (a b : vec) : Q :=
  match a, b with
  | x :: a', y :: b' => (x * y + dot a' b')%Q
  | _, _ => 0%Q
  end.

(** [int(np.argmax(xs))]: the first index of a greatest entry. *)
Fixpoint argmax_from (best : Q) (besti i : nat) (xs : list Q) : nat :=
  match xs with
  | [] => besti
  | x :: xs' =>
      if Qltb best x then argmax_from x i (S i) xs'
      else argmax_from best besti (S i) xs'
  end.

Definition argmax (xs : list Q) : nat :=
  match xs with
  | [] => 0%nat
  | x :: xs' => argmax_from x 0%nat 1%nat xs'
  end.

End Sklearn.
Export Sklearn.

(** ** The file-name pattern of [extract_file_name_from_query]

    [re.search] with the pattern
    [([a-zA-Z0-9_\-]+(?:/[a-zA-Z0-9_\-]+)*/[a-zA-Z0-9_\-]+\.[a-zA-Z0-9]+|[a-zA-Z0-9_\-]+\.[a-zA-Z0-9]+)].
    Write [W] for [[a-zA-Z0-9_\-]] and [A] for [[a-zA-Z0-9]].  Neither
    ['/'] nor ['.'] is in [W], so a [W+] that must be followed by one of
    them can only match a maximal run of [W]: the backtracking matcher is
    deterministic on this pattern, and the functions below follow it. *)

Module FilePattern.

Definition is_alnum (c : ascii) : bool :=
  let n := nat_of_ascii c in
  ((48 <=? n)%nat && (n <=? 57)%nat) ||
  ((65 <=? n)%nat && (n <=? 90)%nat) ||
  ((97 <=? n)%nat && (n <=? 122)%nat).

Definition is_word (c : ascii) : bool :=
  is_alnum c || Ascii.eqb c "_"%char || Ascii.eqb c "-"%char.

(** The longest prefix of characters satisfying [p], and the rest. *)
Fixpoint span (p : ascii -> bool) (s : list ascii) : list ascii * list ascii :=
  match s with
  | [] => ([], [])
  | c :: s' =>
      if p c then let '(run, rest) := span p s' in (c :: run, rest)
      else ([], s)
  end.

(** [\.[a-zA-Z0-9]+] at the head of [s]: the matched text. *)
Definition match_ext (s : list ascii) : option (list ascii) :=
  match s with
  | c :: s' =>
      if Ascii.eqb c "."%char then
        match span is_alnum s' with
        | ([], _) => None
        | (ext, _) => Some (c :: ext)
        end
      else None
  | [] => None
  end.

(** The rest of the first alternative once [segs >= 1] segments [W+]
    have been read and the input continues with [s]: either
    [/W+] again, or the extension if at least two segments were read.
    [fuel] bounds the number of segments by the length of the input. *)
Fixpoint match_path_tail (fuel : nat) (segs : nat) (s : list ascii)
    : option (list ascii) :=
  match fuel with
  | O => None
  | S fuel' =>
      match s with
      | c :: s' =>
          if Ascii.eqb c slash then
            match span is_word s' with
            | ([], _) => None
            | (w, rest) =>
                match match_path_tail fuel' (S segs) rest with
                | Some m => Some (c :: w ++ m)%list
                | None => None
                end
            end
          else if (2 <=? segs)%nat then match_ext s else None
      | [] => None
      end
  end.

(** First alternative at the head of [s]. *)
Definition match_alt1 (s : list ascii) : option (list ascii) :=
  match span is_word s with
  | ([], _) => None
  | (w, rest) =>
      match match_path_tail (S (length rest)) 1 rest with
      | Some m => Some (w ++ m)%list
      | None => None
      end
  end.

(** Second alternative at the head of [s]. *)
Definition match_alt2 (s : list ascii) : option (list ascii) :=
  match span is_word s with
  | ([], _) => None
  | (w, rest) =>
      match match_ext rest with
      | Some m => Some (w ++ m)%list
      | None => None
      end
  end.

Definition match_here (s : list ascii) : option (list ascii) :=
  match match_alt1 s with
  | Some m => Some m
  | None => match_alt2 s
  end.

(** [re.search]: the match at the leftmost position that has one. *)
Fixpoint search (s : list ascii) : option (list ascii) :=
  match match_here s with
  | Some m => Some m
  | None =>
      match s with
      | [] => None
      | _ :: s' => search s'
      end
  end.

End FilePattern.

(** ** Data model *)

(** [{"role": role, "content": message}] *)
Record Message : Type := mkMessage {
  role : string;
  content : string;
}.

(** The [file_info] dictionary of [Topic._index_file]. *)
Record FileInfo : Type := mkFileInfo {
  file_name : string;
  full_path : string;
  embedding : vec;
}.

(** A [dict] with string keys: insertion-ordered; assigning to a key that
    is present replaces its value in place. *)
Definition dict (V : Type) : Type := list (string * V).

Fixpoint dict_set {V} (k : string) (v : V) (d : dict V) : dict V :=
  match d with
  | [] => [(k, v)]
  | (k', v') :: d' =>
      if String.eqb k k' then (k, v) :: d' else (k', v') :: dict_set k v d'
  end.


(** The attributes of a [Topic] that the modelled methods read or write
    ([embedding_cache] and [folder_structure] of a topic are used by none
    of them and are left out). *)
Record Topic : Type := mkTopic {
  name : string;
  description : string;
  embedded_description : vec;
  history : list Message;
  history_embeddings : list pyemb;
  file_embeddings : dict FileInfo;
}.

(** [Topic(name, description)] *)
Definition Topic_init (n d : string) : Topic :=
  mkTopic n d [] [] [] [].

Definition set_name (n : string) (t : Topic) : Topic :=
  mkTopic n (description t) (embedded_description t) (history t)
          (history_embeddings t) (file_embeddings t).
Definition set_description (d : string) (t : Topic) : Topic :=
  mkTopic (name t) d (embedded_description t) (history t)
          (history_embeddings t) (file_embeddings t).
Definition set_embedded_description (e : vec) (t : Topic) : Topic :=
  mkTopic (name t) (description t) e (history t)
          (history_embeddings t) (file_embeddings t).
Definition set_history (h : list Message) (t : Topic) : Topic :=
  mkTopic (name t) (description t) (embedded_description t) h
          (history_embeddings t) (file_embeddings t).
Definition set_file_embeddings (f : dict FileInfo) (t : Topic) : Topic :=
  mkTopic (name t) (description t) (embedded_description t) (history t)
          (history_embeddings t) f.

(** [Topic.add_message]: one append to each of the two lists. *)
Definition Topic_add_message (r m : string) (e : pyemb) (t : Topic) : Topic :=
  mkTopic (name t) (description t) (embedded_description t)
          (history t ++ [mkMessage r m])
          (history_embeddings t ++ [e])
          (file_embeddings t).

(** [Topic._index_file] *)
Definition Topic_index_file (file_path : string) (e : vec) (t : Topic) : Topic :=
  let fname := string_of_list_ascii (basename (chars file_path)) in
  set_file_embeddings
    (dict_set file_path (mkFileInfo fname file_path e) (file_embeddings t)) t.

(** [Topic.get_relevant_context]; the index is [-1] on an empty history. *)
Definition Topic_get_relevant_context (kernel : vec -> vec -> Q)
    (e : pyemb) (t : Topic) : Res (Q * Z) :=
  if negb (truthy_list (history_embeddings t)) then Ok (0%Q, -1)
  else
    match cosine_similarity_0 kernel e (history_embeddings t) with
    | Raise x => Raise x
    | Ok similarities =>
        let best_index := argmax similarities in
        Ok (nth best_index similarities 0%Q, Z.of_nat best_index)
    end.

(** A location of the heap of [Topic] objects. *)
Definition loc : Type := nat.

(** The [HistoryManager] object, the heap of topics it points into, and
    counters that record what the outside world has seen: the texts sent
    to the embedding service, the number of requests to the summarizer
    and the number of [asyncio.Lock()] objects constructed. *)
Record State : Type := mkState {
  heap : gmap loc Topic;
  next_loc : loc;
  top_k : nat;
  similarity_threshold : Q;
  topics : list loc;
  current_topic : loc;
  embedding_cache : gmap string vec;
  ollama_calls : list string;
  helper_calls : nat;
  locks_created : nat;
}.

Definition set_heap (h : gmap loc Topic) (s : State) : State :=
  mkState h (next_loc s) (top_k s) (similarity_threshold s) (topics s)
          (current_topic s) (embedding_cache s) (ollama_calls s)
          (helper_calls s) (locks_created s).
Definition set_next_loc (n : loc) (s : State) : State :=
  mkState (heap s) n (top_k s) (similarity_threshold s) (topics s)
          (current_topic s) (embedding_cache s) (ollama_calls s)
          (helper_calls s) (locks_created s).
Definition set_topics (ts : list loc) (s : State) : State :=
  mkState (heap s) (next_loc s) (top_k s) (similarity_threshold s) ts
          (current_topic s) (embedding_cache s) (ollama_calls s)
          (helper_calls s) (locks_created s).
Definition set_current_topic (c : loc) (s : State) : State :=
  mkState (heap s) (next_loc s) (top_k s) (similarity_threshold s) (topics s)
          c (embedding_cache s) (ollama_calls s)
          (helper_calls s) (locks_created s).
Definition set_embedding_cache (c : gmap string vec) (s : State) : State :=
  mkState (heap s) (next_loc s) (top_k s) (similarity_threshold s) (topics s)
          (current_topic s) c (ollama_calls s)
          (helper_calls s) (locks_created s).
Definition set_ollama_calls (l : list string) (s : State) : State :=
  mkState (heap s) (next_loc s) (top_k s) (similarity_threshold s) (topics s)
          (current_topic s) (embedding_cache s) l
          (helper_calls s) (locks_created s).
Definition set_helper_calls (n : nat) (s : State) : State :=
  mkState (heap s) (next_loc s) (top_k s) (similarity_threshold s) (topics s)
          (current_topic s) (embedding_cache s) (ollama_calls s)
          n (locks_created s).
Definition set_locks_created (n : nat) (s : State) : State :=
  mkState (heap s) (next_loc s) (top_k s) (similarity_threshold s) (topics s)
          (current_topic s) (embedding_cache s) (ollama_calls s)
          (helper_calls s) n.

(** The object at a location.  Python references never dangle; the
    default is there for totality only. *)
Definition deref (l : loc) (s : State) : Topic :=
  default (Topic_init "" "") (heap s !! l).

Definition update_topic (l : loc) (f : Topic -> Topic) (s : State) : State :=
  set_heap (<[l := f (deref l s)]> (heap s)) s.

(** ** The monad of coroutines *)

Definition M (A : Type) : Type := State -> Res A * State.

Definition ret {A} (a : A) : M A := fun s => (Ok a, s).
Definition raise {A} (e : exn) : M A := fun s => (Raise e, s).
Definition bind {A B} (m : M A) (k : A -> M B) : M B :=
  fun s =>
    match m s with
    | (Ok a, s') => k a s'
    | (Raise e, s') => (Raise e, s')
    end.
Definition lift {A} (r : Res A) : M A := fun s => (r, s).
Definition gets {A} (f : State -> A) : M A := fun s => (Ok (f s), s).
Definition modify (f : State -> State) : M unit := fun s => (Ok tt, f s).

(** [try: body except Exception: pass] *)
Definition try_except (body : M unit) : M unit :=
  fun s =>
    match body s with
    | (Raise _, s') => (Ok tt, s')
    | r => r
    end.

Declare Scope coro_scope.
Delimit Scope coro_scope with coro.
Notation "x <- c ;; k" := (bind c (fun x => k))
  (at level 100, c at next level, right associativity) : coro_scope.
Notation "c ;;; k" := (bind c (fun _ => k))
  (at level 100, right associativity) : coro_scope.
Local Open Scope coro_scope.

(** [for x in xs: body(x)] *)
Fixpoint for_each {A} (xs : list A) (body : A -> M unit) : M unit :=
  match xs with
  | [] => ret tt
  | x :: xs' => body x ;;; for_each xs' body
  end.

(** [[f(x) for x in xs]] with effects, left to right. *)
Fixpoint map_m {A B} (f : A -> M B) (xs : list A) : M (list B) :=
  match xs with
  | [] => ret []
  | x :: xs' => y <- f x ;; ys <- map_m f xs' ;; ret (y :: ys)
  end.

(** The same for a computation without state. *)
Fixpoint map_res {A B} (f : A -> Res B) (xs : list A) : Res (list B) :=
  match xs with
  | [] => Ok []
  | x :: xs' =>
      match f x with
      | Raise e => Raise e
      | Ok y =>
          match map_res f xs' with
          | Raise e => Raise e
          | Ok ys => Ok (y :: ys)
          end
      end
  end.

(** ** The decisions of the drift analysis *)

(** [sum(1 for s in similarities if s < off_topic_threshold)] *)
Definition count_below (off_topic_threshold : Q) (similarities : list Q) : nat :=
  length (filter (fun s => Qltb s off_topic_threshold = true) similarities).

(** [sum(...) > len(similarities) / 2], with [/] the true division. *)
Definition drift_declared (off_topic_threshold : Q) (similarities : list Q) : bool :=
  Qltb (inject_Z (Z.of_nat (length similarities)) / 2)%Q
       (inject_Z (Z.of_nat (count_below off_topic_threshold similarities))).

(** The [for i, sim in enumerate(similarities)] loop with its [break];
    [start] is the value assigned before the loop. *)
Fixpoint start_loop (base : Z) (off_topic_threshold : Q) (i : Z)
    (similarities : list Q) (start : Z) : Z :=
  match similarities with
  | [] => start
  | sim :: rest =>
      if Qltb sim off_topic_threshold then base + i
      else start_loop base off_topic_threshold (i + 1) rest start
  end.

Definition off_topic_start_index (history_len slice_size : Z)
    (off_topic_threshold : Q) (similarities : list Q) : Z :=
  let base := history_len - slice_size in
  start_loop base off_topic_threshold 0 similarities base.

(** ** [HistoryManager] *)

(** [HistoryManager.__init__]: no stored topic, and a fresh unnamed
    [Topic()] as the current one. *)
Definition HistoryManager_init (k : nat) (threshold : Q) : State :=
  mkState {[ 0%nat := Topic_init "" "" ]} 1%nat k threshold [] 0%nat ∅ [] 0%nat 0%nat.

Section HistoryManager.

(** The numeric part of [cosine_similarity]. *)
Variable kernel : vec -> vec -> Q.
(** [OllamaClient.fetch_embedding]: the answer of the embedding service
    for a text; an empty list when it yields nothing. *)
Variable ollama : string -> vec.
(** The outcome of the [n]-th request to the summarizer for a history,
    after [helper._fetch_response], the filter and [re.findall]: the
    list [matches], or [None] when an exception was raised before it
    (an empty response). *)
Variable helper_script : nat -> list Message -> option (list string).

(** [asyncio.Lock()]: every evaluation constructs a new lock, which is
    free, so that [async with] enters at once. *)
Definition new_lock : M unit :=
  modify (fun s => set_locks_created (S (locks_created s)) s).

(** *** [fetch_embedding]

    The coroutine suspends once, at [await OllamaClient.fetch_embedding];
    [fetch_enter] is what runs before that point and [fetch_resume] what
    runs after it. *)
Definition fetch_enter (text : string) : M (option vec) :=
  new_lock ;;;
  cache <- gets embedding_cache ;;
  match cache !! text with
  | Some e => ret (Some e)
  | None =>
      modify (fun s => set_ollama_calls (ollama_calls s ++ [text]) s) ;;;
      ret None
  end.

Definition fetch_resume (text : string) : M vec :=
  let e := ollama text in
  if truthy_list e
  then modify (fun s => set_embedding_cache (<[text := e]> (embedding_cache s)) s) ;;;
       ret e
  else ret [].

Definition fetch_embedding (text : string) : M vec :=
  r <- fetch_enter text ;;
  match r with
  | Some e => ret e
  | None => fetch_resume text
  end.

(** [asyncio.gather] over [self.fetch_embedding(t) for t in texts]: the
    tasks start in order and each runs to its suspension point before
    any of them is resumed. *)
Definition gather_fetch (texts : list string) : M (list vec) :=
  pending <- map_m fetch_enter texts ;;
  map_m (fun tp => match snd tp with
                   | Some e => ret e
                   | None => fetch_resume (fst tp)
                   end) (zip texts pending).

(** *** [_match_topic] *)

Definition compute_similarity (e : pyemb) (t : Topic) : Res Q :=
  if Nat.eqb (length (embedded_description t)) 0 then Ok 0%Q
  else
    match py_len e with
    | Raise x => Raise x
    | Ok n =>
        if n =? 0 then Ok 0%Q
        else cosine_similarity_00 kernel e (Some (embedded_description t))
    end.

Definition better (threshold : Q) (best : option loc * Q) (r : Q * loc)
    : option loc * Q :=
  if Qltb (snd best) (fst r) && Qgeb (fst r) threshold
  then (Some (snd r), fst r)
  else best.

(** The selection loop, from [best_topic = None], [best_similarity = 0.0]. *)
Definition select_best (threshold : Q) (results : list (Q * loc))
    : option loc * Q :=
  fold_left (better threshold) results (None, 0%Q).

Definition not_excluded (exclude_topic : option loc) (l : loc) : bool :=
  match exclude_topic with
  | Some x => negb (Nat.eqb l x)
  | None => true
  end.

Definition scored (e : pyemb) (s : State) (l : loc) : Res (Q * loc) :=
  match compute_similarity e (deref l s) with
  | Raise x => Raise x
  | Ok sim => Ok (sim, l)
  end.

Definition _match_topic (e : pyemb) (exclude_topic : option loc)
    : M (option loc) :=
  s <- gets id ;;
  if Nat.eqb (length (topics s)) 0 then ret None
  else
    results <- lift (map_res (scored e s)
                       (List.filter (not_excluded exclude_topic) (topics s))) ;;
    ret (fst (select_best (similarity_threshold s) results)).

(** *** [switch_topic] *)

Definition name_stored (n : string) (s : State) : bool :=
  existsb (fun t => String.eqb (name (deref t s)) n) (topics s).

Definition switch_topic (topic : loc) : M unit :=
  new_lock ;;;
  s <- gets id ;;
  let cur := current_topic s in
  if negb (String.eqb (name (deref topic s)) (name (deref cur s))) then
    (if negb (name_stored (name (deref cur s)) s)
     then modify (fun s => set_topics (topics s ++ [cur]) s)
     else ret tt) ;;;
    modify (set_current_topic topic)
  else ret tt.

(** *** [add_message]

    The part that runs before the coroutine returns;
    [asyncio.create_task(self._analyze_history())] only schedules the
    analysis, which runs afterwards as a task of its own. *)
Definition add_message (r message : string) (e : pyemb) : M unit :=
  e <- (if truthy_emb e
        then v <- fetch_embedding message ;; ret (Some v)
        else ret e) ;;
  cur <- gets current_topic ;;
  topic <- _match_topic e (Some cur) ;;
  match topic with
  | Some t => switch_topic t
  | None => ret tt
  end ;;;
  cur <- gets current_topic ;;
  modify (update_topic cur (Topic_add_message r message e)).

(** [add_file] *)
Definition add_file (file_path file_content : string) : M unit :=
  let combined_content :=
    ("Path: " ++ file_path ++ String "010"%char ("Content: " ++ file_content))%string in
  file_embedding <- fetch_embedding combined_content ;;
  cur <- gets current_topic ;;
  modify (update_topic cur (Topic_index_file file_path file_embedding)).

(** *** [generate_topic_info_from_history]

    The [while attempt < max_retries] loop: every failed attempt adds
    one to [attempt], so that [remaining] counts the attempts left.
    The result [(None, None)] is the pair of two [None]. *)
Fixpoint generate_loop (remaining : nat) (hist : list Message)
    : M (option string * option string) :=
  match remaining with
  | O => ret (None, None)
  | S remaining' =>
      n <- gets helper_calls ;;
      modify (set_helper_calls (S n)) ;;;
      match helper_script n hist with
      | Some matches =>
          let extracted_topic_name := nth 0 matches "unknown" in
          let extracted_topic_description := nth 1 matches "" in
          if truthy_str extracted_topic_name
             && truthy_str extracted_topic_description
          then ret (Some extracted_topic_name, Some extracted_topic_description)
          else generate_loop remaining' hist
      | None => generate_loop remaining' hist
      end
  end.

Definition generate_topic_info_from_history (hist : list Message)
    (max_retries : nat) : M (option string * option string) :=
  generate_loop max_retries hist.

(** *** [_analyze_history] *)

Definition alloc (t : Topic) : M loc :=
  l <- gets next_loc ;;
  modify (fun s => set_next_loc (S l) (set_heap (<[l := t]> (heap s)) s)) ;;;
  ret l.

(** [for msg in off_topic_segment]: fetch the embedding of the message
    and add both to the topic at [target]. *)
Definition migrate (target : loc) (off_topic_segment : list Message) : M unit :=
  for_each off_topic_segment (fun msg =>
    msg_emb <- fetch_embedding (content msg) ;;
    modify (update_topic target
              (Topic_add_message (role msg) (content msg) (Some msg_emb)))).

(** Lines 473 to 479; the result tells whether the [return] of line 479
    was reached. *)
Definition naming_phase : M bool :=
  s <- gets id ;;
  let t := deref (current_topic s) s in
  if (4 <? Z.of_nat (length (history t))) && strip_is_empty (name t) then
    info <- generate_topic_info_from_history (history t) 3 ;;
    if truthy_opt_str (fst info) && truthy_opt_str (snd info) then
      let new_topic_name := default "" (fst info) in
      let new_topic_desc := default "" (snd info) in
      cur <- gets current_topic ;;
      modify (update_topic cur (set_name new_topic_name)) ;;;
      cur <- gets current_topic ;;
      modify (update_topic cur (set_description new_topic_desc)) ;;;
      e <- fetch_embedding new_topic_desc ;;
      cur <- gets current_topic ;;
      modify (update_topic cur (set_embedded_description e)) ;;;
      ret true
    else ret false
  else ret false.

(** The condition of line 482. *)
Definition drift_trigger (len off_topic_frequency : Z) : Res bool :=
  if off_topic_frequency <=? len then
    if off_topic_frequency =? 0 then Raise ZeroDivisionError
    else Ok (len mod off_topic_frequency =? 0)
  else Ok false.

(** Lines 550 to 554: the topic stored under [current_name] loses the
    tail of its [history]. *)
Definition truncate_original (current_name : string) (start : Z) : M unit :=
  s <- gets id ;;
  match List.find (fun t => String.eqb (name (deref t s)) current_name) (topics s) with
  | Some target_topic =>
      new_lock ;;;
      modify (update_topic target_topic
                (fun t => set_history (slice_to start (history t)) t))
  | None => ret tt
  end.

(** Lines 516 to 557: what follows once drift is declared from
    [off_topic_start_index] on. *)
Definition split_off (current_name : string) (start : Z)
    (off_topic_segment : list Message) : M unit :=
  info <- generate_topic_info_from_history off_topic_segment 3 ;;
  if truthy_opt_str (fst info) && truthy_opt_str (snd info) then
    let candidate_topic_name := default "" (fst info) in
    let candidate_topic_desc := default "" (snd info) in
    candidate_embedding <- fetch_embedding candidate_topic_desc ;;
    cur <- gets current_topic ;;
    matched_topic <- _match_topic (Some candidate_embedding) (Some cur) ;;
    match matched_topic with
    | Some m =>
        migrate m off_topic_segment ;;;
        switch_topic m
    | None =>
        try_except (
          new_topic <- alloc (Topic_init candidate_topic_name candidate_topic_desc) ;;
          modify (update_topic new_topic (set_embedded_description candidate_embedding)) ;;;
          migrate new_topic off_topic_segment ;;;
          switch_topic new_topic) ;;;
        truncate_original current_name start
    end
  else ret tt.

(** Lines 482 to 559. *)
Definition drift_phase (off_topic_threshold : Q)
    (off_topic_frequency slice_size : Z) : M unit :=
  s <- gets id ;;
  let cur := deref (current_topic s) s in
  trigger <- lift (drift_trigger (Z.of_nat (length (history cur))) off_topic_frequency) ;;
  if (trigger : bool) then
    let current_name := name cur in
    let candidate_slice := slice_from (- slice_size) (history cur) in
    candidate_embeddings <- gather_fetch (map content candidate_slice) ;;
    s1 <- gets id ;;
    let cur1 := deref (current_topic s1) s1 in
    similarities <- lift (map_res (fun msg_emb =>
                       cosine_similarity_00 kernel (Some msg_emb)
                         (Some (embedded_description cur1)))
                     candidate_embeddings) ;;
    if drift_declared off_topic_threshold similarities then
      let start := off_topic_start_index (Z.of_nat (length (history cur1)))
                     slice_size off_topic_threshold similarities in
      let off_topic_segment := slice_from start (history cur1) in
      split_off current_name start off_topic_segment
    else ret tt
  else ret tt.

Definition _analyze_history (off_topic_threshold : Q)
    (off_topic_frequency slice_size : Z) : M unit :=
  named <- naming_phase ;;
  if (named : bool) then ret tt
  else drift_phase off_topic_threshold off_topic_frequency slice_size.

(** *** [get_relevant_files], up to the list [file_scores] *)

Definition extract_file_name_from_query (query : string) : option string :=
  option_map string_of_list_ascii (FilePattern.search (chars query)).

(** Lines 283 to 286: the pass that scores a name match [1.0]. *)
Definition name_match_pass (fname : string) (files : dict FileInfo)
    : list (string * Q) :=
  flat_map (fun kv =>
    if contains (lower (chars fname)) (lower (chars (file_name (snd kv))))
    then [(fst kv, 1%Q)] else []) files.

(** Lines 290 to 293 and 303 to 306: scoring by embedding. *)
Fixpoint similarity_pass (query_embedding : vec) (threshold : Q)
    (files : dict FileInfo) : Res (list (string * Q)) :=
  match files with
  | [] => Ok []
  | (file_path, file_info) :: rest =>
      match cosine_similarity_00 kernel (Some query_embedding)
              (Some (embedding file_info)) with
      | Raise x => Raise x
      | Ok similarity =>
          match similarity_pass query_embedding threshold rest with
          | Raise x => Raise x
          | Ok scores =>
              Ok (if Qgeb similarity threshold
                  then (file_path, similarity) :: scores else scores)
          end
      end
  end.



End HistoryManager.

(** The defaults of [_analyze_history]. *)
Definition off_topic_threshold_default : Q := 7 # 10.
Definition off_topic_frequency_default : Z := 4.
Definition slice_size_default : Z := 4.

(** ** Interleaved [fetch_embedding] calls

    [asyncio] runs one task at a time and changes task only where a
    coroutine suspends.  A call of [fetch_embedding] suspends once, while
    the embedding service works, so it is a task with two atomic steps.
    A schedule names, step by step, the task that the event loop resumes. *)

Module Scheduler.

Inductive task : Type :=
| Ready (text : string)        (* created, not started *)
| Suspended (text : string)    (* waiting for the embedding service *)
| Finished (result : vec).

Definition step (ollama : string -> vec) (t : task) : M task :=
  match t with
  | Ready text =>
      bind (fetch_enter text) (fun r =>
      ret (match r with Some e => Finished e | None => Suspended text end))
  | Suspended text =>
      bind (fetch_resume ollama text) (fun e => ret (Finished e))
  | Finished e => ret (Finished e)
  end.

Fixpoint run (ollama : string -> vec) (schedule : list nat)
    (tasks : list task) (s : State) : list task * State :=
  match schedule with
  | [] => (tasks, s)
  | i :: schedule' =>
      match tasks !! i with
      | Some t =>
          match step ollama t s with
          | (Ok t', s') => run ollama schedule' (<[i := t']> tasks) s'
          | (Raise _, s') => run ollama schedule' tasks s'
          end
      | None => run ollama schedule' tasks s
      end
  end.

(** The number of requests that the embedding service received for a
    text. *)
Definition external_computations (text : string) (s : State) : nat :=
  length (List.filter (String.eqb text) (ollama_calls s)).

End Scheduler.

(** ** Concrete conversations

    Embeddings of norm one, for which the cosine is the dot product: a
    text that starts with "rust" lies on the first axis, one that starts
    with "cook" on the second; for any other text the embedding service
    yields nothing. *)

Module Fixtures.

Definition ollama_fx (text : string) : vec :=
  if String.prefix "rust" text then [1%Q; 0%Q]
  else if String.prefix "cook" text then [0%Q; 1%Q]
  else [].

(** A summarizer that answers [{"name": "cooking", "description": "cook
    recipes"}] at once, and one that never gives a usable answer. *)
Definition helper_ok (n : nat) (h : list Message) : option (list string) :=
  Some ["cooking"; "cook recipes"].
Definition helper_fail (n : nat) (h : list Message) : option (list string) :=
  None.

Definition user (text : string) : Message := mkMessage "user" text.

(** Eight messages; the last three leave the subject. *)
Definition mixed_history : list Message :=
  [user "rust 1"; user "rust 2"; user "rust 3"; user "rust 4";
   user "rust 5"; user "cook 1"; user "cook 2"; user "cook 3"].

Definition mixed_embeddings : list pyemb :=
  map (fun m => Some (ollama_fx (content m))) mixed_history.

(** The topic "rust", named, with the eight messages. *)
Definition rust_topic : Topic :=
  mkTopic "rust" "rust programming" [1%Q; 0%Q]
          mixed_history mixed_embeddings [].

(** A stored topic about cooking. *)
Definition cooking_topic : Topic :=
  mkTopic "cooking" "cook recipes" [0%Q; 1%Q]
          [user "cook 0"] [Some [0%Q; 1%Q]] [].

(** The current topic is "rust"; nothing is stored. *)
Definition drifting_alone : State :=
  mkState {[ 0%nat := rust_topic ]} 1%nat 2%nat (1 # 2) [] 0%nat ∅ [] 0%nat 0%nat.

(** The current topic is "rust"; "cooking" is stored. *)
Definition drifting_with_cooking : State :=
  mkState (<[ 1%nat := cooking_topic ]> {[ 0%nat := rust_topic ]})
          2%nat 2%nat (1 # 2) [1%nat] 0%nat ∅ [] 0%nat 0%nat.

(** An unnamed current topic with the eight messages. *)
Definition unnamed_topic : Topic :=
  mkTopic "" "" [] mixed_history mixed_embeddings [].
Definition unnamed_eight : State :=
  mkState {[ 0%nat := unnamed_topic ]} 1%nat 2%nat (1 # 2) [] 0%nat ∅ [] 0%nat 0%nat.

(** A topic whose description embedding has cosine exactly one half
    with the first axis of dimension four. *)
Definition half_topic : Topic :=
  mkTopic "half" "half" [1 # 2; 1 # 2; 1 # 2; 1 # 2]%Q [] [] [].
Definition axis4 : vec := [1%Q; 0%Q; 0%Q; 0%Q].
Definition boundary_state : State :=
  mkState (<[ 1%nat := half_topic ]> {[ 0%nat := Topic_init "" "" ]})
          2%nat 2%nat (1 # 2) [1%nat] 0%nat ∅ [] 0%nat 0%nat.

(** A named topic whose fourth message has no embedding: the service
    yields nothing for "hm". *)
Definition rust_four : Topic :=
  mkTopic "rust" "rust programming" [1%Q; 0%Q]
          [user "rust 1"; user "rust 2"; user "rust 3"; user "hm"]
          [Some [1%Q; 0%Q]; Some [1%Q; 0%Q]; Some [1%Q; 0%Q]; Some []] [].
Definition unavailable_state : State :=
  mkState {[ 0%nat := rust_four ]} 1%nat 2%nat (1 # 2) [] 0%nat ∅ [] 0%nat 0%nat.


End Fixtures.

(** ** Predicates of the statements *)


(** The stored topics that take part in a match. *)
Definition candidate (exclude_topic : option loc) (s : State) (t : loc) : Prop :=
  In t (topics s) /\ not_excluded exclude_topic t = true.

(** A topic whose two lists have the same length. *)
Definition aligned (t : Topic) : Prop :=
  length (history t) = length (history_embeddings t).

(** Split a conjunction into its parts, and nothing else. *)
Ltac split_all := intros; repeat match goal with |- _ /\ _ => split end.


(** ** Further predicates and functions of the statements *)

(** The embedding that [add_message] stores: the argument when it is
    [None] or empty, and otherwise what [fetch_embedding] gives for the
    text of the message. *)
Definition stored_embedding (ollama : string -> vec) (m : string) (e : pyemb)
    (s : State) : pyemb :=
  if truthy_emb e
  then match fst (fetch_embedding ollama m s) with
       | Ok v => Some v
       | Raise _ => None
       end
  else e.

(** Every topic of the heap has as many messages as embeddings. *)
Definition all_aligned (s : State) : Prop :=
  forall l, aligned (deref l s).

(** Two stored topics with the same description embedding. *)
Definition baking_topic : Topic :=
  mkTopic "baking" "cook bread" [0%Q; 1%Q] [] [] [].
Definition tie_state : State :=
  mkState (<[ 2%nat := baking_topic ]>
             (<[ 1%nat := Fixtures.cooking_topic ]> {[ 0%nat := Fixtures.rust_topic ]}))
          3%nat 2%nat (1 # 2) [1%nat; 2%nat] 0%nat ∅ [] 0%nat 0%nat.

(** An outcome of a request to the summarizer from which
    [generate_topic_info_from_history] takes a name and a description:
    [matches] gives a non-empty first entry (or none, for "unknown") and
    a non-empty second entry. *)
Definition usable (outcome : option (list string)) : bool :=
  match outcome with
  | Some matches =>
      truthy_str (nth 0 matches "unknown") && truthy_str (nth 1 matches "")
  | None => false
  end.

(** The vector that [fetch_embedding] returns for a text: the cached
    one, else the answer of the service, the empty vector standing for
    no answer. *)
Definition fetched (ollama : string -> vec) (text : string) (s : State) : vec :=
  match embedding_cache s !! text with
  | Some e => e
  | None => if truthy_list (ollama text) then ollama text else []
  end.

(** [d.get(k)]: the value at a key of a [dict]. *)
Definition dict_get {V} (k : string) (d : dict V) : option V :=
  option_map snd (List.find (fun kv => String.eqb k (fst kv)) d).

(** The characters that the file-name pattern can match. *)
Definition pattern_char (c : ascii) : bool :=
  FilePattern.is_word c || Ascii.eqb c slash || Ascii.eqb c "."%char.

(** The text that [add_file] embeds. *)
Definition combined_content (file_path file_content : string) : string :=
  ("Path: " ++ file_path ++ String "010"%char ("Content: " ++ file_content))%string.

(** What a match at the head of the input is: a prefix of the input, made
    of pattern characters, with a dot in it. *)
Definition head_match (m s : list ascii) : Prop :=
  starts_with m s = true /\ In "."%char m /\
  Forall (fun c => pattern_char c = true) m.

(** The topic "rust" with its first four messages, all on the subject. *)
Definition on_topic_state : State :=
  update_topic 0%nat (set_history (slice_to 4 Fixtures.mixed_history))
    Fixtures.drifting_alone.

(** ** [get_relevant_files], from [file_scores] to the result *)

(** [_read_file]: the path with the content of the file, or with the
    empty string when the file cannot be read; [disk] gives the content
    of the files that can. *)
Definition _read_file (disk : string -> option string) (file_path : string)
    : string * string :=
  (file_path, default "" (disk file_path)).

(** [file_scores.sort(key=lambda x: x[1], reverse=True)]: a stable sort,
    greatest score first; entries of equal score keep their order. *)
Fixpoint insert_desc (x : string * Q) (l : list (string * Q)) : list (string * Q) :=
  match l with
  | [] => [x]
  | y :: l' =>
      if Qltb (snd x) (snd y) then y :: insert_desc x l' else x :: y :: l'
  end.

Definition sort_desc (l : list (string * Q)) : list (string * Q) :=
  fold_right insert_desc [] l.

(** Lines 309 to 317. *)
Definition select_files (disk : string -> option string) (k : Z)
    (file_scores : list (string * Q)) : option (list (string * string)) :=
  if truthy_list file_scores then
    let selected_file_paths := map fst (slice_to k (sort_desc file_scores)) in
    let results := map (_read_file disk) selected_file_paths in
    Some (List.filter (fun r => truthy_str (snd r)) results)
  else None.


(** ** Folder structures and the prompt *)

(** A folder structure is a [dict]; a value that is itself a [dict] is a
    sub-folder, any other value stands for a file. *)
#[warnings="-register-all"] Inductive Node : Type :=
| File (value : string)
| Folder (children : list (string * Node)).

Definition Tree : Type := list (string * Node).

(** [" " * indent] *)
Fixpoint spaces (indent : nat) : string :=
  match indent with
  | O => ""
  | S n => String " "%char (spaces n)
  end.

Definition newline : string := String "010"%char "".

(** One turn of the loop of [format_substructure], for an item
    [(key, value)]. *)
Fixpoint format_item (indent : nat) (key : string) (value : Node) : string :=
  match value with
  | Folder children =>
      (spaces indent ++ key ++ "/" ++ newline ++
       (fix format_items (items : list (string * Node)) : string :=
          match items with
          | [] => ""
          | (k, v) :: rest => format_item (indent + 4) k v ++ format_items rest
          end) children)%string
  | File v => (spaces indent ++ "-- " ++ v ++ newline)%string
  end.

(** [format_substructure(substructure, indent)] *)
Fixpoint format_substructure (substructure : Tree) (indent : nat) : string :=
  match substructure with
  | [] => ""
  | (k, v) :: rest =>
      (format_item indent k v ++ format_substructure rest indent)%string
  end.

(** [format_structure] *)
Definition format_structure (folder_structure : Tree) : string :=
  format_substructure folder_structure 0.





(** The number of line ends of a text. *)
Fixpoint count_newlines (s : string) : nat :=
  match s with
  | EmptyString => 0%nat
  | String c s' =>
      ((if Ascii.eqb c "010"%char then 1 else 0) + count_newlines s')%nat
  end.

(** The number of entries of a folder structure, sub-folders and their
    entries included. *)
Fixpoint entries_item (value : Node) : nat :=
  match value with
  | File _ => 1%nat
  | Folder children =>
      S ((fix entries_items (items : list (string * Node)) : nat :=
            match items with
            | [] => 0%nat
            | (_, v) :: rest => (entries_item v + entries_items rest)%nat
            end) children)
  end.

Fixpoint entries (t : Tree) : nat :=
  match t with
  | [] => 0%nat
  | (_, v) :: rest => (entries_item v + entries rest)%nat
  end.

(** No rendered name holds a line end: the keys of folders and the
    values of files. *)
Fixpoint one_line_item (key : string) (value : Node) : Prop :=
  match value with
  | File v => count_newlines v = 0%nat
  | Folder children =>
      count_newlines key = 0%nat /\
      (fix one_line_items (items : list (string * Node)) : Prop :=
         match items with
         | [] => True
         | (k, v) :: rest => one_line_item k v /\ one_line_items rest
         end) children
  end.

Fixpoint one_line (t : Tree) : Prop :=
  match t with
  | [] => True
  | (k, v) :: rest => one_line_item k v /\ one_line rest
  end.

(** The topic "rust" with four messages, of which exactly two leave the
    subject. *)
Definition half_drift_state : State :=
  update_topic 0%nat
    (set_history [Fixtures.user "rust 1"; Fixtures.user "rust 2";
                  Fixtures.user "cook 1"; Fixtures.user "cook 2"])
    Fixtures.drifting_alone.

(** A topic whose name is a no-break space (U+00A0), with the eight
    messages of [mixed_history]. *)
Definition blank_named_eight : State :=
  update_topic 0%nat (set_name (String "194" (String "160" "")))
    Fixtures.unnamed_eight.
(** * Properties *)


(** ** Comparisons of scores *)

Lemma Qltb_lt (x y : Q) : Qltb x y = true <-> (x < y)%Q.
Proof.
  unfold Qltb. rewrite negb_true_iff.
  split.
  - intros H. apply Qnot_le_lt. intros Hle.
    apply Qle_bool_iff in Hle. congruence.
  - intros H. destruct (Qle_bool y x) eqn:E; [|reflexivity].
    apply Qle_bool_iff in E. exfalso. exact (Qlt_not_le _ _ H E).
Qed.

Lemma Qltb_ge (x y : Q) : Qltb x y = false <-> (y <= x)%Q.
Proof.
  unfold Qltb. rewrite negb_false_iff. apply Qle_bool_iff.
Qed.

Lemma Qgeb_ge (x y : Q) : Qgeb x y = true <-> (y <= x)%Q.
Proof. unfold Qgeb. apply Qle_bool_iff. Qed.

Lemma Qgeb_lt (x y : Q) : Qgeb x y = false <-> (x < y)%Q.
Proof.
  unfold Qgeb. split.
  - intros H. apply Qnot_le_lt. intros Hle.
    apply Qle_bool_iff in Hle. congruence.
  - intros H. destruct (Qle_bool y x) eqn:E; [|reflexivity].
    apply Qle_bool_iff in E. exfalso. exact (Qlt_not_le _ _ H E).
Qed.

(** ** Python slices *)

Lemma slice_from_last_lookup {A} (xs : list A) (k : Z) (i : nat) :
  0 < k <= Z.of_nat (length xs) ->
  slice_from (- k) xs !! i = xs !! Z.to_nat (Z.of_nat (length xs) - k + Z.of_nat i).
Proof.
  intros Hk. unfold slice_from.
  destruct (- k <? 0) eqn:E.
  - rewrite lookup_drop. f_equal. lia.
  - apply Z.ltb_ge in E. lia.
Qed.

Lemma slice_from_length {A} (xs : list A) (k : Z) :
  0 <= k <= Z.of_nat (length xs) ->
  length (slice_from k xs) = Z.to_nat (Z.of_nat (length xs) - k).
Proof.
  intros Hk. unfold slice_from.
  destruct (k <? 0) eqn:E; [apply Z.ltb_lt in E; lia|].
  rewrite length_drop. lia.
Qed.

Lemma slice_to_length {A} (xs : list A) (k : Z) :
  0 <= k <= Z.of_nat (length xs) ->
  length (slice_to k xs) = Z.to_nat k.
Proof.
  intros Hk. unfold slice_to.
  destruct (k <? 0) eqn:E; [apply Z.ltb_lt in E; lia|].
  rewrite length_take. lia.
Qed.

(** ** The drift decision *)

Lemma drift_declared_iff (thr : Q) (sims : list Q) :
  drift_declared thr sims = true <->
  (length sims < 2 * count_below thr sims)%nat.
Proof.
  unfold drift_declared. rewrite Qltb_lt.
  unfold Qlt, Qdiv, Qmult, Qinv, inject_Z. simpl.
  lia.
Qed.

Lemma start_loop_first (base : Z) (thr : Q) (sims : list Q) :
  forall (k : Z) (d : Z) (i : nat) (sim : Q),
    sims !! i = Some sim ->
    (sim < thr)%Q ->
    (forall j sim', (j < i)%nat -> sims !! j = Some sim' -> ~ (sim' < thr)%Q) ->
    start_loop base thr k sims d = base + k + Z.of_nat i.
Proof.
  induction sims as [|x rest IH]; intros k d i sim Hi Hlt Hbefore.
  - discriminate.
  - destruct i as [|i]; simpl in *.
    + injection Hi as ->. apply Qltb_lt in Hlt. rewrite Hlt. lia.
    + destruct (Qltb x thr) eqn:E.
      * apply Qltb_lt in E. exfalso.
        apply (Hbefore 0%nat x); [lia|reflexivity|exact E].
      * rewrite (IH (k + 1) d i sim Hi Hlt).
        -- lia.
        -- intros j sim' Hj Hl. apply (Hbefore (S j) sim'); [lia|exact Hl].
Qed.

Lemma start_loop_none (base : Z) (thr : Q) (sims : list Q) :
  forall (k d : Z),
    (forall sim, In sim sims -> ~ (sim < thr)%Q) ->
    start_loop base thr k sims d = d.
Proof.
  induction sims as [|x rest IH]; intros k d Hall; simpl.
  - reflexivity.
  - destruct (Qltb x thr) eqn:E.
    + apply Qltb_lt in E. exfalso. apply (Hall x); [left; reflexivity|exact E].
    + apply IH. intros sim Hin. apply Hall. right. exact Hin.
Qed.

Lemma first_below_exists (thr : Q) (sims : list Q) :
  (0 < count_below thr sims)%nat ->
  exists (i : nat) (sim : Q),
    sims !! i = Some sim /\ (sim < thr)%Q /\
    (forall j sim', (j < i)%nat -> sims !! j = Some sim' -> ~ (sim' < thr)%Q).
Proof.
  unfold count_below.
  induction sims as [|x rest IH]; simpl; intros Hpos.
  - lia.
  - destruct (Qltb x thr) eqn:E.
    + exists 0%nat, x. split; [reflexivity|]. split; [apply Qltb_lt; exact E|].
      intros j sim' Hj. lia.
    + rewrite filter_cons_False in Hpos by (rewrite E; discriminate).
      destruct (IH Hpos) as (i & sim & Hi & Hlt & Hbefore).
      exists (S i), sim. split; [exact Hi|]. split; [exact Hlt|].
      intros [|j] sim' Hj Hl; simpl in Hl.
      * injection Hl as <-. apply Qltb_ge in E. intros Hc.
        exact (Qlt_not_le _ _ Hc E).
      * apply (Hbefore j sim'); [lia|exact Hl].
Qed.

(** The two expressions of lines 504 to 510, on any list of
    similarities: the test is true exactly when strictly more than half
    of them are below the threshold; the index is that of the first one
    below the threshold, counted in the whole history, and the start of
    the slice when there is none. *)
Lemma drift_decision_facts
    (thr : Q) (hist : list Message) (sims : list Q) (slice_size : Z)
    (Hslice : 0 < slice_size <= Z.of_nat (length hist)) :
  let n := Z.of_nat (length hist) in
  (drift_declared thr sims = true <->
     (length sims < 2 * count_below thr sims)%nat) /\
  ((length sims = 2 * count_below thr sims)%nat ->
     drift_declared thr sims = false) /\
  (forall (i : nat) (sim : Q),
     sims !! i = Some sim -> (sim < thr)%Q ->
     (forall j sim', (j < i)%nat -> sims !! j = Some sim' -> ~ (sim' < thr)%Q) ->
     off_topic_start_index n slice_size thr sims = n - slice_size + Z.of_nat i /\
     slice_from (- slice_size) hist !! i
       = hist !! Z.to_nat (n - slice_size + Z.of_nat i)) /\
  (drift_declared thr sims = true ->
     exists (i : nat) (sim : Q),
       sims !! i = Some sim /\ (sim < thr)%Q /\
       off_topic_start_index n slice_size thr sims = n - slice_size + Z.of_nat i) /\
  ((forall sim, In sim sims -> ~ (sim < thr)%Q) ->
     off_topic_start_index n slice_size thr sims = n - slice_size).
Proof.
  intros n.
  assert (Hfirst : forall (i : nat) (sim : Q),
     sims !! i = Some sim -> (sim < thr)%Q ->
     (forall j sim', (j < i)%nat -> sims !! j = Some sim' -> ~ (sim' < thr)%Q) ->
     off_topic_start_index n slice_size thr sims = n - slice_size + Z.of_nat i).
  { intros i sim Hi Hlt Hbefore. unfold off_topic_start_index.
    rewrite (start_loop_first _ _ _ _ _ i sim Hi Hlt Hbefore). lia. }
  split; [apply drift_declared_iff|].
  split.
  { intros Hhalf. destruct (drift_declared thr sims) eqn:E; [|reflexivity].
    apply drift_declared_iff in E. lia. }
  split.
  { intros i sim Hi Hlt Hbefore. split; [eauto|].
    apply slice_from_last_lookup. exact Hslice. }
  split.
  { intros Hd. apply drift_declared_iff in Hd.
    destruct (first_below_exists thr sims) as (i & sim & Hi & Hlt & Hbefore); [lia|].
    exists i, sim. eauto. }
  intros Hnone. unfold off_topic_start_index. apply start_loop_none. exact Hnone.
Qed.

(** The slice of the spec: three of four below 0.7, the first of them at
    position 1. *)
Lemma drift_decision_facts_example :
  0 < slice_size_default <= Z.of_nat (length Fixtures.mixed_history) /\
  drift_declared off_topic_threshold_default [9 # 10; 2 # 10; 2 # 10; 1 # 10]%Q = true /\
  drift_declared off_topic_threshold_default [9 # 10; 9 # 10; 2 # 10; 1 # 10]%Q = false /\
  off_topic_start_index 8 slice_size_default off_topic_threshold_default
    [9 # 10; 2 # 10; 2 # 10; 1 # 10]%Q = 5.
Proof.
  assert (H : 0 < slice_size_default <= Z.of_nat (length Fixtures.mixed_history))
    by (vm_compute; split; [reflexivity|discriminate]).
  split; [exact H|].
  destruct (drift_decision_facts off_topic_threshold_default
              Fixtures.mixed_history [9 # 10; 2 # 10; 2 # 10; 1 # 10]%Q
              slice_size_default H) as (Hiff & _ & Hfirst & _ & _).
  destruct (drift_decision_facts off_topic_threshold_default
              Fixtures.mixed_history [9 # 10; 9 # 10; 2 # 10; 1 # 10]%Q
              slice_size_default H) as (_ & Hhalf & _ & _ & _).
  split; [apply Hiff; vm_compute; lia|].
  split; [apply Hhalf; reflexivity|].
  destruct (Hfirst 1%nat (2 # 10)%Q) as [Hstart _].
  - reflexivity.
  - reflexivity.
  - intros [|j] sim' Hj Hl; [|lia].
    injection Hl as <-. discriminate.
  - exact Hstart.
Qed.

(** ** File names and the name-match pass *)

(** The pattern on the examples of the spec. *)
Example search_path :
  FilePattern.search (chars "open src/app/main.py and summarize")
  = Some (chars "src/app/main.py").
Proof. reflexivity. Qed.

Example search_none : FilePattern.search (chars "hello world") = None.
Proof. reflexivity. Qed.

Example search_plain :
  FilePattern.search (chars "read a/b and main.py_x") = Some (chars "main.py").
Proof. reflexivity. Qed.

Example search_backtrack :
  FilePattern.search (chars "x/y.z/w.q") = Some (chars "x/y.z").
Proof. reflexivity. Qed.







Lemma starts_with_In (p s : list ascii) (c : ascii) :
  starts_with p s = true -> In c p -> In c s.
Proof.
  revert s. induction p as [|a p IH]; intros s H Hin.
  - destruct Hin.
  - destruct s as [|b s]; simpl in H; [discriminate|].
    destruct (Ascii.eqb a b) eqn:E; [|discriminate].
    apply Ascii.eqb_eq in E. subst b.
    destruct Hin as [->|Hin]; [left; reflexivity|right; eauto].
Qed.

(** [p in s] needs every character of [p] in [s]. *)
Lemma contains_In (p s : list ascii) (c : ascii) :
  contains p s = true -> In c p -> In c s.
Proof.
  induction s as [|b s IH]; cbn [contains]; intros H Hin.
  - rewrite orb_false_r in H. exact (starts_with_In p [] c H Hin).
  - apply orb_true_iff in H. destruct H as [H|H].
    + exact (starts_with_In p (b :: s) c H Hin).
    + right. eauto.
Qed.





Lemma Topic_add_message_file_embeddings (r m : string) (e : pyemb) (t : Topic) :
  file_embeddings (Topic_add_message r m e t) = file_embeddings t.
Proof. reflexivity. Qed.




(** ** Topic matching *)

Lemma map_res_Ok {A B} (f : A -> Res B) (xs : list A) (ys : list B) :
  map_res f xs = Ok ys -> Forall2 (fun x y => f x = Ok y) xs ys.
Proof.
  revert ys. induction xs as [|x xs IH]; simpl; intros ys H.
  - injection H as <-. constructor.
  - destruct (f x) as [y|] eqn:Ex; [|discriminate].
    destruct (map_res f xs) as [ys'|] eqn:Exs; [|discriminate].
    injection H as <-. constructor; auto.
Qed.

Lemma map_res_Raise {A B} (f : A -> Res B) (xs : list A) (e : exn) :
  map_res f xs = Raise e -> exists x, In x xs /\ f x = Raise e.
Proof.
  induction xs as [|x xs IH]; simpl; intros H; [discriminate|].
  destruct (f x) as [y|e'] eqn:Ex.
  - destruct (map_res f xs) as [ys'|e''] eqn:Exs; [discriminate|].
    injection H as ->. destruct (IH eq_refl) as (x' & Hin & Hx').
    exists x'. split; [right; exact Hin|exact Hx'].
  - injection H as ->. exists x. split; [left; reflexivity|exact Ex].
Qed.

(** What the selection loop leaves in [(best_topic, best_similarity)]:
    either nothing beat the initial pair, or the pair is an entry at or
    above the threshold that no entry exceeds. *)
Lemma select_from (threshold : Q) (results : list (Q * loc)) :
  forall (acc : option loc * Q),
    let res := fold_left (better threshold) results acc in
    (res = acc /\
     forall r, In r results -> ~ ((snd acc < fst r)%Q /\ (threshold <= fst r)%Q))
    \/
    (exists t sim,
       res = (Some t, sim) /\ In (sim, t) results /\
       (snd acc < sim)%Q /\ (threshold <= sim)%Q /\
       forall r, In r results -> (fst r <= sim)%Q).
Proof.
  induction results as [|r rest IH]; intros acc; simpl.
  - left. split; [reflexivity|]. intros r [].
  - change (better threshold acc r)
      with (if Qltb (snd acc) (fst r) && Qgeb (fst r) threshold
            then (Some (snd r), fst r) else acc).
    destruct (Qltb (snd acc) (fst r) && Qgeb (fst r) threshold) eqn:E.
    + apply andb_true_iff in E. destruct E as [E1 E2].
      apply Qltb_lt in E1. apply Qgeb_ge in E2.
      right. destruct (IH (Some (snd r), fst r)) as [[Heq Hno]|(t & sim & Heq & Hin & Hgt & Hthr & Hmax)].
      * exists (snd r), (fst r). split; [exact Heq|].
        split; [left; destruct r; reflexivity|].
        split; [exact E1|]. split; [exact E2|].
        intros r' [<-|Hin']; [apply Qle_refl|].
        specialize (Hno r' Hin'). simpl in Hno.
        destruct (Qlt_le_dec (fst r) (fst r')) as [Hlt|Hle]; [|exact Hle].
        destruct (Qlt_le_dec (fst r') threshold) as [Hlt'|Hle'].
        -- apply Qlt_le_weak. eapply Qlt_le_trans; eauto.
        -- exfalso. apply Hno. split; assumption.
      * simpl in Hgt. exists t, sim. split; [exact Heq|].
        split; [right; exact Hin|].
        split; [eapply Qlt_trans; eauto|]. split; [exact Hthr|].
        intros r' [<-|Hin']; [apply Qlt_le_weak; exact Hgt|auto].
    + assert (Hr : ~ ((snd acc < fst r)%Q /\ (threshold <= fst r)%Q)).
      { intros [H1 H2]. apply Qltb_lt in H1. apply Qgeb_ge in H2.
        rewrite H1, H2 in E. discriminate. }
      destruct (IH acc) as [[Heq Hno]|(t & sim & Heq & Hin & Hgt & Hthr & Hmax)].
      * left. split; [exact Heq|]. intros r' [<-|Hin']; auto.
      * right. exists t, sim. split; [exact Heq|].
        split; [right; exact Hin|]. split; [exact Hgt|]. split; [exact Hthr|].
        intros r' [<-|Hin']; [|auto].
        destruct (Qlt_le_dec (snd acc) (fst r)) as [Hlt|Hle].
        -- destruct (Qlt_le_dec (fst r) threshold) as [Hlt'|Hle'].
           ++ apply Qlt_le_weak. eapply Qlt_le_trans; eauto.
           ++ exfalso. apply Hr. split; assumption.
        -- apply Qlt_le_weak. eapply Qle_lt_trans; eauto.
Qed.


Lemma scored_results (kernel : vec -> vec -> Q) (e : pyemb) (s : State)
    (cands : list loc) (results : list (Q * loc)) :
  map_res (scored kernel e s) cands = Ok results ->
  (forall sim t, In (sim, t) results ->
     In t cands /\ compute_similarity kernel e (deref t s) = Ok sim) /\
  (forall t, In t cands ->
     exists sim, In (sim, t) results /\
                 compute_similarity kernel e (deref t s) = Ok sim).
Proof.
  intros H. apply map_res_Ok in H.
  induction H as [|t r cands results Hr _ IH].
  - split; [intros ? ? []|intros ? []].
  - destruct IH as [IH1 IH2]. unfold scored in Hr.
    destruct (compute_similarity kernel e (deref t s)) as [sim0|] eqn:E; [|discriminate].
    injection Hr as <-.
    split.
    + intros sim t' [Heq|Hin].
      * injection Heq as <- <-. split; [left; reflexivity|exact E].
      * destruct (IH1 sim t' Hin). split; [right|]; assumption.
    + intros t' [<-|Hin].
      * exists sim0. split; [left; reflexivity|exact E].
      * destruct (IH2 t' Hin) as (sim & Hin' & Hs).
        exists sim. split; [right|]; assumption.
Qed.

Lemma candidate_filter (exclude_topic : option loc) (s : State) (t : loc) :
  In t (List.filter (not_excluded exclude_topic) (topics s))
  <-> candidate exclude_topic s t.
Proof. unfold candidate. apply filter_In. Qed.

(** What [_match_topic] does.  It changes nothing, and its result
    is one of three.  A topic: it is stored and not excluded, its score
    is at or above the threshold and above 0.0 (the initial best), and no
    stored, non-excluded topic scores higher.  None: every stored,
    non-excluded topic has a score, and none of them is both above 0.0
    and at or above the threshold.  An exception: the score of a stored,
    non-excluded topic raised it.  So, when every such topic scores below
    the threshold, the result is none. *)
Theorem match_topic_at_or_above_threshold
    (kernel : vec -> vec -> Q) (e : pyemb) (exclude_topic : option loc)
    (s : State) :
  snd (_match_topic kernel e exclude_topic s) = s /\
  match fst (_match_topic kernel e exclude_topic s) with
  | Ok (Some t) =>
      candidate exclude_topic s t /\
      exists sim,
        compute_similarity kernel e (deref t s) = Ok sim /\
        (similarity_threshold s <= sim)%Q /\ (0 < sim)%Q /\
        forall t' sim',
          candidate exclude_topic s t' ->
          compute_similarity kernel e (deref t' s) = Ok sim' ->
          (sim' <= sim)%Q
  | Ok None =>
      forall t, candidate exclude_topic s t ->
        exists sim,
          compute_similarity kernel e (deref t s) = Ok sim /\
          ~ ((0 < sim)%Q /\ (similarity_threshold s <= sim)%Q)
  | Raise x =>
      exists t, candidate exclude_topic s t /\
                compute_similarity kernel e (deref t s) = Raise x
  end /\
  ((forall t, candidate exclude_topic s t ->
      exists sim, compute_similarity kernel e (deref t s) = Ok sim /\
                  (sim < similarity_threshold s)%Q) ->
   fst (_match_topic kernel e exclude_topic s) = Ok None).
Proof.
  assert (Hmain :
    snd (_match_topic kernel e exclude_topic s) = s /\
    match fst (_match_topic kernel e exclude_topic s) with
    | Ok (Some t) =>
        candidate exclude_topic s t /\
        exists sim,
          compute_similarity kernel e (deref t s) = Ok sim /\
          (similarity_threshold s <= sim)%Q /\ (0 < sim)%Q /\
          forall t' sim',
            candidate exclude_topic s t' ->
            compute_similarity kernel e (deref t' s) = Ok sim' ->
            (sim' <= sim)%Q
    | Ok None =>
        forall t, candidate exclude_topic s t ->
          exists sim,
            compute_similarity kernel e (deref t s) = Ok sim /\
            ~ ((0 < sim)%Q /\ (similarity_threshold s <= sim)%Q)
    | Raise x =>
        exists t, candidate exclude_topic s t /\
                  compute_similarity kernel e (deref t s) = Raise x
    end).
  { unfold _match_topic, bind, gets, lift, ret, id. simpl.
    destruct (Nat.eqb (length (topics s)) 0) eqn:Elen.
    - simpl. split; [reflexivity|].
      intros t [Hin _]. apply Nat.eqb_eq in Elen.
      destruct (topics s); [destruct Hin|discriminate].
    - destruct (map_res (scored kernel e s)
                  (List.filter (not_excluded exclude_topic) (topics s)))
        as [results|x] eqn:Eres; simpl.
      + split; [reflexivity|].
        destruct (scored_results _ _ _ _ _ Eres) as [Hsound Hcomplete].
        unfold select_best.
        destruct (select_from (similarity_threshold s) results (None, 0%Q))
          as [[Heq Hno]|(t & sim & Heq & Hin & Hgt & Hthr & Hmax)].
        * rewrite Heq. simpl.
          intros t Hc. apply candidate_filter in Hc.
          destruct (Hcomplete t Hc) as (sim & Hin & Hs).
          exists sim. split; [exact Hs|]. exact (Hno (sim, t) Hin).
        * rewrite Heq. simpl.
          destruct (Hsound sim t Hin) as [Hc Hs].
          split; [apply candidate_filter; exact Hc|].
          exists sim. split; [exact Hs|]. split; [exact Hthr|].
          split; [exact Hgt|].
          intros t' sim' Hc' Hs'. apply candidate_filter in Hc'.
          destruct (Hcomplete t' Hc') as (sim'' & Hin'' & Hs'').
          rewrite Hs' in Hs''. injection Hs'' as <-.
          exact (Hmax (sim', t') Hin'').
      + split; [reflexivity|].
        destruct (map_res_Raise _ _ _ Eres) as (t & Hin & Ht).
        exists t. split; [apply candidate_filter; exact Hin|].
        unfold scored in Ht.
        destruct (compute_similarity kernel e (deref t s)); [discriminate|].
        injection Ht as ->. reflexivity. }
  destruct Hmain as [Hstate Hres].
  split; [exact Hstate|]. split; [exact Hres|].
  intros Hbelow.
  destruct (fst (_match_topic kernel e exclude_topic s)) as [[t|]|x].
  - exfalso. destruct Hres as (Hc & sim & Hs & Hthr & _).
    destruct (Hbelow t Hc) as (sim' & Hs' & Hlt).
    rewrite Hs in Hs'. injection Hs' as <-.
    exact (Qlt_not_le _ _ Hlt Hthr).
  - reflexivity.
  - exfalso. destruct Hres as (t & Hc & Hs).
    destruct (Hbelow t Hc) as (sim' & Hs' & _). congruence.
Qed.

(** C6. A topic that does not exceed the threshold is returned.  With
    the default threshold 0.5 and one stored topic, whose score for the
    embedding is exactly 0.5, [_match_topic] returns that topic; the
    score is not strictly above the threshold, so that by its docstring
    ("The best matching topic if similarity exceeds the threshold") the
    result had to be none. *)
Theorem match_topic_returns_topic_at_threshold :
  fst (_match_topic dot (Some Fixtures.axis4) None Fixtures.boundary_state)
    = Ok (Some 1%nat) /\
  (similarity_threshold Fixtures.boundary_state == 1 # 2)%Q /\
  exists sim,
    compute_similarity dot (Some Fixtures.axis4)
      (deref 1%nat Fixtures.boundary_state) = Ok sim /\
    (sim == 1 # 2)%Q /\
    ~ (similarity_threshold Fixtures.boundary_state < sim)%Q.
Proof.
  split; [reflexivity|]. split; [reflexivity|].
  eexists. split; [vm_compute; reflexivity|].
  split; [reflexivity|].
  vm_compute. intros H. discriminate H.
Qed.

(** ** Switching topics *)

Lemma switch_topic_unfold (target : loc) (s : State) :
  switch_topic target s =
  let s1 := set_locks_created (S (locks_created s)) s in
  if negb (String.eqb (name (deref target s)) (name (deref (current_topic s) s)))
  then
    (Ok tt,
     set_current_topic target
       (if negb (name_stored (name (deref (current_topic s) s)) s)
        then set_topics (topics s ++ [current_topic s]) s1
        else s1))
  else (Ok tt, s1).
Proof.
  unfold switch_topic, bind, new_lock, modify, gets, ret, id. simpl.
  change (deref target (set_locks_created (S (locks_created s)) s))
    with (deref target s).
  change (deref (current_topic s) (set_locks_created (S (locks_created s)) s))
    with (deref (current_topic s) s).
  change (name_stored (name (deref (current_topic s) s))
            (set_locks_created (S (locks_created s)) s))
    with (name_stored (name (deref (current_topic s) s)) s).
  destruct (negb (String.eqb _ _)); [|reflexivity].
  destruct (negb (name_stored _ s)); reflexivity.
Qed.

Lemma name_stored_In (n : string) (s : State) :
  name_stored n s = true <->
  exists t, In t (topics s) /\ name (deref t s) = n.
Proof.
  unfold name_stored. rewrite existsb_exists.
  split; intros (t & Hin & Ht); exists t; (split; [exact Hin|]);
    apply String.eqb_eq; exact Ht.
Qed.

(** After construction the current topic is not a stored one. *)
Lemma init_current_not_stored (k : nat) (threshold : Q) :
  ~ In (current_topic (HistoryManager_init k threshold))
       (topics (HistoryManager_init k threshold)).
Proof. intros []. Qed.

(** A switch to a topic of the same name changes neither the stored
    topics nor the current one. *)
Lemma switch_topic_same_name (target : loc) (s : State) :
  name (deref target s) = name (deref (current_topic s) s) ->
  topics (snd (switch_topic target s)) = topics s /\
  current_topic (snd (switch_topic target s)) = current_topic s.
Proof.
  intros H. rewrite switch_topic_unfold. simpl.
  apply String.eqb_eq in H. rewrite H. simpl. split; reflexivity.
Qed.

(** A switch to a topic that is not stored keeps the current topic out of
    the stored ones. *)
Lemma switch_topic_to_new_keeps_apart (target : loc) (s : State) :
  ~ In target (topics s) ->
  ~ In (current_topic s) (topics s) ->
  ~ In (current_topic (snd (switch_topic target s)))
       (topics (snd (switch_topic target s))).
Proof.
  intros Htarget Hcur. rewrite switch_topic_unfold. simpl.
  destruct (String.eqb _ _) eqn:E; simpl; [exact Hcur|].
  destruct (name_stored _ s); simpl; [exact Htarget|].
  intros H. apply in_app_or in H. destruct H as [H|[H|[]]]; [exact (Htarget H)|].
  subst target. rewrite String.eqb_refl in E. discriminate.
Qed.

(** C4, as the code has it.  There is one current topic, and
    [switch_topic] removes nothing from [topics]: after a switch to a
    stored topic whose name differs from the current topic's, that topic
    is the current one and is still stored, as is every topic stored
    before, and a topic with the name of the previous current topic is
    stored as well.  No [Topic] object changes. *)
Theorem switch_topic_to_stored_keeps_it_stored
    (target : loc) (s : State)
    (Hstored : In target (topics s))
    (Hname : name (deref target s) <> name (deref (current_topic s) s)) :
  let s' := snd (switch_topic target s) in
  fst (switch_topic target s) = Ok tt /\
  current_topic s' = target /\
  In (current_topic s') (topics s') /\
  (forall t, In t (topics s) -> In t (topics s')) /\
  name_stored (name (deref (current_topic s) s)) s' = true /\
  heap s' = heap s.
Proof.
  rewrite switch_topic_unfold. simpl.
  apply String.eqb_neq in Hname. rewrite Hname. simpl.
  destruct (name_stored (name (deref (current_topic s) s)) s) eqn:E; simpl.
  - repeat split; auto.
  - split; [reflexivity|]. split; [reflexivity|].
    split; [apply in_or_app; left; exact Hstored|].
    split; [intros t Ht; apply in_or_app; left; exact Ht|].
    split; [|reflexivity].
    apply name_stored_In. exists (current_topic s).
    split; [apply in_or_app; right; left; reflexivity|reflexivity].
Qed.

(** "rust" is current and "cooking" is stored; the switch makes "cooking"
    current and keeps it among the stored topics. *)
Lemma switch_topic_to_stored_keeps_it_stored_witness :
  In 1%nat (topics Fixtures.drifting_with_cooking) /\
  current_topic (snd (switch_topic 1%nat Fixtures.drifting_with_cooking)) = 1%nat /\
  topics (snd (switch_topic 1%nat Fixtures.drifting_with_cooking)) = [1%nat; 0%nat].
Proof.
  assert (H1 : In 1%nat (topics Fixtures.drifting_with_cooking))
    by (left; reflexivity).
  assert (H2 : name (deref 1%nat Fixtures.drifting_with_cooking)
               <> name (deref (current_topic Fixtures.drifting_with_cooking)
                          Fixtures.drifting_with_cooking))
    by (vm_compute; discriminate).
  destruct (switch_topic_to_stored_keeps_it_stored 1%nat
              Fixtures.drifting_with_cooking H1 H2) as (_ & Hcur & _).
  split; [exact H1|]. split; [exact Hcur|]. reflexivity.
Defined.

(** C4 fails as stated: after a switch to the stored topic "cooking",
    the current topic is a member of the stored topics. *)
Lemma current_topic_stored_counterexample :
  In 1%nat (topics Fixtures.drifting_with_cooking) /\
  fst (switch_topic 1%nat Fixtures.drifting_with_cooking) = Ok tt /\
  current_topic (snd (switch_topic 1%nat Fixtures.drifting_with_cooking)) = 1%nat /\
  In (current_topic (snd (switch_topic 1%nat Fixtures.drifting_with_cooking)))
     (topics (snd (switch_topic 1%nat Fixtures.drifting_with_cooking))).
Proof.
  split; [left; reflexivity|]. split; [reflexivity|]. split; [reflexivity|].
  left. reflexivity.
Qed.

(** ** Routing a message *)

Lemma match_topic_state (kernel : vec -> vec -> Q) (e : pyemb)
    (exclude_topic : option loc) (s : State) :
  snd (_match_topic kernel e exclude_topic s) = s.
Proof.
  unfold _match_topic, bind, gets, lift, ret, id. simpl.
  destruct (Nat.eqb (length (topics s)) 0); [reflexivity|].
  destruct (map_res _ _); reflexivity.
Qed.

Lemma switch_topic_outside (target : loc) (s : State) :
  ollama_calls (snd (switch_topic target s)) = ollama_calls s /\
  embedding_cache (snd (switch_topic target s)) = embedding_cache s /\
  heap (snd (switch_topic target s)) = heap s.
Proof.
  rewrite switch_topic_unfold. simpl.
  destruct (negb (String.eqb _ _)); simpl; [|repeat split].
  destruct (negb (name_stored _ s)); repeat split.
Qed.

Lemma add_message_None_unfold (kernel : vec -> vec -> Q)
    (ollama : string -> vec) (r m : string) (s : State) :
  add_message kernel ollama r m None s =
  match _match_topic kernel None (Some (current_topic s)) s with
  | (Ok topic, s1) =>
      match match topic with
            | Some t => switch_topic t s1
            | None => (Ok tt, s1)
            end with
      | (Ok _, s2) =>
          (Ok tt, update_topic (current_topic s2) (Topic_add_message r m None) s2)
      | (Raise x, s2) => (Raise x, s2)
      end
  | (Raise x, s1) => (Raise x, s1)
  end.
Proof.
  unfold add_message, bind, gets, modify, ret. simpl.
  destruct (_match_topic kernel None (Some (current_topic s)) s) as [[[t|]|x] s1];
    reflexivity.
Qed.

(** Without an embedding argument [add_message] sends nothing to the
    embedding service and leaves the cache as it is. *)
Lemma add_message_None_no_fetch (kernel : vec -> vec -> Q)
    (ollama : string -> vec) (r m : string) (s : State) :
  ollama_calls (snd (add_message kernel ollama r m None s)) = ollama_calls s /\
  embedding_cache (snd (add_message kernel ollama r m None s)) = embedding_cache s.
Proof.
  rewrite add_message_None_unfold.
  pose proof (match_topic_state kernel None (Some (current_topic s)) s) as Hs.
  destruct (_match_topic kernel None (Some (current_topic s)) s) as [[topic|x] s1];
    simpl in Hs; subst s1; [|split; reflexivity].
  destruct topic as [t|]; [|split; reflexivity].
  destruct (switch_topic_outside t s) as (Hc & He & _).
  destruct (switch_topic t s) as [[[]|x] s2]; simpl in *; split; assumption.
Qed.

(** C1 does not hold of the code.  On a new manager,
    [add_message("user", "rust 1")] asks the embedding service nothing,
    although the service has an embedding for the text, and stores the
    message next to [None].  With a stored topic that has a description
    embedding, the same call raises [TypeError] from [len(None)] and the
    message is not stored. *)
Theorem add_message_without_embedding_stores_None :
  let fresh := HistoryManager_init 2 (1 # 2) in
  let r := add_message dot Fixtures.ollama_fx "user" "rust 1" None fresh in
  let r' := add_message dot Fixtures.ollama_fx "user" "cook 9" None
              Fixtures.drifting_with_cooking in
  Fixtures.ollama_fx "rust 1" = [1%Q; 0%Q] /\
  fst r = Ok tt /\
  ollama_calls (snd r) = [] /\
  embedding_cache (snd r) = ∅ /\
  history (deref (current_topic (snd r)) (snd r)) = [mkMessage "user" "rust 1"] /\
  history_embeddings (deref (current_topic (snd r)) (snd r)) = [None] /\
  fst r' = Raise TypeError /\
  history (deref (current_topic (snd r')) (snd r')) = Fixtures.mixed_history.
Proof.
  split_all; vm_compute; reflexivity.
Qed.

(** ** Histories and their embeddings *)


Lemma Topic_init_aligned (n d : string) : aligned (Topic_init n d).
Proof. reflexivity. Qed.

Lemma Topic_add_message_aligned (r m : string) (e : pyemb) (t : Topic) :
  aligned t -> aligned (Topic_add_message r m e t).
Proof.
  unfold aligned, Topic_add_message. simpl. intros H.
  rewrite !length_app. simpl. lia.
Qed.

(** The pairs stay index-aligned: the new message and its embedding sit at
    the same, last, index. *)
Lemma Topic_add_message_lookup (r m : string) (e : pyemb) (t : Topic) :
  aligned t ->
  history (Topic_add_message r m e t) !! length (history t) = Some (mkMessage r m) /\
  history_embeddings (Topic_add_message r m e t) !! length (history t) = Some e.
Proof.
  unfold aligned. intros H. simpl. split.
  - rewrite lookup_app_r by lia. rewrite Nat.sub_diag. reflexivity.
  - rewrite H. rewrite lookup_app_r by lia. rewrite Nat.sub_diag. reflexivity.
Qed.

(** C2 does not hold of the code.  The drift analysis of the topic "rust"
    (eight messages, the last three off topic, no stored topic) moves
    three messages to a new topic, which is aligned, and cuts the history
    of "rust" to five messages while its eight embeddings stay. *)
Theorem truncation_leaves_embeddings :
  let r := _analyze_history dot Fixtures.ollama_fx Fixtures.helper_ok
             off_topic_threshold_default off_topic_frequency_default
             slice_size_default Fixtures.drifting_alone in
  aligned (deref 0%nat Fixtures.drifting_alone) /\
  fst r = Ok tt /\
  current_topic (snd r) = 1%nat /\ topics (snd r) = [0%nat] /\
  aligned (deref 1%nat (snd r)) /\
  length (history (deref 1%nat (snd r))) = 3%nat /\
  length (history (deref 0%nat (snd r))) = 5%nat /\
  length (history_embeddings (deref 0%nat (snd r))) = 8%nat /\
  ~ aligned (deref 0%nat (snd r)).
Proof.
  split_all; try (vm_compute; reflexivity).
  vm_compute. discriminate.
Qed.

(** C3 does not hold of the code.  The same analysis with the topic
    "cooking" stored: the candidate matches it, the three messages are
    appended to it and it becomes current, and the history of "rust"
    keeps all eight messages, the three moved ones included. *)
Theorem matched_branch_does_not_truncate :
  let r := _analyze_history dot Fixtures.ollama_fx Fixtures.helper_ok
             off_topic_threshold_default off_topic_frequency_default
             slice_size_default Fixtures.drifting_with_cooking in
  fst r = Ok tt /\
  current_topic (snd r) = 1%nat /\ topics (snd r) = [1%nat; 0%nat] /\
  name (deref 1%nat (snd r)) = "cooking" /\
  history (deref 1%nat (snd r))
    = [Fixtures.user "cook 0"; Fixtures.user "cook 1";
       Fixtures.user "cook 2"; Fixtures.user "cook 3"] /\
  history (deref 0%nat (snd r)) = Fixtures.mixed_history /\
  history (deref 0%nat (snd r)) <> slice_to 5 Fixtures.mixed_history.
Proof.
  split_all; try (vm_compute; reflexivity).
  vm_compute. discriminate.
Qed.

(** ** The two phases of the analysis *)

(** When the naming phase does not reach its [return], the drift phase
    runs on the state that the naming phase leaves. *)
Lemma analyze_history_after_naming (kernel : vec -> vec -> Q)
    (ollama : string -> vec)
    (helper_script : nat -> list Message -> option (list string))
    (thr : Q) (freq ss : Z) (s : State) :
  fst (naming_phase ollama helper_script s) = Ok false ->
  _analyze_history kernel ollama helper_script thr freq ss s
  = drift_phase kernel ollama helper_script thr freq ss
      (snd (naming_phase ollama helper_script s)).
Proof.
  intros H. unfold _analyze_history, bind.
  destruct (naming_phase ollama helper_script s) as [[[]|x] s1];
    simpl in H; try discriminate.
  reflexivity.
Qed.

(** Exhausted retries leave [(None, None)] after [max_retries] requests. *)
Lemma generate_loop_exhausted (helper_script : nat -> list Message -> option (list string))
    (hist : list Message) (max_retries : nat) :
  (forall n, helper_script n hist = None) ->
  forall s,
    generate_topic_info_from_history helper_script hist max_retries s
    = (Ok (None, None), set_helper_calls (helper_calls s + max_retries) s).
Proof.
  intros Hfail. unfold generate_topic_info_from_history.
  induction max_retries as [|k IH]; intros s.
  - simpl. unfold ret. f_equal. destruct s; unfold set_helper_calls; simpl.
    f_equal. lia.
  - simpl. unfold bind, gets, modify. simpl. rewrite Hfail.
    rewrite IH. f_equal. destruct s; unfold set_helper_calls; simpl.
    f_equal. lia.
Qed.

(** C5 does not hold of the code.  The current topic is unnamed, has
    eight messages, and the summarizer never answers: the naming phase
    uses its three attempts and names nothing, and the analysis goes on
    to the drift phase, which requests the embeddings of the last four
    messages and then raises in the scoring against the empty description
    embedding. *)
Theorem failed_naming_enters_drift_phase :
  let naming := naming_phase Fixtures.ollama_fx Fixtures.helper_fail
                  Fixtures.unnamed_eight in
  let r := _analyze_history dot Fixtures.ollama_fx Fixtures.helper_fail
             off_topic_threshold_default off_topic_frequency_default
             slice_size_default Fixtures.unnamed_eight in
  fst naming = Ok false /\
  helper_calls (snd naming) = 3%nat /\
  ollama_calls (snd naming) = [] /\
  r = drift_phase dot Fixtures.ollama_fx Fixtures.helper_fail
        off_topic_threshold_default off_topic_frequency_default
        slice_size_default (snd naming) /\
  name (deref (current_topic (snd r)) (snd r)) = "" /\
  ollama_calls (snd r) = ["rust 5"; "cook 1"; "cook 2"; "cook 3"] /\
  fst r = Raise ValueError.
Proof.
  intros naming r.
  assert (Hn : fst (naming_phase Fixtures.ollama_fx Fixtures.helper_fail
                      Fixtures.unnamed_eight) = Ok false)
    by (vm_compute; reflexivity).
  split_all.
  - exact Hn.
  - vm_compute; reflexivity.
  - vm_compute; reflexivity.
  - apply analyze_history_after_naming. exact Hn.
  - vm_compute; reflexivity.
  - vm_compute; reflexivity.
  - vm_compute; reflexivity.
Qed.

(** ** Empty vectors *)

(** The guard of [compute_similarity]: an empty vector on either side
    scores 0.0. *)
Lemma compute_similarity_empty (kernel : vec -> vec -> Q) (e : vec) (t : Topic) :
  e = [] \/ embedded_description t = [] ->
  compute_similarity kernel (Some e) t = Ok 0%Q.
Proof.
  unfold compute_similarity. intros [-> | ->].
  - destruct (Nat.eqb _ 0); reflexivity.
  - reflexivity.
Qed.

(** A direct call of [cosine_similarity] on an empty vector raises. *)
Lemma cosine_similarity_00_empty (kernel : vec -> vec -> Q) (a b : vec) :
  a = [] \/ b = [] ->
  cosine_similarity_00 kernel (Some a) (Some b) = Raise ValueError.
Proof.
  intros [-> | ->]; [reflexivity|].
  destruct a as [|x a]; [reflexivity|].
  unfold cosine_similarity_00, cosine_similarity, check_array.
  cbn [forallb omap length andb].
  rewrite (Nat.eqb_refl (S (length a))). reflexivity.
Qed.

(** C8 does not hold of the code.  Only topic matching guards against
    empty vectors.  The per-message scoring of the drift analysis and the
    best-context lookup call [cosine_similarity] directly: with a message
    for which the embedding service yields nothing the analysis raises,
    and so does the lookup for an empty query embedding. *)
Theorem empty_vector_raises_outside_matching :
  Fixtures.ollama_fx "hm" = [] /\
  compute_similarity dot (Some []) Fixtures.rust_topic = Ok 0%Q /\
  cosine_similarity_00 dot (Some []) (Some (embedded_description Fixtures.rust_four))
    = Raise ValueError /\
  fst (_analyze_history dot Fixtures.ollama_fx Fixtures.helper_ok
         off_topic_threshold_default off_topic_frequency_default
         slice_size_default Fixtures.unavailable_state) = Raise ValueError /\
  Topic_get_relevant_context dot (Some []) Fixtures.rust_topic = Raise ValueError.
Proof.
  split_all; vm_compute; reflexivity.
Qed.

(** ** Concurrent fetches *)

(** Every call constructs a lock of its own. *)
Lemma fetch_enter_new_lock (text : string) (s : State) :
  locks_created (snd (fetch_enter text s)) = S (locks_created s).
Proof.
  unfold fetch_enter, bind, new_lock, modify, gets, ret. simpl.
  destruct (embedding_cache s !! text); reflexivity.
Qed.

(** A call that runs alone is the task resumed twice in a row. *)
Lemma fetch_embedding_as_task (ollama : string -> vec) (text : string) (s : State) :
  exists v,
    fetch_embedding ollama text s
      = (Ok v, snd (Scheduler.run ollama [0%nat; 0%nat] [Scheduler.Ready text] s)) /\
    fst (Scheduler.run ollama [0%nat; 0%nat] [Scheduler.Ready text] s)
      = [Scheduler.Finished v].
Proof.
  unfold fetch_embedding, Scheduler.run, Scheduler.step, fetch_enter, fetch_resume,
    bind, new_lock, modify, gets, ret. simpl.
  destruct (embedding_cache s !! text) as [e|]; simpl.
  - exists e. split; reflexivity.
  - destruct (truthy_list (ollama text)); simpl; eexists; split; reflexivity.
Qed.

(** Alone, a second call for a text with an embedding finds it cached. *)
Lemma fetch_embedding_cached (ollama : string -> vec) (text : string) (s : State) :
  truthy_list (ollama text) = true ->
  embedding_cache s !! text = None ->
  let s1 := snd (fetch_embedding ollama text s) in
  let s2 := snd (fetch_embedding ollama text s1) in
  fst (fetch_embedding ollama text s1) = Ok (ollama text) /\
  ollama_calls s2 = (ollama_calls s ++ [text])%list.
Proof.
  intros Ht Hmiss.
  unfold fetch_embedding, fetch_enter, fetch_resume,
    bind, new_lock, modify, gets, ret. simpl.
  rewrite Hmiss. simpl. rewrite Ht. simpl.
  rewrite lookup_insert_eq. simpl. split; reflexivity.
Qed.

(** C9 does not hold of the code.  Two calls for the text "rust x" on an
    empty cache, the second started while the first waits for the
    embedding service: both miss the cache and both ask the service, and
    each call has made a lock of its own.  The [asyncio.gather] of the
    drift analysis runs its fetches in this way.  Run one after the
    other, the two calls ask the service once. *)
Theorem interleaved_fetches_compute_twice :
  let fresh := HistoryManager_init 2 (1 # 2) in
  let tasks := [Scheduler.Ready "rust x"; Scheduler.Ready "rust x"] in
  let r := Scheduler.run Fixtures.ollama_fx [0; 1; 0; 1]%nat tasks fresh in
  fst r = [Scheduler.Finished [1%Q; 0%Q]; Scheduler.Finished [1%Q; 0%Q]] /\
  Scheduler.external_computations "rust x" (snd r) = 2%nat /\
  locks_created (snd r) = 2%nat /\
  ollama_calls (snd (gather_fetch Fixtures.ollama_fx ["rust x"; "rust x"] fresh))
    = ["rust x"; "rust x"] /\
  Scheduler.external_computations "rust x"
    (snd (Scheduler.run Fixtures.ollama_fx [0; 0; 1; 1]%nat tasks fresh)) = 1%nat.
Proof.
  split_all; vm_compute; reflexivity.
Qed.

(** ** What a call changes *)

(** [fetch_embedding] returns, touches no topic and moves no pointer. *)
Lemma fetch_embedding_frame (ollama : string -> vec) (text : string) (s : State) :
  exists v,
    fst (fetch_embedding ollama text s) = Ok v /\
    heap (snd (fetch_embedding ollama text s)) = heap s /\
    topics (snd (fetch_embedding ollama text s)) = topics s /\
    current_topic (snd (fetch_embedding ollama text s)) = current_topic s /\
    similarity_threshold (snd (fetch_embedding ollama text s)) = similarity_threshold s.
Proof.
  unfold fetch_embedding, fetch_enter, fetch_resume, bind, new_lock, modify, gets, ret.
  simpl. destruct (embedding_cache s !! text) as [e|]; simpl.
  - exists e. repeat split.
  - destruct (truthy_list (ollama text)); simpl; eexists; repeat split.
Qed.

Lemma deref_heap (l : loc) (s s' : State) :
  heap s' = heap s -> deref l s' = deref l s.
Proof. unfold deref. intros ->. reflexivity. Qed.

Lemma deref_update_topic_eq (l : loc) (f : Topic -> Topic) (s : State) :
  deref l (update_topic l f s) = f (deref l s).
Proof.
  unfold update_topic, deref at 1. simpl. rewrite lookup_insert_eq. reflexivity.
Qed.

Lemma deref_update_topic_ne (l l' : loc) (f : Topic -> Topic) (s : State) :
  l <> l' -> deref l' (update_topic l f s) = deref l' s.
Proof.
  intros H. unfold update_topic, deref at 1. simpl.
  rewrite lookup_insert_ne by exact H. reflexivity.
Qed.


Lemma add_message_unfold (kernel : vec -> vec -> Q) (ollama : string -> vec)
    (r m : string) (e : pyemb) (s : State) :
  add_message kernel ollama r m e s =
  let e1 := stored_embedding ollama m e s in
  let s1 := if truthy_emb e then snd (fetch_embedding ollama m s) else s in
  match _match_topic kernel e1 (Some (current_topic s1)) s1 with
  | (Ok topic, s2) =>
      match match topic with
            | Some t => switch_topic t s2
            | None => (Ok tt, s2)
            end with
      | (Ok _, s3) =>
          (Ok tt, update_topic (current_topic s3) (Topic_add_message r m e1) s3)
      | (Raise x, s3) => (Raise x, s3)
      end
  | (Raise x, s2) => (Raise x, s2)
  end.
Proof.
  unfold add_message, stored_embedding.
  destruct (truthy_emb e) eqn:Et.
  - destruct (fetch_embedding_frame ollama m s) as (v & Hv & _).
    unfold bind at 1. unfold bind at 1.
    destruct (fetch_embedding ollama m s) as [[v'|x] s1]; simpl in Hv; [|discriminate].
    injection Hv as ->. simpl.
    unfold bind, gets, modify, ret. simpl.
    destruct (_match_topic kernel (Some v) (Some (current_topic s1)) s1) as [[[t|]|x] s2];
      reflexivity.
  - unfold bind, gets, modify, ret. simpl.
    destruct (_match_topic kernel e (Some (current_topic s)) s) as [[[t|]|x] s2];
      reflexivity.
Qed.

Lemma switch_topic_Ok (target : loc) (s : State) :
  fst (switch_topic target s) = Ok tt.
Proof.
  rewrite switch_topic_unfold. simpl.
  destruct (negb (String.eqb _ _)); reflexivity.
Qed.

Lemma switch_topic_grows (target : loc) (s : State) (t : loc) :
  In t (topics s) -> In t (topics (snd (switch_topic target s))).
Proof.
  intros H. rewrite switch_topic_unfold. simpl.
  destruct (negb (String.eqb _ _)); simpl; [|exact H].
  destruct (negb (name_stored _ s)); simpl; [|exact H].
  apply in_or_app. left. exact H.
Qed.

Lemma add_message_effect
    (kernel : vec -> vec -> Q) (ollama : string -> vec)
    (r m : string) (e : pyemb) (s : State)
    (Hok : fst (add_message kernel ollama r m e s) = Ok tt) :
  let s' := snd (add_message kernel ollama r m e s) in
  let c := current_topic s' in
  deref c s' = Topic_add_message r m (stored_embedding ollama m e s) (deref c s) /\
  (forall l, l <> c -> deref l s' = deref l s) /\
  (forall t, In t (topics s) -> In t (topics s')).
Proof.
  rewrite add_message_unfold in *. cbv zeta in *.
  set (e1 := stored_embedding ollama m e s) in *.
  set (s1 := if truthy_emb e then snd (fetch_embedding ollama m s) else s) in *.
  assert (Hs1 : heap s1 = heap s /\ topics s1 = topics s).
  { unfold s1. destruct (truthy_emb e); [|split; reflexivity].
    destruct (fetch_embedding_frame ollama m s) as (v & _ & Hh & Ht & _).
    split; assumption. }
  destruct Hs1 as [Hheap Htopics].
  pose proof (match_topic_state kernel e1 (Some (current_topic s1)) s1) as Hm.
  destruct (_match_topic kernel e1 (Some (current_topic s1)) s1) as [[topic|x] s2];
    simpl in Hm; subst s2; [|discriminate Hok].
  assert (Hsw : exists s3,
    match topic with Some t => switch_topic t s1 | None => (Ok tt, s1) end = (Ok tt, s3)
    /\ heap s3 = heap s /\ (forall t, In t (topics s) -> In t (topics s3))).
  { destruct topic as [t|].
    - exists (snd (switch_topic t s1)). split.
      + pose proof (switch_topic_Ok t s1) as H.
        destruct (switch_topic t s1) as [[[]|x] s3]; simpl in *; [reflexivity|discriminate].
      + destruct (switch_topic_outside t s1) as (_ & _ & Hh).
        split; [congruence|].
        intros t' Ht'. apply switch_topic_grows. rewrite Htopics. exact Ht'.
    - exists s1. split; [reflexivity|]. split; [exact Hheap|].
      intros t' Ht'. rewrite Htopics. exact Ht'. }
  destruct Hsw as (s3 & -> & Hh3 & Hgrow). simpl.
  split.
  - rewrite deref_update_topic_eq. f_equal. apply deref_heap. exact Hh3.
  - split.
    + intros l Hl. rewrite deref_update_topic_ne by congruence.
      apply deref_heap. exact Hh3.
    + exact Hgrow.
Qed.

(** A call of [add_message] that returns has appended exactly one
    message, with the embedding the code stores for it, to the topic that
    is current afterwards; every other topic is as before, and no stored
    topic was dropped. *)
Theorem add_message_appends_to_current
    (kernel : vec -> vec -> Q) (ollama : string -> vec)
    (r m : string) (e : pyemb) (s : State)
    (Hok : fst (add_message kernel ollama r m e s) = Ok tt) :
  let s' := snd (add_message kernel ollama r m e s) in
  let c := current_topic s' in
  deref c s' = Topic_add_message r m (stored_embedding ollama m e s) (deref c s) /\
  (forall l, l <> c -> deref l s' = deref l s) /\
  (forall t, In t (topics s) -> In t (topics s')).
Proof. exact (add_message_effect kernel ollama r m e s Hok). Qed.

(** A first message with an embedding argument, on a new manager. *)
Lemma add_message_appends_to_current_witness :
  fst (add_message dot Fixtures.ollama_fx "user" "rust 1" (Some [1%Q])
         (HistoryManager_init 2 (1 # 2))) = Ok tt /\
  history (deref 0%nat (snd (add_message dot Fixtures.ollama_fx "user" "rust 1"
                          (Some [1%Q]) (HistoryManager_init 2 (1 # 2)))))
    = [mkMessage "user" "rust 1"] /\
  history_embeddings (deref 0%nat (snd (add_message dot Fixtures.ollama_fx "user" "rust 1"
                          (Some [1%Q]) (HistoryManager_init 2 (1 # 2)))))
    = [Some [1%Q; 0%Q]].
Proof.
  assert (H : fst (add_message dot Fixtures.ollama_fx "user" "rust 1" (Some [1%Q])
                     (HistoryManager_init 2 (1 # 2))) = Ok tt)
    by (vm_compute; reflexivity).
  split; [exact H|].
  destruct (add_message_appends_to_current dot Fixtures.ollama_fx "user" "rust 1"
              (Some [1%Q]) (HistoryManager_init 2 (1 # 2)) H) as (Hc & _ & _).
  change (current_topic (snd (add_message dot Fixtures.ollama_fx "user" "rust 1"
            (Some [1%Q]) (HistoryManager_init 2 (1 # 2))))) with 0%nat in Hc.
  rewrite Hc. split; vm_compute; reflexivity.
Defined.

(** [add_message] keeps, for every topic, as many embeddings as
    messages, whether it returns or raises. *)
Theorem add_message_keeps_alignment
    (kernel : vec -> vec -> Q) (ollama : string -> vec)
    (r m : string) (e : pyemb) (s : State)
    (Hal : all_aligned s) :
  all_aligned (snd (add_message kernel ollama r m e s)).
Proof.
  destruct (fst (add_message kernel ollama r m e s)) as [[]|x] eqn:Hres.
  - destruct (add_message_effect kernel ollama r m e s Hres)
      as (Hc & Hother & _).
    intros l.
    destruct (Nat.eq_dec l (current_topic (snd (add_message kernel ollama r m e s))))
      as [->|Hne].
    + rewrite Hc. apply Topic_add_message_aligned. apply Hal.
    + rewrite Hother by exact Hne. apply Hal.
  - intros l. rewrite (deref_heap l s); [apply Hal|].
    rewrite add_message_unfold in *. cbv zeta in *.
    set (e1 := stored_embedding ollama m e s) in *.
    set (s1 := if truthy_emb e then snd (fetch_embedding ollama m s) else s) in *.
    assert (Hheap : heap s1 = heap s).
    { unfold s1. destruct (truthy_emb e); [|reflexivity].
      destruct (fetch_embedding_frame ollama m s) as (v & _ & Hh & _). exact Hh. }
    pose proof (match_topic_state kernel e1 (Some (current_topic s1)) s1) as Hm.
    destruct (_match_topic kernel e1 (Some (current_topic s1)) s1) as [[topic|x'] s2];
      simpl in Hm; subst s2; [|exact Hheap].
    destruct topic as [t|]; [|discriminate Hres].
    pose proof (switch_topic_Ok t s1) as H.
    destruct (switch_topic t s1) as [[[]|x'] s3]; simpl in *; discriminate.
Qed.

Lemma init_all_aligned (k : nat) (threshold : Q) :
  all_aligned (HistoryManager_init k threshold).
Proof.
  intros l. unfold deref, HistoryManager_init. simpl.
  destruct (decide (l = 0%nat)) as [->|Hne].
  - rewrite lookup_singleton_eq. reflexivity.
  - rewrite lookup_singleton_ne by congruence. reflexivity.
Qed.

Lemma add_message_keeps_alignment_witness :
  all_aligned (HistoryManager_init 2 (1 # 2)) /\
  all_aligned (snd (add_message dot Fixtures.ollama_fx "user" "rust 1" None
                      (HistoryManager_init 2 (1 # 2)))).
Proof.
  split; [apply init_all_aligned|].
  apply add_message_keeps_alignment. apply init_all_aligned.
Defined.

(** ** More on switching *)

(** Switching twice to the same topic is switching once: the second
    call changes neither the stored topics nor the current one. *)
Theorem switch_topic_idempotent (target : loc) (s : State) :
  let s1 := snd (switch_topic target s) in
  let s2 := snd (switch_topic target s1) in
  topics s2 = topics s1 /\ current_topic s2 = current_topic s1 /\ heap s2 = heap s1.
Proof.
  cbv zeta.
  destruct (switch_topic_outside target (snd (switch_topic target s))) as (_ & _ & Hh).
  split; [|split; [|exact Hh]].
  - apply switch_topic_same_name.
    rewrite switch_topic_unfold. simpl.
    destruct (String.eqb (name (deref target s)) (name (deref (current_topic s) s))) eqn:E;
      simpl.
    + apply String.eqb_eq in E. exact E.
    + destruct (negb (name_stored _ s)); reflexivity.
  - apply switch_topic_same_name.
    rewrite switch_topic_unfold. simpl.
    destruct (String.eqb (name (deref target s)) (name (deref (current_topic s) s))) eqn:E;
      simpl.
    + apply String.eqb_eq in E. exact E.
    + destruct (negb (name_stored _ s)); reflexivity.
Qed.

Lemma name_stored_false (n : string) (s : State) :
  name_stored n s = false ->
  ~ In n (map (fun t => name (deref t s)) (topics s)).
Proof.
  intros H Hin. apply in_map_iff in Hin. destruct Hin as (t & Ht & Hin).
  assert (name_stored n s = true) by (apply name_stored_In; eauto).
  congruence.
Qed.

(** [switch_topic] never stores two topics of one name: when the names
    of the stored topics are pairwise distinct, they still are
    afterwards. *)
Theorem switch_topic_keeps_names_distinct (target : loc) (s : State)
    (Hnd : List.NoDup (map (fun t => name (deref t s)) (topics s))) :
  let s' := snd (switch_topic target s) in
  List.NoDup (map (fun t => name (deref t s')) (topics s')).
Proof.
  cbv zeta. rewrite switch_topic_unfold. simpl.
  destruct (negb (String.eqb _ _)); simpl; [|exact Hnd].
  destruct (name_stored (name (deref (current_topic s) s)) s) eqn:E; simpl; [exact Hnd|].
  change (fun t => name (deref t ?x)) with (fun t => name (deref t s)).
  rewrite map_app. simpl.
  apply List.NoDup_app.
  - exact Hnd.
  - constructor; [intros []|constructor].
  - intros n Hin [<-|[]]. exact (name_stored_false _ _ E Hin).
Qed.

Lemma switch_topic_keeps_names_distinct_witness :
  List.NoDup (map (fun t => name (deref t Fixtures.drifting_with_cooking))
                  (topics Fixtures.drifting_with_cooking)) /\
  List.NoDup (map (fun t => name (deref t (snd (switch_topic 1%nat Fixtures.drifting_with_cooking))))
                  (topics (snd (switch_topic 1%nat Fixtures.drifting_with_cooking)))).
Proof.
  assert (H : List.NoDup (map (fun t => name (deref t Fixtures.drifting_with_cooking))
                  (topics Fixtures.drifting_with_cooking))).
  { simpl. constructor; [intros []|constructor]. }
  split; [exact H|].
  exact (switch_topic_keeps_names_distinct 1%nat Fixtures.drifting_with_cooking H).
Defined.

(** ** More on matching *)

Lemma match_topic_results (kernel : vec -> vec -> Q) (e : pyemb)
    (exclude_topic : option loc) (s : State) (t : loc) :
  fst (_match_topic kernel e exclude_topic s) = Ok (Some t) ->
  exists results,
    map_res (scored kernel e s)
      (List.filter (not_excluded exclude_topic) (topics s)) = Ok results /\
    fst (select_best (similarity_threshold s) results) = Some t.
Proof.
  unfold _match_topic, bind, gets, lift, ret, id. simpl.
  destruct (Nat.eqb (length (topics s)) 0); simpl; [discriminate|].
  destruct (map_res _ _) as [results|x]; simpl; [|discriminate].
  intros H. injection H as H. exists results. split; [reflexivity|exact H].
Qed.

(** The excluded topic is never the answer, and the answer is a stored
    topic. *)
Theorem match_topic_never_returns_excluded
    (kernel : vec -> vec -> Q) (e : pyemb) (x : loc) (s : State) (t : loc)
    (H : fst (_match_topic kernel e (Some x) s) = Ok (Some t)) :
  t <> x /\ In t (topics s).
Proof.
  destruct (match_topic_results _ _ _ _ _ H) as (results & Hres & Hsel).
  destruct (scored_results _ _ _ _ _ Hres) as [Hsound _].
  unfold select_best in Hsel.
  destruct (select_from (similarity_threshold s) results (None, 0%Q))
    as [[Heq _]|(t' & sim & Heq & Hin & _)];
    rewrite Heq in Hsel; simpl in Hsel; [discriminate|].
  injection Hsel as ->.
  destruct (Hsound sim t Hin) as [Hc _].
  apply filter_In in Hc. destruct Hc as [Hstored Hex].
  split; [|exact Hstored].
  simpl in Hex. intros ->. rewrite Nat.eqb_refl in Hex. discriminate.
Qed.

(** "rust" is current and excluded; "cooking" is stored and matches. *)
Lemma match_topic_never_returns_excluded_witness :
  fst (_match_topic dot (Some [0%Q; 1%Q]) (Some 0%nat)
         (snd (switch_topic 1%nat Fixtures.drifting_with_cooking))) = Ok (Some 1%nat) /\
  1%nat <> 0%nat.
Proof.
  assert (H : fst (_match_topic dot (Some [0%Q; 1%Q]) (Some 0%nat)
         (snd (switch_topic 1%nat Fixtures.drifting_with_cooking))) = Ok (Some 1%nat))
    by (vm_compute; reflexivity).
  split; [exact H|].
  exact (proj1 (match_topic_never_returns_excluded dot (Some [0%Q; 1%Q]) 0%nat
                  (snd (switch_topic 1%nat Fixtures.drifting_with_cooking)) 1%nat H)).
Defined.

(** Where the selection loop takes its answer from: every entry before
    it is strictly smaller, every entry after it is at most as large. *)
Lemma select_position (threshold : Q) (results : list (Q * loc)) :
  forall (acc : option loc * Q),
    let res := fold_left (better threshold) results acc in
    (res = acc /\
     forall r, In r results -> ~ ((snd acc < fst r)%Q /\ (threshold <= fst r)%Q))
    \/
    (exists pre post t sim,
       results = (pre ++ (sim, t) :: post)%list /\
       res = (Some t, sim) /\
       (snd acc < sim)%Q /\ (threshold <= sim)%Q /\
       (forall r, In r pre -> (fst r < sim)%Q) /\
       (forall r, In r post -> (fst r <= sim)%Q)).
Proof.
  induction results as [|r rest IH]; intros acc; simpl.
  - left. split; [reflexivity|]. intros r [].
  - change (better threshold acc r)
      with (if Qltb (snd acc) (fst r) && Qgeb (fst r) threshold
            then (Some (snd r), fst r) else acc).
    destruct (Qltb (snd acc) (fst r) && Qgeb (fst r) threshold) eqn:E.
    + apply andb_true_iff in E. destruct E as [E1 E2].
      apply Qltb_lt in E1. apply Qgeb_ge in E2.
      right.
      destruct (IH (Some (snd r), fst r))
        as [[Heq Hno]|(pre & post & t & sim & Hsplit & Heq & Hgt & Hthr & Hpre & Hpost)].
      * exists [], rest, (snd r), (fst r).
        split; [destruct r; reflexivity|]. split; [exact Heq|].
        split; [exact E1|]. split; [exact E2|].
        split; [intros r' []|].
        intros r' Hin'. specialize (Hno r' Hin'). simpl in Hno.
        destruct (Qlt_le_dec (fst r) (fst r')) as [Hlt|Hle]; [|exact Hle].
        exfalso. apply Hno. split; [exact Hlt|].
        apply Qlt_le_weak. eapply Qle_lt_trans; eauto.
      * simpl in Hgt. exists (r :: pre), post, t, sim.
        split; [rewrite Hsplit; reflexivity|]. split; [exact Heq|].
        split; [eapply Qlt_trans; eauto|]. split; [exact Hthr|].
        split; [|exact Hpost].
        intros r' [<-|Hin']; [exact Hgt|auto].
    + assert (Hr : ~ ((snd acc < fst r)%Q /\ (threshold <= fst r)%Q)).
      { intros [H1 H2]. apply Qltb_lt in H1. apply Qgeb_ge in H2.
        rewrite H1, H2 in E. discriminate. }
      destruct (IH acc)
        as [[Heq Hno]|(pre & post & t & sim & Hsplit & Heq & Hgt & Hthr & Hpre & Hpost)].
      * left. split; [exact Heq|]. intros r' [<-|Hin']; auto.
      * right. exists (r :: pre), post, t, sim.
        split; [rewrite Hsplit; reflexivity|]. split; [exact Heq|].
        split; [exact Hgt|]. split; [exact Hthr|].
        split; [|exact Hpost].
        intros r' [<-|Hin']; [|auto].
        destruct (Qlt_le_dec (snd acc) (fst r)) as [Hlt|Hle].
        -- destruct (Qlt_le_dec (fst r) threshold) as [Hlt'|Hle'].
           ++ eapply Qlt_le_trans; eauto.
           ++ exfalso. apply Hr. split; assumption.
        -- eapply Qle_lt_trans; eauto.
Qed.

Lemma scored_Ok (kernel : vec -> vec -> Q) (e : pyemb) (s : State)
    (l : loc) (sim : Q) (t : loc) :
  scored kernel e s l = Ok (sim, t) ->
  t = l /\ compute_similarity kernel e (deref l s) = Ok sim.
Proof.
  unfold scored. destruct (compute_similarity kernel e (deref l s)); [|discriminate].
  intros H. injection H as -> ->. split; reflexivity.
Qed.

Lemma scored_Forall2 (kernel : vec -> vec -> Q) (e : pyemb) (s : State)
    (cands : list loc) (results : list (Q * loc)) :
  Forall2 (fun x y => scored kernel e s x = Ok y) cands results ->
  forall t sim, In t cands ->
    compute_similarity kernel e (deref t s) = Ok sim ->
    exists r, In r results /\ fst r = sim.
Proof.
  induction 1 as [|l r cands results Hr _ IH]; intros t sim Hin Hs.
  - destruct Hin.
  - destruct Hin as [->|Hin].
    + destruct r as [sim' t']. apply scored_Ok in Hr. destruct Hr as [_ Hr].
      rewrite Hs in Hr. injection Hr as <-.
      exists (sim, t'). split; [left; reflexivity|reflexivity].
    + destruct (IH t sim Hin Hs) as (r' & Hin' & Hf).
      exists r'. split; [right; exact Hin'|exact Hf].
Qed.

(** Ties go to the topic met first: among the stored, non-excluded
    topics in their order, each one before the answer scores strictly
    less, and each one after it scores no more. *)
Theorem match_topic_first_among_ties
    (kernel : vec -> vec -> Q) (e : pyemb) (exclude_topic : option loc)
    (s : State) (t : loc)
    (H : fst (_match_topic kernel e exclude_topic s) = Ok (Some t)) :
  exists pre post sim,
    List.filter (not_excluded exclude_topic) (topics s) = (pre ++ t :: post)%list /\
    compute_similarity kernel e (deref t s) = Ok sim /\
    (forall t' sim', In t' pre ->
       compute_similarity kernel e (deref t' s) = Ok sim' -> (sim' < sim)%Q) /\
    (forall t' sim', In t' post ->
       compute_similarity kernel e (deref t' s) = Ok sim' -> (sim' <= sim)%Q).
Proof.
  destruct (match_topic_results _ _ _ _ _ H) as (results & Hres & Hsel).
  apply map_res_Ok in Hres.
  unfold select_best in Hsel.
  destruct (select_position (similarity_threshold s) results (None, 0%Q))
    as [[Heq _]|(pre & post & t' & sim & Hsplit & Heq & _ & _ & Hpre & Hpost)];
    rewrite Heq in Hsel; simpl in Hsel; [discriminate|].
  injection Hsel as ->. subst results.
  apply Forall2_app_inv_r in Hres.
  destruct Hres as (cpre & crest & Hfpre & Hfrest & Hcands).
  apply Forall2_cons_inv_r in Hfrest.
  destruct Hfrest as (l & cpost & Hl & Hfpost & ->).
  apply scored_Ok in Hl. destruct Hl as [<- Hl].
  exists cpre, cpost, sim. split; [exact Hcands|]. split; [exact Hl|].
  split.
  - intros t' sim' Hin Hs.
    destruct (scored_Forall2 _ _ _ _ _ Hfpre t' sim' Hin Hs) as (r & Hr & <-).
    exact (Hpre r Hr).
  - intros t' sim' Hin Hs.
    destruct (scored_Forall2 _ _ _ _ _ Hfpost t' sim' Hin Hs) as (r & Hr & <-).
    exact (Hpost r Hr).
Qed.

(** "cooking" and "baking" both score 1; "cooking" is stored first. *)
Lemma match_topic_first_among_ties_witness :
  fst (_match_topic dot (Some [0%Q; 1%Q]) (Some 0%nat) tie_state) = Ok (Some 1%nat) /\
  exists pre post sim,
    List.filter (not_excluded (Some 0%nat)) (topics tie_state) = (pre ++ 1%nat :: post)%list /\
    compute_similarity dot (Some [0%Q; 1%Q]) (deref 1%nat tie_state) = Ok sim /\
    (forall t' sim', In t' pre ->
       compute_similarity dot (Some [0%Q; 1%Q]) (deref t' tie_state) = Ok sim' ->
       (sim' < sim)%Q) /\
    (forall t' sim', In t' post ->
       compute_similarity dot (Some [0%Q; 1%Q]) (deref t' tie_state) = Ok sim' ->
       (sim' <= sim)%Q).
Proof.
  assert (H : fst (_match_topic dot (Some [0%Q; 1%Q]) (Some 0%nat) tie_state)
              = Ok (Some 1%nat)) by (vm_compute; reflexivity).
  split; [exact H|].
  exact (match_topic_first_among_ties dot (Some [0%Q; 1%Q]) (Some 0%nat) tie_state 1%nat H).
Defined.

(** ** The embedding cache *)

Lemma fetch_embedding_unfold (ollama : string -> vec) (text : string) (s : State) :
  fetch_embedding ollama text s =
  let s1 := set_locks_created (S (locks_created s)) s in
  match embedding_cache s !! text with
  | Some e => (Ok e, s1)
  | None =>
      let s2 := set_ollama_calls (ollama_calls s ++ [text]) s1 in
      if truthy_list (ollama text)
      then (Ok (ollama text),
            set_embedding_cache (<[text := ollama text]> (embedding_cache s)) s2)
      else (Ok [], s2)
  end.
Proof.
  unfold fetch_embedding, fetch_enter, fetch_resume, bind, new_lock, modify, gets, ret.
  simpl. destruct (embedding_cache s !! text); [reflexivity|]. simpl.
  destruct (truthy_list (ollama text)); reflexivity.
Qed.

(** A cached text is answered from the cache: the embedding service is
    not asked and the cache does not change. *)
Theorem fetch_embedding_hit (ollama : string -> vec) (text : string)
    (e : vec) (s : State)
    (Hhit : embedding_cache s !! text = Some e) :
  fst (fetch_embedding ollama text s) = Ok e /\
  ollama_calls (snd (fetch_embedding ollama text s)) = ollama_calls s /\
  embedding_cache (snd (fetch_embedding ollama text s)) = embedding_cache s.
Proof.
  rewrite fetch_embedding_unfold. cbv zeta. rewrite Hhit. repeat split.
Qed.

(** A text that is not cached costs one request; a non-empty answer is
    returned and cached under the text, every other entry of the cache
    is as before. *)
Theorem fetch_embedding_miss (ollama : string -> vec) (text : string) (s : State)
    (Hmiss : embedding_cache s !! text = None)
    (Hans : ollama text <> []) :
  let s' := snd (fetch_embedding ollama text s) in
  fst (fetch_embedding ollama text s) = Ok (ollama text) /\
  ollama_calls s' = (ollama_calls s ++ [text])%list /\
  embedding_cache s' !! text = Some (ollama text) /\
  (forall other, other <> text ->
     embedding_cache s' !! other = embedding_cache s !! other).
Proof.
  rewrite fetch_embedding_unfold. cbv zeta. rewrite Hmiss.
  destruct (ollama text) as [|x v] eqn:E; [congruence|]. simpl.
  split; [reflexivity|]. split; [reflexivity|].
  split; [apply lookup_insert_eq|].
  intros other Hne. apply lookup_insert_ne. congruence.
Qed.

(** When the service yields nothing the result is the empty vector and
    nothing is cached, so that the next call for the text asks again. *)
Theorem fetch_embedding_nothing_is_not_cached
    (ollama : string -> vec) (text : string) (s : State)
    (Hmiss : embedding_cache s !! text = None)
    (Hans : ollama text = []) :
  let s1 := snd (fetch_embedding ollama text s) in
  let s2 := snd (fetch_embedding ollama text s1) in
  fst (fetch_embedding ollama text s) = Ok [] /\
  embedding_cache s1 = embedding_cache s /\
  ollama_calls s2 = (ollama_calls s ++ [text; text])%list.
Proof.
  cbv zeta. rewrite !fetch_embedding_unfold. cbv zeta. simpl.
  rewrite Hmiss, Hans. simpl. rewrite Hmiss. simpl.
  split; [reflexivity|]. split; [reflexivity|].
  rewrite <- app_assoc. reflexivity.
Qed.

Lemma fetch_embedding_hit_witness :
  let s := snd (fetch_embedding Fixtures.ollama_fx "rust 1" (HistoryManager_init 2 (1 # 2))) in
  embedding_cache s !! "rust 1" = Some [1%Q; 0%Q] /\
  fst (fetch_embedding Fixtures.ollama_fx "rust 1" s) = Ok [1%Q; 0%Q] /\
  ollama_calls (snd (fetch_embedding Fixtures.ollama_fx "rust 1" s)) = ["rust 1"].
Proof.
  intros s.
  assert (H : embedding_cache s !! "rust 1" = Some [1%Q; 0%Q])
    by (vm_compute; reflexivity).
  split; [exact H|].
  destruct (fetch_embedding_hit Fixtures.ollama_fx "rust 1" [1%Q; 0%Q] s H)
    as (Hres & Hcalls & _).
  split; [exact Hres|]. rewrite Hcalls. vm_compute. reflexivity.
Defined.

Lemma fetch_embedding_miss_witness :
  embedding_cache (HistoryManager_init 2 (1 # 2)) !! "rust 1" = None /\
  Fixtures.ollama_fx "rust 1" <> [] /\
  fst (fetch_embedding Fixtures.ollama_fx "rust 1" (HistoryManager_init 2 (1 # 2)))
    = Ok [1%Q; 0%Q].
Proof.
  assert (H1 : embedding_cache (HistoryManager_init 2 (1 # 2)) !! "rust 1" = None)
    by reflexivity.
  assert (H2 : Fixtures.ollama_fx "rust 1" <> []) by (vm_compute; discriminate).
  split; [exact H1|]. split; [exact H2|].
  exact (proj1 (fetch_embedding_miss Fixtures.ollama_fx "rust 1"
                  (HistoryManager_init 2 (1 # 2)) H1 H2)).
Defined.

Lemma fetch_embedding_nothing_is_not_cached_witness :
  embedding_cache (HistoryManager_init 2 (1 # 2)) !! "hm" = None /\
  Fixtures.ollama_fx "hm" = [] /\
  ollama_calls (snd (fetch_embedding Fixtures.ollama_fx "hm"
                  (snd (fetch_embedding Fixtures.ollama_fx "hm"
                          (HistoryManager_init 2 (1 # 2)))))) = ["hm"; "hm"].
Proof.
  assert (H1 : embedding_cache (HistoryManager_init 2 (1 # 2)) !! "hm" = None)
    by reflexivity.
  assert (H2 : Fixtures.ollama_fx "hm" = []) by reflexivity.
  split; [exact H1|]. split; [exact H2|].
  exact (proj2 (proj2 (fetch_embedding_nothing_is_not_cached Fixtures.ollama_fx "hm"
                  (HistoryManager_init 2 (1 # 2)) H1 H2))).
Defined.

(** ** Asking the summarizer *)

Lemma set_helper_calls_twice (a b : nat) (s : State) :
  set_helper_calls a (set_helper_calls b s) = set_helper_calls a s.
Proof. reflexivity. Qed.

Lemma set_helper_calls_same (s : State) :
  set_helper_calls (helper_calls s) s = s.
Proof. destruct s. reflexivity. Qed.

Lemma truthy_str_nonempty (x : string) : truthy_str x = true -> x <> "".
Proof. destruct x; [discriminate|]. intros _ H. discriminate H. Qed.

Lemma generate_loop_S
    (helper_script : nat -> list Message -> option (list string))
    (m : nat) (hist : list Message) (s : State) :
  generate_loop helper_script (S m) hist s =
  let s1 := set_helper_calls (S (helper_calls s)) s in
  match helper_script (helper_calls s) hist with
  | Some matches =>
      if truthy_str (nth 0 matches "unknown") && truthy_str (nth 1 matches "")
      then (Ok (Some (nth 0 matches "unknown"), Some (nth 1 matches "")), s1)
      else generate_loop helper_script m hist s1
  | None => generate_loop helper_script m hist s1
  end.
Proof.
  simpl. unfold bind, gets, modify, ret. simpl.
  destruct (helper_script (helper_calls s) hist) as [matches|]; [|reflexivity].
  destruct (truthy_str (nth 0 matches "unknown") && truthy_str (nth 1 matches ""));
    reflexivity.
Qed.

(** [generate_topic_info_from_history] asks at most [max_retries] times
    and stops at the first usable answer.  It changes nothing but the
    count of requests.  Its result is either [(None, None)], after
    [max_retries] unusable answers, or a pair of a non-empty name and a
    non-empty description taken from the first usable answer; it is
    never half a pair, and it never raises. *)
Theorem generate_topic_info_attempts
    (helper_script : nat -> list Message -> option (list string))
    (hist : list Message) (max_retries : nat) (s : State) :
  exists k,
    (k <= max_retries)%nat /\
    snd (generate_topic_info_from_history helper_script hist max_retries s)
      = set_helper_calls (helper_calls s + k) s /\
    (forall j, (j + 1 < k)%nat ->
       usable (helper_script (helper_calls s + j)%nat hist) = false) /\
    match fst (generate_topic_info_from_history helper_script hist max_retries s) with
    | Ok (Some n, Some d) =>
        (0 < k)%nat /\ n <> "" /\ d <> "" /\
        exists matches,
          helper_script (helper_calls s + k - 1)%nat hist = Some matches /\
          n = nth 0 matches "unknown" /\ d = nth 1 matches ""
    | Ok (None, None) =>
        k = max_retries /\
        forall j, (j < k)%nat ->
          usable (helper_script (helper_calls s + j)%nat hist) = false
    | _ => False
    end.
Proof.
  unfold generate_topic_info_from_history.
  revert s. induction max_retries as [|m IH]; intros s.
  - exists 0%nat. simpl. split; [lia|].
    split; [rewrite Nat.add_0_r; symmetry; apply set_helper_calls_same|].
    split; [intros j Hj; lia|]. split; [reflexivity|]. intros j Hj. lia.
  - rewrite generate_loop_S. cbv zeta.
    set (s1 := set_helper_calls (S (helper_calls s)) s).
    assert (Hcalls : helper_calls s1 = S (helper_calls s)) by reflexivity.
    destruct (usable (helper_script (helper_calls s) hist)) eqn:Eu.
    + (* the first answer is usable *)
      unfold usable in Eu.
      destruct (helper_script (helper_calls s) hist) as [matches|] eqn:Eh;
        [|discriminate].
      rewrite Eu. simpl.
      apply andb_true_iff in Eu. destruct Eu as [E1 E2].
      exists 1%nat. split; [lia|].
      split; [unfold s1; f_equal; lia|].
      split; [intros j Hj; lia|].
      split; [lia|]. split; [apply truthy_str_nonempty; exact E1|].
      split; [apply truthy_str_nonempty; exact E2|].
      exists matches. split; [|split; reflexivity].
      replace (helper_calls s + 1 - 1)%nat with (helper_calls s) by lia. exact Eh.
    + (* unusable: go on with one attempt less *)
      assert (Hstep :
        match helper_script (helper_calls s) hist with
        | Some matches =>
            if truthy_str (nth 0 matches "unknown") && truthy_str (nth 1 matches "")
            then (Ok (Some (nth 0 matches "unknown"), Some (nth 1 matches "")), s1)
            else generate_loop helper_script m hist s1
        | None => generate_loop helper_script m hist s1
        end = generate_loop helper_script m hist s1).
      { unfold usable in Eu.
        destruct (helper_script (helper_calls s) hist); [rewrite Eu|]; reflexivity. }
      rewrite Hstep. clear Hstep.
      destruct (IH s1) as (k & Hk & Hstate & Hbefore & Hres).
      exists (S k). split; [lia|].
      split.
      { rewrite Hstate. unfold s1. rewrite set_helper_calls_twice.
        f_equal. simpl. lia. }
      split.
      { intros [|j] Hj.
        - rewrite Nat.add_0_r. exact Eu.
        - replace (helper_calls s + S j)%nat with (helper_calls s1 + j)%nat
            by (rewrite Hcalls; lia).
          apply Hbefore. lia. }
      destruct (fst (generate_loop helper_script m hist s1)) as [[[n|] [d|]]|x];
        try contradiction.
      * destruct Hres as (Hpos & Hn & Hd & matches & Hm & Hn' & Hd').
        split; [lia|]. split; [exact Hn|]. split; [exact Hd|].
        exists matches. split; [|split; assumption].
        replace (helper_calls s + S k - 1)%nat with (helper_calls s1 + k - 1)%nat
          by (rewrite Hcalls; lia).
        exact Hm.
      * destruct Hres as [-> Hall]. split; [reflexivity|].
        intros [|j] Hj.
        -- rewrite Nat.add_0_r. exact Eu.
        -- replace (helper_calls s + S j)%nat with (helper_calls s1 + j)%nat
             by (rewrite Hcalls; lia).
           apply Hall. lia.
Qed.

(** ** The analysis of the history *)

Lemma fetch_embedding_fetched (ollama : string -> vec) (text : string) (s : State) :
  fst (fetch_embedding ollama text s) = Ok (fetched ollama text s) /\
  heap (snd (fetch_embedding ollama text s)) = heap s /\
  topics (snd (fetch_embedding ollama text s)) = topics s /\
  current_topic (snd (fetch_embedding ollama text s)) = current_topic s /\
  next_loc (snd (fetch_embedding ollama text s)) = next_loc s /\
  helper_calls (snd (fetch_embedding ollama text s)) = helper_calls s /\
  similarity_threshold (snd (fetch_embedding ollama text s)) = similarity_threshold s.
Proof.
  rewrite fetch_embedding_unfold. unfold fetched. cbv zeta.
  destruct (embedding_cache s !! text); [repeat split|].
  destruct (truthy_list (ollama text)); repeat split.
Qed.

(** The analysis does nothing at all, and asks nobody, when the naming
    condition fails (at most four messages, or a name) and the length of
    the history is no multiple of the frequency at or above it. *)
Theorem analyze_history_idle
    (kernel : vec -> vec -> Q) (ollama : string -> vec)
    (helper_script : nat -> list Message -> option (list string))
    (thr : Q) (freq ss : Z) (s : State)
    (Hnamed : Z.of_nat (length (history (deref (current_topic s) s))) <= 4 \/
              strip_is_empty (name (deref (current_topic s) s)) = false)
    (Hlen : Z.of_nat (length (history (deref (current_topic s) s))) < freq \/
            (freq <> 0 /\
             Z.of_nat (length (history (deref (current_topic s) s))) mod freq <> 0)) :
  _analyze_history kernel ollama helper_script thr freq ss s = (Ok tt, s).
Proof.
  unfold _analyze_history, naming_phase, drift_phase, drift_trigger,
    bind, gets, lift, ret, id. simpl.
  assert (Hn : (4 <? Z.of_nat (length (history (deref (current_topic s) s))))
               && strip_is_empty (name (deref (current_topic s) s)) = false).
  { destruct Hnamed as [H|H].
    - apply andb_false_iff. left. apply Z.ltb_ge. exact H.
    - apply andb_false_iff. right. exact H. }
  rewrite Hn. simpl.
  destruct Hlen as [H|[H0 H]].
  - apply Z.leb_gt in H. rewrite H. reflexivity.
  - destruct (freq <=? _); [|reflexivity].
    apply Z.eqb_neq in H0. rewrite H0.
    apply Z.eqb_neq in H. rewrite H. reflexivity.
Qed.

(** The topic "rust" with seven of its eight messages. *)
Lemma analyze_history_idle_witness :
  let s := update_topic 0%nat (set_history (slice_to 7 Fixtures.mixed_history))
             Fixtures.drifting_alone in
  strip_is_empty (name (deref (current_topic s) s)) = false /\
  Z.of_nat (length (history (deref (current_topic s) s))) mod 4 <> 0 /\
  _analyze_history dot Fixtures.ollama_fx Fixtures.helper_ok
    off_topic_threshold_default off_topic_frequency_default slice_size_default s
  = (Ok tt, s).
Proof.
  intros s.
  assert (H1 : strip_is_empty (name (deref (current_topic s) s)) = false)
    by (vm_compute; reflexivity).
  assert (H2 : Z.of_nat (length (history (deref (current_topic s) s))) mod 4 <> 0)
    by (vm_compute; discriminate).
  split; [exact H1|]. split; [exact H2|].
  apply analyze_history_idle.
  - right. exact H1.
  - right. split; [discriminate|exact H2].
Defined.

Lemma naming_phase_unfold (ollama : string -> vec)
    (helper_script : nat -> list Message -> option (list string)) (s : State) :
  naming_phase ollama helper_script s =
  let t := deref (current_topic s) s in
  if (4 <? Z.of_nat (length (history t))) && strip_is_empty (name t) then
    match generate_topic_info_from_history helper_script (history t) 3 s with
    | (Ok info, s1) =>
        if truthy_opt_str (fst info) && truthy_opt_str (snd info) then
          let s2 := update_topic (current_topic s1) (set_name (default "" (fst info))) s1 in
          let s3 := update_topic (current_topic s2)
                      (set_description (default "" (snd info))) s2 in
          match fetch_embedding ollama (default "" (snd info)) s3 with
          | (Ok e, s4) =>
              (Ok true, update_topic (current_topic s4) (set_embedded_description e) s4)
          | (Raise x, s4) => (Raise x, s4)
          end
        else (Ok false, s1)
    | (Raise x, s1) => (Raise x, s1)
    end
  else (Ok false, s).
Proof.
  unfold naming_phase, bind, gets, modify, ret, id. cbv beta.
  destruct ((4 <? _) && _); [|reflexivity].
  destruct (generate_topic_info_from_history helper_script
              (history (deref (current_topic s) s)) 3 s) as [[info|x] s1];
    [|reflexivity].
  cbv beta iota.
  destruct (truthy_opt_str (fst info) && truthy_opt_str (snd info)); [|reflexivity].
  destruct (fetch_embedding ollama _ _) as [[e|x] s4]; reflexivity.
Qed.

(** Naming: an unnamed current topic with more than four messages and a
    usable first answer of the summarizer.  The analysis gives the topic
    the name, the description and the embedding of the description, after
    one request to the summarizer; it keeps the messages, the stored
    topics and the current topic, and does not go on to the drift phase,
    whatever the length of the history. *)
Theorem analyze_history_names_topic
    (kernel : vec -> vec -> Q) (ollama : string -> vec)
    (helper_script : nat -> list Message -> option (list string))
    (thr : Q) (freq ss : Z) (s : State) (matches : list string)
    (Hlen : 4 < Z.of_nat (length (history (deref (current_topic s) s))))
    (Hunnamed : strip_is_empty (name (deref (current_topic s) s)) = true)
    (Hanswer : helper_script (helper_calls s) (history (deref (current_topic s) s))
               = Some matches)
    (Husable : usable (Some matches) = true) :
  let c := current_topic s in
  let s' := snd (_analyze_history kernel ollama helper_script thr freq ss s) in
  fst (_analyze_history kernel ollama helper_script thr freq ss s) = Ok tt /\
  current_topic s' = c /\ topics s' = topics s /\
  helper_calls s' = S (helper_calls s) /\
  deref c s' =
    mkTopic (nth 0 matches "unknown") (nth 1 matches "")
            (fetched ollama (nth 1 matches "") s)
            (history (deref c s)) (history_embeddings (deref c s))
            (file_embeddings (deref c s)) /\
  (forall l, l <> c -> deref l s' = deref l s).
Proof.
  cbv zeta. unfold _analyze_history, bind.
  rewrite naming_phase_unfold. cbv zeta.
  apply Z.ltb_lt in Hlen. rewrite Hlen, Hunnamed. simpl andb. cbv iota.
  unfold generate_topic_info_from_history. rewrite generate_loop_S. cbv zeta.
  rewrite Hanswer. unfold usable in Husable. rewrite Husable.
  apply andb_true_iff in Husable. destruct Husable as [E1 E2].
  simpl fst. simpl snd. unfold truthy_opt_str. rewrite E1, E2. simpl andb. cbv iota.
  simpl default.
  set (s1 := set_helper_calls (S (helper_calls s)) s).
  set (s2 := update_topic (current_topic s) (set_name (nth 0 matches "unknown")) s1).
  set (s3 := update_topic (current_topic s) (set_description (nth 1 matches "")) s2).
  destruct (fetch_embedding_fetched ollama (nth 1 matches "") s3)
    as (Hv & Hh & Ht & Hc & _ & Hhc & _).
  destruct (fetch_embedding ollama (nth 1 matches "") s3) as [[e|x] s4];
    cbn [fst snd] in Hv, Hh, Ht, Hc, Hhc; [|discriminate].
  injection Hv as ->. cbn [fst snd]. unfold ret. cbn [fst snd].
  change (fetched ollama (nth 1 matches "") s3)
    with (fetched ollama (nth 1 matches "") s).
  split; [reflexivity|]. split; [exact Hc|]. split; [exact Ht|].
  split; [exact Hhc|].
  rewrite Hc. change (current_topic s3) with (current_topic s).
  split.
  - rewrite deref_update_topic_eq.
    rewrite (deref_heap _ s3 s4 Hh).
    unfold s3. rewrite deref_update_topic_eq.
    unfold s2. rewrite deref_update_topic_eq.
    change (deref (current_topic s) s1) with (deref (current_topic s) s).
    reflexivity.
  - intros l Hl. rewrite deref_update_topic_ne by congruence.
    rewrite (deref_heap _ s3 s4 Hh).
    unfold s3. rewrite deref_update_topic_ne by congruence.
    unfold s2. rewrite deref_update_topic_ne by congruence.
    reflexivity.
Qed.

(** The unnamed topic with eight messages and a summarizer that answers:
    8 is a multiple of 4, and yet only the naming takes place. *)
Lemma analyze_history_names_topic_witness :
  let r := _analyze_history dot Fixtures.ollama_fx Fixtures.helper_ok
             off_topic_threshold_default off_topic_frequency_default
             slice_size_default Fixtures.unnamed_eight in
  fst r = Ok tt /\
  name (deref 0%nat (snd r)) = "cooking" /\
  embedded_description (deref 0%nat (snd r)) = [0%Q; 1%Q] /\
  history (deref 0%nat (snd r)) = Fixtures.mixed_history.
Proof.
  intros r.
  assert (H1 : 4 < Z.of_nat (length (history (deref (current_topic Fixtures.unnamed_eight)
                                               Fixtures.unnamed_eight))))
    by (vm_compute; reflexivity).
  assert (H2 : strip_is_empty (name (deref (current_topic Fixtures.unnamed_eight)
                                       Fixtures.unnamed_eight)) = true)
    by (vm_compute; reflexivity).
  assert (H3 : Fixtures.helper_ok (helper_calls Fixtures.unnamed_eight)
                 (history (deref (current_topic Fixtures.unnamed_eight)
                            Fixtures.unnamed_eight))
               = Some ["cooking"; "cook recipes"]) by reflexivity.
  assert (H4 : usable (Some ["cooking"; "cook recipes"]) = true) by reflexivity.
  destruct (analyze_history_names_topic dot Fixtures.ollama_fx Fixtures.helper_ok
              off_topic_threshold_default off_topic_frequency_default
              slice_size_default Fixtures.unnamed_eight
              ["cooking"; "cook recipes"] H1 H2 H3 H4)
    as (Hok & _ & _ & _ & Hd & _).
  split; [exact Hok|].
  change (current_topic Fixtures.unnamed_eight) with 0%nat in Hd.
  unfold r. rewrite Hd. split; [reflexivity|]. split; vm_compute; reflexivity.
Defined.

(** ** Moving messages *)

(** What a later call returns for a text does not depend on the calls
    made in between. *)
Lemma fetched_stable (ollama : string -> vec) (text text' : string) (s : State) :
  fetched ollama text' (snd (fetch_embedding ollama text s)) = fetched ollama text' s.
Proof.
  rewrite fetch_embedding_unfold. cbv zeta. unfold fetched.
  destruct (embedding_cache s !! text) as [e|] eqn:E; [reflexivity|].
  destruct (truthy_list (ollama text)) eqn:Et; [|reflexivity].
  simpl. destruct (decide (text = text')) as [->|Hne].
  - rewrite lookup_insert_eq, E, Et. reflexivity.
  - rewrite lookup_insert_ne by exact Hne. reflexivity.
Qed.

Lemma fetched_update_topic (ollama : string -> vec) (text : string)
    (l : loc) (f : Topic -> Topic) (s : State) :
  fetched ollama text (update_topic l f s) = fetched ollama text s.
Proof. reflexivity. Qed.

Lemma message_eta (msg : Message) : mkMessage (role msg) (content msg) = msg.
Proof. destruct msg. reflexivity. Qed.

Lemma migrate_cons (ollama : string -> vec) (target : loc)
    (msg : Message) (rest : list Message) (s : State) :
  migrate ollama target (msg :: rest) s =
  migrate ollama target rest
    (update_topic target
       (Topic_add_message (role msg) (content msg)
          (Some (fetched ollama (content msg) s)))
       (snd (fetch_embedding ollama (content msg) s))).
Proof.
  unfold migrate. simpl for_each. unfold bind at 1. unfold bind at 1.
  destruct (fetch_embedding_fetched ollama (content msg) s) as (Hv & _).
  destruct (fetch_embedding ollama (content msg) s) as [[v|x] s1];
    cbn [fst snd] in *; [|discriminate].
  injection Hv as ->. reflexivity.
Qed.

Lemma migrate_effect (ollama : string -> vec) (target : loc)
    (segment : list Message) (s : State) :
  let s' := snd (migrate ollama target segment s) in
  let t := deref target s in
  fst (migrate ollama target segment s) = Ok tt /\
  deref target s' =
    mkTopic (name t) (description t) (embedded_description t)
            (history t ++ segment)
            (history_embeddings t ++
               map (fun msg => Some (fetched ollama (content msg) s)) segment)
            (file_embeddings t) /\
  (forall l, l <> target -> deref l s' = deref l s) /\
  topics s' = topics s /\ current_topic s' = current_topic s /\
  next_loc s' = next_loc s /\ similarity_threshold s' = similarity_threshold s /\
  helper_calls s' = helper_calls s /\
  (forall text, fetched ollama text s' = fetched ollama text s).
Proof.
  cbv zeta. revert s. induction segment as [|msg rest IH]; intros s.
  - unfold migrate. simpl. rewrite !app_nil_r.
    split; [reflexivity|]. split; [destruct (deref target s); reflexivity|].
    repeat split.
  - rewrite migrate_cons.
    set (s1 := snd (fetch_embedding ollama (content msg) s)).
    set (s2 := update_topic target _ s1).
    destruct (fetch_embedding_fetched ollama (content msg) s)
      as (_ & Hh & Ht & Hc & Hn & Hhc & Hthr).
    fold s1 in Hh, Ht, Hc, Hn, Hhc, Hthr.
    destruct (IH s2) as (Hok & Htarget & Hother & Htop & Hcur & Hnext & Hth & Hhelp & Hf).
    assert (Hfetched : forall text, fetched ollama text s2 = fetched ollama text s).
    { intros text. unfold s2. rewrite fetched_update_topic. apply fetched_stable. }
    split; [exact Hok|].
    split.
    { rewrite Htarget. unfold s2. rewrite deref_update_topic_eq.
      rewrite (deref_heap target s s1 Hh). simpl.
      rewrite message_eta. rewrite <- !app_assoc. simpl.
      f_equal. f_equal. f_equal.
      apply map_ext. intros m. f_equal. exact (Hfetched (content m)). }
    split.
    { intros l Hl. rewrite (Hother l Hl). unfold s2.
      rewrite deref_update_topic_ne by congruence.
      apply deref_heap. exact Hh. }
    split; [rewrite Htop; exact Ht|].
    split; [rewrite Hcur; exact Hc|].
    split; [rewrite Hnext; exact Hn|].
    split; [rewrite Hth; exact Hthr|].
    split; [rewrite Hhelp; exact Hhc|].
    intros text. rewrite Hf. apply Hfetched.
Qed.

(** The migration of a segment appends its messages, in order and with
    role and content as they are, to the target topic, each with the
    embedding that [fetch_embedding] gives for its content; nothing else
    of the target changes, no other topic changes, and the stored topics
    and the current topic stay. *)
Theorem migrate_appends (ollama : string -> vec) (target : loc)
    (segment : list Message) (s : State) :
  let s' := snd (migrate ollama target segment s) in
  let t := deref target s in
  fst (migrate ollama target segment s) = Ok tt /\
  deref target s' =
    mkTopic (name t) (description t) (embedded_description t)
            (history t ++ segment)
            (history_embeddings t ++
               map (fun msg => Some (fetched ollama (content msg) s)) segment)
            (file_embeddings t) /\
  (forall l, l <> target -> deref l s' = deref l s) /\
  topics s' = topics s /\ current_topic s' = current_topic s /\
  next_loc s' = next_loc s /\ similarity_threshold s' = similarity_threshold s /\
  helper_calls s' = helper_calls s /\
  (forall text, fetched ollama text s' = fetched ollama text s).
Proof. exact (migrate_effect ollama target segment s). Qed.

Lemma slices_partition_list {A} (start : Z) (xs : list A) :
  (slice_to start xs ++ slice_from start xs)%list = xs.
Proof. unfold slice_to, slice_from. apply take_drop. Qed.

(** A prefix and the rest, cut at the same index, make up the list: the
    history kept by the truncation ([history[:start]]) followed by the
    off-topic segment ([history[start:]]) is the history, for every
    index, negative and out-of-range ones included. *)
Theorem slices_partition {A} (start : Z) (xs : list A) :
  (slice_to start xs ++ slice_from start xs)%list = xs.
Proof.
  unfold slice_to, slice_from. apply take_drop.
Qed.

(** ** Splitting off a new topic *)

Lemma bind_Ok {A B} (m : M A) (k : A -> M B) (s s' : State) (a : A) :
  m s = (Ok a, s') -> bind m k s = k a s'.
Proof. unfold bind. intros ->. reflexivity. Qed.

Lemma try_except_Ok (body : M unit) (s s' : State) :
  body s = (Ok tt, s') -> try_except body s = (Ok tt, s').
Proof. unfold try_except. intros ->. reflexivity. Qed.

(** The answer of [_match_topic] depends on the topics only: on the
    heap, the stored list and the threshold. *)
Lemma match_topic_ext (kernel : vec -> vec -> Q) (e : pyemb)
    (exclude_topic : option loc) (s1 s2 : State) :
  heap s1 = heap s2 -> topics s1 = topics s2 ->
  similarity_threshold s1 = similarity_threshold s2 ->
  fst (_match_topic kernel e exclude_topic s1)
  = fst (_match_topic kernel e exclude_topic s2).
Proof.
  intros Hh Ht Hthr.
  unfold _match_topic, bind, gets, lift, ret, id. simpl.
  rewrite Ht, Hthr.
  assert (Hsc : scored kernel e s1 = scored kernel e s2).
  { unfold scored, deref. rewrite Hh. reflexivity. }
  rewrite Hsc.
  destruct (Nat.eqb (length (topics s2)) 0); [reflexivity|].
  destruct (map_res _ _); reflexivity.
Qed.

Lemma find_app_last {A} (f : A -> bool) (l : list A) (x : A) :
  (forall y, In y l -> f y = false) -> f x = true ->
  List.find f (l ++ [x]) = Some x.
Proof.
  intros Hl Hx. induction l as [|y l IH]; simpl.
  - rewrite Hx. reflexivity.
  - rewrite (Hl y) by (left; reflexivity).
    apply IH. intros z Hz. apply Hl. right. exact Hz.
Qed.

Lemma name_stored_ext (n : string) (s1 s2 : State) :
  topics s1 = topics s2 ->
  (forall t, In t (topics s2) -> deref t s1 = deref t s2) ->
  name_stored n s1 = name_stored n s2.
Proof.
  intros Ht Hd. unfold name_stored. rewrite Ht.
  revert Hd. generalize (topics s2) as ts.
  induction ts as [|t ts IH]; intros Hd; simpl; [reflexivity|].
  rewrite (Hd t) by (left; reflexivity).
  f_equal. apply IH. intros t' Ht'. apply Hd. right. exact Ht'.
Qed.

Lemma name_stored_false_all (n : string) (s : State) :
  name_stored n s = false ->
  forall t, In t (topics s) -> String.eqb (name (deref t s)) n = false.
Proof.
  unfold name_stored. intros H t Hin.
  destruct (String.eqb (name (deref t s)) n) eqn:E; [|reflexivity].
  assert (existsb (fun t => String.eqb (name (deref t s)) n) (topics s) = true).
  { apply existsb_exists. exists t. split; assumption. }
  congruence.
Qed.

Lemma split_off_unfold (kernel : vec -> vec -> Q) (ollama : string -> vec)
    (helper_script : nat -> list Message -> option (list string))
    (current_name : string) (start : Z) (segment : list Message) (s : State)
    (matches : list string) :
  helper_script (helper_calls s) segment = Some matches ->
  usable (Some matches) = true ->
  let n := nth 0 matches "unknown" in
  let d := nth 1 matches "" in
  let s1 := set_helper_calls (S (helper_calls s)) s in
  let s2 := snd (fetch_embedding ollama d s1) in
  let ce := fetched ollama d s in
  fst (_match_topic kernel (Some ce) (Some (current_topic s)) s) = Ok None ->
  split_off kernel ollama helper_script current_name start segment s =
  bind (try_except
          (bind (alloc (Topic_init n d)) (fun new_topic =>
           bind (modify (update_topic new_topic (set_embedded_description ce))) (fun _ =>
           bind (migrate ollama new_topic segment) (fun _ =>
           switch_topic new_topic)))))
       (fun _ => truncate_original current_name start) s2.
Proof.
  intros Hanswer Husable n d s1 s2 ce Hnomatch.
  unfold split_off, generate_topic_info_from_history.
  assert (Hgen : generate_loop helper_script 3 segment s = (Ok (Some n, Some d), s1)).
  { rewrite generate_loop_S. cbv zeta. rewrite Hanswer.
    unfold usable in Husable. rewrite Husable. reflexivity. }
  rewrite (bind_Ok _ _ _ _ _ Hgen). cbn [fst snd].
  unfold usable in Husable. apply andb_true_iff in Husable.
  destruct Husable as [E1 E2].
  unfold truthy_opt_str. fold n d in E1, E2. rewrite E1, E2. cbn [andb default].
  destruct (fetch_embedding_fetched ollama d s1) as (Hv & Hh & Ht & Hc & _ & _ & Hthr).
  fold s2 in Hh, Ht, Hc, Hthr.
  assert (Hfetch : fetch_embedding ollama d s1 = (Ok ce, s2)).
  { unfold s2. destruct (fetch_embedding ollama d s1) as [r s2']. cbn [fst snd] in *.
    rewrite Hv. reflexivity. }
  rewrite (bind_Ok _ _ _ _ _ Hfetch).
  assert (Hcur : gets current_topic s2 = (Ok (current_topic s), s2)).
  { unfold gets. rewrite Hc. reflexivity. }
  rewrite (bind_Ok _ _ _ _ _ Hcur).
  assert (Hmatch : _match_topic kernel (Some ce) (Some (current_topic s)) s2
                   = (Ok None, s2)).
  { pose proof (match_topic_state kernel (Some ce) (Some (current_topic s)) s2) as Hst.
    pose proof (match_topic_ext kernel (Some ce) (Some (current_topic s)) s2 s
                  Hh Ht Hthr) as Hext.
    rewrite Hnomatch in Hext.
    destruct (_match_topic kernel (Some ce) (Some (current_topic s)) s2) as [r st].
    cbn [fst snd] in *. subst. reflexivity. }
  rewrite (bind_Ok _ _ _ _ _ Hmatch). reflexivity.
Qed.

Lemma deref_alloc_eq (t : Topic) (s : State) :
  deref (next_loc s) (snd (alloc t s)) = t.
Proof.
  unfold alloc, bind, gets, modify, ret, deref. simpl.
  rewrite lookup_insert_eq. reflexivity.
Qed.

Lemma deref_alloc_ne (t : Topic) (s : State) (l : loc) :
  l <> next_loc s -> deref l (snd (alloc t s)) = deref l s.
Proof.
  intros H. unfold alloc, bind, gets, modify, ret, deref. simpl.
  rewrite lookup_insert_ne by congruence. reflexivity.
Qed.

Lemma alloc_result (t : Topic) (s : State) :
  alloc t s = (Ok (next_loc s), snd (alloc t s)) /\
  topics (snd (alloc t s)) = topics s /\
  current_topic (snd (alloc t s)) = current_topic s.
Proof. unfold alloc, bind, gets, modify, ret. simpl. repeat split. Qed.

Lemma fetched_alloc (ollama : string -> vec) (text : string) (t : Topic) (s : State) :
  fetched ollama text (snd (alloc t s)) = fetched ollama text s.
Proof. reflexivity. Qed.

Lemma truncate_original_found (current_name : string) (start : Z)
    (s : State) (target : loc) :
  List.find (fun t => String.eqb (name (deref t s)) current_name) (topics s)
    = Some target ->
  truncate_original current_name start s =
  (Ok tt,
   update_topic target (fun t => set_history (slice_to start (history t)) t)
     (set_locks_created (S (locks_created s)) s)).
Proof.
  intros H. unfold truncate_original, bind, gets, new_lock, modify, id. simpl.
  rewrite H. reflexivity.
Qed.

(** The lookup by name misses when no stored topic has the name, and then
    the truncation changes nothing. *)
Theorem truncate_original_miss (current_name : string) (start : Z) (s : State)
    (Hmiss : name_stored current_name s = false) :
  truncate_original current_name start s = (Ok tt, s).
Proof.
  unfold truncate_original, bind, gets, id. simpl.
  destruct (List.find _ (topics s)) as [t|] eqn:E; [|reflexivity].
  apply find_some in E. destruct E as [Hin Ht].
  pose proof (name_stored_false_all _ _ Hmiss t Hin). congruence.
Qed.

(** The new-topic branch of the drift analysis, from the request for a
    candidate name on, when the summarizer answers at once with a name
    other than the current topic's, no stored topic matches the candidate
    and no stored topic has the current topic's name.  A new topic is
    made with the candidate name, description and embedding and with the
    messages of the segment [history[start:]]; it becomes the current
    topic; the previous one is stored and keeps [history[:start]]: the
    two histories together are the history before, and no other topic
    changes. *)
Theorem split_off_new_topic
    (kernel : vec -> vec -> Q) (ollama : string -> vec)
    (helper_script : nat -> list Message -> option (list string))
    (start : Z) (s : State) (matches : list string)
    (Hcur : (current_topic s < next_loc s)%nat)
    (Htopics : forall t, In t (topics s) -> (t < next_loc s)%nat)
    (Hanswer : helper_script (helper_calls s)
                 (slice_from start (history (deref (current_topic s) s)))
               = Some matches)
    (Husable : usable (Some matches) = true)
    (Hname : nth 0 matches "unknown" <> name (deref (current_topic s) s))
    (Hnomatch : fst (_match_topic kernel
                       (Some (fetched ollama (nth 1 matches "") s))
                       (Some (current_topic s)) s) = Ok None)
    (Hnotstored : name_stored (name (deref (current_topic s) s)) s = false) :
  let c := current_topic s in
  let old := deref c s in
  let segment := slice_from start (history old) in
  let new := next_loc s in
  let r := split_off kernel ollama helper_script (name old) start segment s in
  fst r = Ok tt /\
  current_topic (snd r) = new /\
  topics (snd r) = (topics s ++ [c])%list /\
  deref c (snd r) = set_history (slice_to start (history old)) old /\
  deref new (snd r) =
    mkTopic (nth 0 matches "unknown") (nth 1 matches "")
            (fetched ollama (nth 1 matches "") s) segment
            (map (fun msg => Some (fetched ollama (content msg) s)) segment) [] /\
  (forall l, l <> c -> l <> new -> deref l (snd r) = deref l s) /\
  (history (deref c (snd r)) ++ history (deref new (snd r)))%list = history old.
Proof.
  intros c old segment new r.
  set (n := nth 0 matches "unknown") in *.
  set (d := nth 1 matches "") in *.
  set (ce := fetched ollama d s) in *.
  unfold r. rewrite (split_off_unfold kernel ollama helper_script (name old) start
                       segment s matches Hanswer Husable Hnomatch).
  fold n d ce.
  set (s1 := set_helper_calls (S (helper_calls s)) s).
  set (s2 := snd (fetch_embedding ollama d s1)).
  destruct (fetch_embedding_fetched ollama d s1) as (_ & Hh2 & Ht2 & Hc2 & Hn2 & _ & _).
  fold s2 in Hh2, Ht2, Hc2, Hn2.
  change (heap s1) with (heap s) in Hh2. change (topics s1) with (topics s) in Ht2.
  change (current_topic s1) with c in Hc2. change (next_loc s1) with new in Hn2.
  assert (Hf2 : forall text, fetched ollama text s2 = fetched ollama text s).
  { intros text. unfold s2. rewrite fetched_stable. reflexivity. }
  (* the new topic *)
  set (s3 := snd (alloc (Topic_init n d) s2)).
  destruct (alloc_result (Topic_init n d) s2) as (Halloc & Ht3 & Hc3).
  fold s3 in Halloc, Ht3, Hc3. rewrite Hn2 in Halloc.
  set (s4 := update_topic new (set_embedded_description ce) s3).
  assert (Hnew4 : deref new s4 = mkTopic n d ce [] [] []).
  { unfold s4. rewrite deref_update_topic_eq. unfold s3. rewrite <- Hn2.
    rewrite deref_alloc_eq. reflexivity. }
  assert (Hother4 : forall l, l <> new -> deref l s4 = deref l s).
  { intros l Hl. unfold s4. rewrite deref_update_topic_ne by congruence.
    unfold s3. rewrite deref_alloc_ne by congruence.
    apply deref_heap. exact Hh2. }
  (* the migration *)
  destruct (migrate_effect ollama new segment s4)
    as (Hmig & Hnew5 & Hother5 & Ht5 & Hc5 & _ & _ & _ & _).
  set (s5 := snd (migrate ollama new segment s4)) in *.
  assert (Hmig' : migrate ollama new segment s4 = (Ok tt, s5)).
  { unfold s5. destruct (migrate ollama new segment s4) as [rm sm].
    cbn [fst snd] in *. rewrite Hmig. reflexivity. }
  rewrite Hnew4 in Hnew5. cbn [name description embedded_description history
    history_embeddings file_embeddings app] in Hnew5.
  assert (Hfseg : map (fun msg => Some (fetched ollama (content msg) s4)) segment
                  = map (fun msg => Some (fetched ollama (content msg) s)) segment).
  { apply map_ext. intros msg. f_equal.
    unfold s4. rewrite fetched_update_topic. unfold s3. rewrite fetched_alloc.
    apply Hf2. }
  rewrite Hfseg in Hnew5.
  assert (Hcne : c <> new) by (unfold c, new; lia).
  assert (Hc5' : deref c s5 = old).
  { rewrite (Hother5 c Hcne). apply Hother4. exact Hcne. }
  assert (Htop5 : topics s5 = topics s).
  { rewrite Ht5. change (topics s4) with (topics s3). rewrite Ht3. exact Ht2. }
  assert (Hcur5 : current_topic s5 = c).
  { rewrite Hc5. change (current_topic s4) with (current_topic s3).
    rewrite Hc3. exact Hc2. }
  (* the switch *)
  assert (Hstored5 : name_stored (name old) s5 = false).
  { rewrite <- Hnotstored. apply name_stored_ext; [exact Htop5|].
    intros t Ht. assert (t <> new) by (specialize (Htopics t Ht); unfold new; lia).
    rewrite (Hother5 t) by assumption. apply Hother4. assumption. }
  set (s6 := snd (switch_topic new s5)).
  assert (Hsw : switch_topic new s5 = (Ok tt, s6) /\
                topics s6 = (topics s ++ [c])%list /\ current_topic s6 = new /\
                heap s6 = heap s5).
  { unfold s6. rewrite switch_topic_unfold. cbv zeta.
    rewrite Hcur5, Hc5', Hnew5. cbn [name].
    assert (Hname' : String.eqb n (name old) = false)
      by (apply String.eqb_neq; exact Hname).
    rewrite Hname'.
    cbn [negb]. rewrite Hstored5. cbn [negb fst snd].
    split; [reflexivity|]. split; [simpl; rewrite Htop5; reflexivity|].
    split; reflexivity. }
  destruct Hsw as (Hsw & Ht6 & Hc6 & Hh6).
  assert (Hbody :
    bind (alloc (Topic_init n d)) (fun new_topic =>
      bind (modify (update_topic new_topic (set_embedded_description ce))) (fun _ =>
      bind (migrate ollama new_topic segment) (fun _ =>
      switch_topic new_topic))) s2 = (Ok tt, s6)).
  { rewrite (bind_Ok _ _ _ _ _ Halloc).
    unfold bind at 1. unfold modify at 1. fold s4.
    rewrite (bind_Ok _ _ _ _ _ Hmig'). exact Hsw. }
  rewrite (bind_Ok _ _ _ _ _ (try_except_Ok _ _ _ Hbody)).
  (* the truncation *)
  assert (Hd6 : forall l, deref l s6 = deref l s5).
  { intros l. apply deref_heap. exact Hh6. }
  assert (Hfind : List.find (fun t => String.eqb (name (deref t s6)) (name old))
                    (topics s6) = Some c).
  { rewrite Ht6. apply find_app_last.
    - intros t Ht. rewrite Hd6.
      rewrite <- Htop5 in Ht.
      exact (name_stored_false_all _ _ Hstored5 t Ht).
    - rewrite Hd6, Hc5'. apply String.eqb_refl. }
  rewrite (truncate_original_found _ _ _ _ Hfind). cbn [fst snd].
  set (s7 := set_locks_created (S (locks_created s6)) s6).
  assert (Hd7 : forall l, deref l s7 = deref l s5).
  { intros l. rewrite <- Hd6. reflexivity. }
  assert (Hc' : deref c (update_topic c
                   (fun t => set_history (slice_to start (history t)) t) s7)
                = set_history (slice_to start (history old)) old).
  { rewrite deref_update_topic_eq, Hd7, Hc5'. reflexivity. }
  assert (Hn' : deref new (update_topic c
                   (fun t => set_history (slice_to start (history t)) t) s7)
                = mkTopic n d ce segment
                    (map (fun msg => Some (fetched ollama (content msg) s)) segment) []).
  { rewrite deref_update_topic_ne by exact Hcne. rewrite Hd7. exact Hnew5. }
  split; [reflexivity|]. split; [exact Hc6|]. split; [exact Ht6|].
  split; [exact Hc'|]. split; [exact Hn'|].
  split.
  - intros l Hlc Hln. rewrite deref_update_topic_ne by congruence.
    rewrite Hd7, (Hother5 l Hln). apply Hother4. exact Hln.
  - rewrite Hc', Hn'. cbn [history set_history]. apply slices_partition_list.
Qed.

Lemma truncate_original_miss_witness :
  name_stored "rust" Fixtures.drifting_alone = false /\
  truncate_original "rust" 5 Fixtures.drifting_alone = (Ok tt, Fixtures.drifting_alone).
Proof.
  assert (H : name_stored "rust" Fixtures.drifting_alone = false) by reflexivity.
  split; [exact H|].
  exact (truncate_original_miss "rust" 5 Fixtures.drifting_alone H).
Defined.

(** The topic "rust" splits at index 5. *)
Lemma split_off_new_topic_witness :
  let s := Fixtures.drifting_alone in
  let r := split_off dot Fixtures.ollama_fx Fixtures.helper_ok "rust" 5
             (slice_from 5 Fixtures.mixed_history) s in
  fst r = Ok tt /\
  current_topic (snd r) = 1%nat /\
  topics (snd r) = [0%nat] /\
  history (deref 0%nat (snd r)) = slice_to 5 Fixtures.mixed_history /\
  history (deref 1%nat (snd r)) = slice_from 5 Fixtures.mixed_history.
Proof.
  intros s r.
  assert (H1 : (current_topic s < next_loc s)%nat) by (vm_compute; lia).
  assert (H2 : forall t, In t (topics s) -> (t < next_loc s)%nat) by (intros t []).
  assert (H3 : Fixtures.helper_ok (helper_calls s)
                 (slice_from 5 (history (deref (current_topic s) s)))
               = Some ["cooking"; "cook recipes"]) by reflexivity.
  assert (H4 : usable (Some ["cooking"; "cook recipes"]) = true) by reflexivity.
  assert (H5 : nth 0 ["cooking"; "cook recipes"] "unknown"
               <> name (deref (current_topic s) s)) by (vm_compute; discriminate).
  assert (H6 : fst (_match_topic dot
                      (Some (fetched Fixtures.ollama_fx
                               (nth 1 ["cooking"; "cook recipes"] "") s))
                      (Some (current_topic s)) s) = Ok None) by reflexivity.
  assert (H7 : name_stored (name (deref (current_topic s) s)) s = false) by reflexivity.
  destruct (split_off_new_topic dot Fixtures.ollama_fx Fixtures.helper_ok 5 s
              ["cooking"; "cook recipes"] H1 H2 H3 H4 H5 H6 H7)
    as (Hok & Hc & Ht & Hold & Hnew & _ & _).
  change (name (deref (current_topic s) s)) with "rust" in *.
  change (history (deref (current_topic s) s)) with Fixtures.mixed_history in *.
  change (current_topic s) with 0%nat in *.
  change (next_loc s) with 1%nat in *.
  fold r in Hok, Hc, Ht, Hold, Hnew.
  split; [exact Hok|]. split; [exact Hc|]. split; [exact Ht|].
  split; [rewrite Hold; reflexivity|rewrite Hnew; reflexivity].
Defined.

(** ** The best context of a topic *)

Lemma argmax_from_spec (xs : list Q) :
  forall (pre : list Q) (best : Q) (besti i : nat),
    i = length pre ->
    (besti < i)%nat ->
    nth besti pre 0%Q = best ->
    (forall j, (j < i)%nat -> (nth j pre 0 <= best)%Q) ->
    (forall j, (j < besti)%nat -> (nth j pre 0 < best)%Q) ->
    let l := (pre ++ xs)%list in
    let r := argmax_from best besti i xs in
    (r < length l)%nat /\
    (forall j, (j < length l)%nat -> (nth j l 0 <= nth r l 0)%Q) /\
    (forall j, (j < r)%nat -> (nth j l 0 < nth r l 0)%Q).
Proof.
  induction xs as [|x xs IH]; intros pre best besti i Hi Hlt Hbest Hmax Hfirst;
    cbv zeta.
  - simpl. rewrite app_nil_r. rewrite Hbest. subst i. repeat split; auto.
  - simpl argmax_from.
    replace (pre ++ x :: xs)%list with ((pre ++ [x]) ++ xs)%list
      by (rewrite <- app_assoc; reflexivity).
    assert (Hlen : S i = length (pre ++ [x])%list)
      by (rewrite length_app; simpl; lia).
    destruct (Qltb best x) eqn:E.
    + apply Qltb_lt in E.
      apply IH.
      * exact Hlen.
      * lia.
      * rewrite app_nth2 by lia. subst i. rewrite Nat.sub_diag. reflexivity.
      * intros j Hj.
        destruct (Nat.eq_dec j i) as [->|Hne].
        -- rewrite app_nth2 by lia. subst i. rewrite Nat.sub_diag. simpl.
           apply Qle_refl.
        -- rewrite app_nth1 by lia. apply Qlt_le_weak.
           eapply Qle_lt_trans; [apply Hmax; lia|exact E].
      * intros j Hj. rewrite app_nth1 by lia.
        eapply Qle_lt_trans; [apply Hmax; lia|exact E].
    + apply Qltb_ge in E. apply IH.
      * exact Hlen.
      * lia.
      * rewrite app_nth1 by lia. exact Hbest.
      * intros j Hj.
        destruct (Nat.eq_dec j i) as [->|Hne].
        -- rewrite app_nth2 by lia. subst i. rewrite Nat.sub_diag. simpl. exact E.
        -- rewrite app_nth1 by lia. apply Hmax. lia.
      * intros j Hj. rewrite app_nth1 by lia. apply Hfirst. exact Hj.
Qed.

(** [argmax] gives the first index of a greatest entry. *)
Lemma argmax_spec (xs : list Q) :
  xs <> [] ->
  (argmax xs < length xs)%nat /\
  (forall j, (j < length xs)%nat -> (nth j xs 0 <= nth (argmax xs) xs 0)%Q) /\
  (forall j, (j < argmax xs)%nat -> (nth j xs 0 < nth (argmax xs) xs 0)%Q).
Proof.
  destruct xs as [|x xs]; [congruence|]. intros _.
  unfold argmax.
  apply (argmax_from_spec xs [x] x 0%nat 1%nat).
  - reflexivity.
  - lia.
  - reflexivity.
  - intros [|j] Hj; simpl in *; [apply Qle_refl|lia].
  - intros j Hj. lia.
Qed.

Lemma all_Some_map {A} (l : list (option A)) :
  forallb (fun r => match r with Some _ => true | None => false end) l = true ->
  l = map Some (omap id l).
Proof.
  induction l as [|[a|] l IH]; simpl; intros H; [reflexivity| |discriminate].
  f_equal. apply IH. exact H.
Qed.

Lemma check_array_single (q : vec) :
  check_array [Some q] =
  if Nat.eqb (length q) 0 then Raise ValueError else Ok ([q], length q).
Proof.
  unfold check_array. cbn [forallb omap andb].
  rewrite Nat.eqb_refl. reflexivity.
Qed.

Lemma check_array_Ok (rows : list pyemb) (vs : list vec) (d : nat) :
  check_array rows = Ok (vs, d) -> rows = map Some vs.
Proof.
  unfold check_array.
  destruct rows as [|[r0|] rest]; try discriminate.
  match goal with
  | |- context [forallb ?f rest] => destruct (forallb f rest) eqn:Eall
  end; [|discriminate].
  match goal with
  | |- context [forallb ?f (r0 :: omap id rest)] =>
      destruct (forallb f (r0 :: omap id rest))
  end; [|discriminate].
  destruct (Nat.eqb (length r0) 0); [discriminate|].
  intros H. injection H as <- <-.
  cbn [map]. f_equal. apply all_Some_map. exact Eall.
Qed.

(** When [cosine_similarity([a], rows)[0]] returns, [a] and all rows are
    vectors and the result lists the kernel of [a] with each row. *)
Lemma cosine_similarity_0_Ok (kernel : vec -> vec -> Q) (e : pyemb)
    (rows : list pyemb) (sims : list Q) :
  cosine_similarity_0 kernel e rows = Ok sims ->
  exists q vs, e = Some q /\ rows = map Some vs /\ sims = map (kernel q) vs.
Proof.
  unfold cosine_similarity_0, cosine_similarity.
  destruct e as [q|]; [|discriminate].
  rewrite check_array_single.
  destruct (Nat.eqb (length q) 0); [discriminate|].
  destruct (check_array rows) as [[vs d]|x] eqn:Erows; [|discriminate].
  apply check_array_Ok in Erows.
  destruct (Nat.eqb (length q) d); [|discriminate].
  cbn [map]. intros H. injection H as <-.
  exists q, vs. repeat split. exact Erows.
Qed.

(** The best context.  On a topic without messages the answer is
    [(0.0, -1)] for every argument, [None] included.  Otherwise an answer
    [(score, index)] names a message of the history: the index is in
    range, the score is the similarity of the argument with the embedding
    at the index, no embedding scores more, and every earlier one scores
    strictly less. *)
Theorem get_relevant_context_best
    (kernel : vec -> vec -> Q) (e : pyemb) (t : Topic) :
  (history_embeddings t = [] ->
   Topic_get_relevant_context kernel e t = Ok (0%Q, -1)) /\
  (forall score idx,
     history_embeddings t <> [] ->
     Topic_get_relevant_context kernel e t = Ok (score, idx) ->
     exists q vs,
       e = Some q /\ history_embeddings t = map Some vs /\
       0 <= idx < Z.of_nat (length vs) /\
       score = kernel q (nth (Z.to_nat idx) vs []) /\
       (forall j, (j < length vs)%nat -> (kernel q (nth j vs []) <= score)%Q) /\
       (forall j, (j < Z.to_nat idx)%nat -> (kernel q (nth j vs []) < score)%Q)).
Proof.
  split.
  - intros H. unfold Topic_get_relevant_context. rewrite H. reflexivity.
  - intros score idx Hne H. unfold Topic_get_relevant_context in H.
    destruct (history_embeddings t) as [|r0 rest] eqn:Erows; [congruence|].
    cbn [truthy_list negb] in H.
    destruct (cosine_similarity_0 kernel e (r0 :: rest)) as [sims|x] eqn:Ec;
      [|discriminate].
    injection H as <- <-.
    destruct (cosine_similarity_0_Ok _ _ _ _ Ec) as (q & vs & -> & Hrows & ->).
    exists q, vs. split; [reflexivity|]. split; [exact Hrows|].
    assert (Hvs : map (kernel q) vs <> []).
    { destruct vs; [discriminate Hrows|discriminate]. }
    destruct (argmax_spec _ Hvs) as (Hlt & Hmax & Hfirst).
    rewrite length_map in Hlt, Hmax.
    assert (Hnth : forall j, (j < length vs)%nat ->
                     nth j (map (kernel q) vs) 0%Q = kernel q (nth j vs [])).
    { intros j Hj. rewrite (nth_indep _ 0%Q (kernel q [])) by (rewrite length_map; lia).
      apply map_nth. }
    rewrite Nat2Z.id. split; [lia|].
    rewrite (Hnth _ Hlt). rewrite (Hnth _ Hlt) in Hmax, Hfirst.
    split; [reflexivity|].
    split.
    + intros j Hj. rewrite <- (Hnth j Hj). apply Hmax. exact Hj.
    + intros j Hj. rewrite <- (Hnth j) by lia. apply Hfirst. exact Hj.
Qed.

(** ** The file-name pattern *)

Lemma span_app (p : ascii -> bool) (s : list ascii) :
  s = (fst (FilePattern.span p s) ++ snd (FilePattern.span p s))%list /\
  Forall (fun c => p c = true) (fst (FilePattern.span p s)).
Proof.
  induction s as [|c s IH]; simpl.
  - split; [reflexivity|constructor].
  - destruct (p c) eqn:E; simpl.
    + destruct (FilePattern.span p s) as [run rest]. simpl in *.
      destruct IH as [IH1 IH2]. split; [f_equal; exact IH1|].
      constructor; assumption.
    + split; [reflexivity|constructor].
Qed.

Lemma starts_with_app (w m rest : list ascii) :
  starts_with m rest = true -> starts_with (w ++ m) (w ++ rest) = true.
Proof.
  intros H. induction w as [|c w IH]; simpl; [exact H|].
  rewrite Ascii.eqb_refl. exact IH.
Qed.

Lemma starts_with_prefix (m rest : list ascii) :
  starts_with m (m ++ rest) = true.
Proof.
  induction m as [|c m IH]; simpl; [reflexivity|].
  rewrite Ascii.eqb_refl. exact IH.
Qed.

Lemma alnum_pattern_char (c : ascii) :
  FilePattern.is_alnum c = true -> pattern_char c = true.
Proof.
  intros H. unfold pattern_char, FilePattern.is_word. rewrite H. reflexivity.
Qed.

Lemma word_pattern_char (c : ascii) :
  FilePattern.is_word c = true -> pattern_char c = true.
Proof. intros H. unfold pattern_char. rewrite H. reflexivity. Qed.

Lemma match_ext_head (s m : list ascii) :
  FilePattern.match_ext s = Some m -> head_match m s.
Proof.
  unfold FilePattern.match_ext.
  destruct s as [|c s']; [discriminate|].
  destruct (Ascii.eqb c ".") eqn:Ec; [|discriminate].
  apply Ascii.eqb_eq in Ec. subst c.
  destruct (span_app FilePattern.is_alnum s') as [Happ Hall].
  destruct (FilePattern.span FilePattern.is_alnum s') as [ext rest].
  cbn [fst snd] in *.
  destruct ext as [|e ext]; [discriminate|].
  intros H. injection H as <-.
  split; [|split].
  - rewrite Happ. exact (starts_with_prefix ("."%char :: e :: ext) rest).
  - left. reflexivity.
  - constructor; [reflexivity|].
    eapply Forall_impl; [exact Hall|]. intros a Ha. apply alnum_pattern_char. exact Ha.
Qed.

Lemma head_match_segment (c : ascii) (w m' s' rest : list ascii) :
  pattern_char c = true ->
  Forall (fun a => FilePattern.is_word a = true) w ->
  s' = (w ++ rest)%list ->
  head_match m' rest ->
  head_match (c :: w ++ m') (c :: s').
Proof.
  intros Hc Hw -> (Hst & Hdot & Hall).
  split; [|split].
  - exact (starts_with_app (c :: w) m' rest Hst).
  - right. apply in_or_app. right. exact Hdot.
  - constructor; [exact Hc|]. apply Forall_app. split; [|exact Hall].
    eapply Forall_impl; [exact Hw|]. intros a Ha. apply word_pattern_char. exact Ha.
Qed.

Lemma match_path_tail_head (fuel : nat) :
  forall (segs : nat) (s m : list ascii),
    FilePattern.match_path_tail fuel segs s = Some m -> head_match m s.
Proof.
  induction fuel as [|fuel IH]; intros segs s m; [discriminate|].
  cbn [FilePattern.match_path_tail].
  destruct s as [|c s']; [discriminate|].
  destruct (Ascii.eqb c slash) eqn:Ec.
  - apply Ascii.eqb_eq in Ec. subst c.
    destruct (span_app FilePattern.is_word s') as [Happ Hall].
    destruct (FilePattern.span FilePattern.is_word s') as [w rest].
    cbn [fst snd] in *.
    destruct w as [|a w]; [discriminate|].
    destruct (FilePattern.match_path_tail fuel (S segs) rest) as [m'|] eqn:Em;
      [|discriminate].
    intros H. injection H as <-.
    apply (head_match_segment slash (a :: w) m' s' rest); auto.
    apply (IH _ _ _ Em).
  - destruct (2 <=? segs)%nat; [|discriminate].
    apply match_ext_head.
Qed.

Lemma head_match_word (w m' s rest : list ascii) :
  Forall (fun a => FilePattern.is_word a = true) w ->
  s = (w ++ rest)%list ->
  head_match m' rest ->
  head_match (w ++ m') s.
Proof.
  intros Hw -> (Hst & Hdot & Hall).
  split; [|split].
  - apply starts_with_app. exact Hst.
  - apply in_or_app. right. exact Hdot.
  - apply Forall_app. split; [|exact Hall].
    eapply Forall_impl; [exact Hw|]. intros a Ha. apply word_pattern_char. exact Ha.
Qed.

Lemma match_here_head (s m : list ascii) :
  FilePattern.match_here s = Some m -> head_match m s.
Proof.
  unfold FilePattern.match_here, FilePattern.match_alt1, FilePattern.match_alt2.
  destruct (span_app FilePattern.is_word s) as [Happ Hall].
  destruct (FilePattern.span FilePattern.is_word s) as [w rest].
  cbn [fst snd] in *.
  destruct w as [|a w]; [discriminate|].
  destruct (FilePattern.match_path_tail (S (length rest)) 1 rest) as [m1|] eqn:E1.
  - intros H. injection H as <-.
    apply (head_match_word (a :: w) m1 s rest Hall Happ).
    apply (match_path_tail_head _ _ _ _ E1).
  - destruct (FilePattern.match_ext rest) as [m2|] eqn:E2; [|discriminate].
    intros H. injection H as <-.
    apply (head_match_word (a :: w) m2 s rest Hall Happ).
    apply match_ext_head. exact E2.
Qed.

Lemma search_sound (s m : list ascii) :
  FilePattern.search s = Some m ->
  contains m s = true /\ In "."%char m /\
  Forall (fun c => pattern_char c = true) m.
Proof.
  induction s as [|c s IH]; cbn [FilePattern.search].
  - destruct (FilePattern.match_here []) as [m'|] eqn:E; [|discriminate].
    intros H. injection H as ->.
    destruct (match_here_head _ _ E) as (Hst & Hdot & Hall).
    split; [|split; assumption]. cbn [contains]. rewrite Hst. reflexivity.
  - destruct (FilePattern.match_here (c :: s)) as [m'|] eqn:E.
    + intros H. injection H as ->.
      destruct (match_here_head _ _ E) as (Hst & Hdot & Hall).
      split; [|split; assumption]. cbn [contains]. rewrite Hst. reflexivity.
    + intros H. destruct (IH H) as (Hc & Hdot & Hall).
      split; [|split; assumption]. cbn [contains]. rewrite Hc. apply orb_true_r.
Qed.

Lemma extract_file_name_facts (query fname : string)
    (H : extract_file_name_from_query query = Some fname) :
  contains (chars fname) (chars query) = true /\
  In "."%char (chars fname) /\
  Forall (fun c => pattern_char c = true) (chars fname) /\
  truthy_str fname = true.
Proof.
  unfold extract_file_name_from_query in H.
  destruct (FilePattern.search (chars query)) as [m|] eqn:E; [|discriminate].
  injection H as <-.
  destruct (search_sound _ _ E) as (Hc & Hdot & Hall).
  unfold chars at 1 3 4. rewrite list_ascii_of_string_of_list_ascii.
  split; [exact Hc|]. split; [exact Hdot|]. split; [exact Hall|].
  destruct m; [destruct Hdot|reflexivity].
Qed.

(** A name extracted from a query is a piece of the query, holds a dot
    and, besides dots, only letters, digits, [_], [-] and [/]; it is
    therefore not empty. *)
Theorem extract_file_name_sound (query fname : string)
    (H : extract_file_name_from_query query = Some fname) :
  contains (chars fname) (chars query) = true /\
  In "."%char (chars fname) /\
  Forall (fun c => pattern_char c = true) (chars fname) /\
  truthy_str fname = true.
Proof. exact (extract_file_name_facts query fname H). Qed.

Lemma extract_file_name_sound_witness :
  extract_file_name_from_query "open src/app/main.py and summarize"
    = Some "src/app/main.py" /\
  contains (chars "src/app/main.py") (chars "open src/app/main.py and summarize") = true.
Proof.
  assert (H : extract_file_name_from_query "open src/app/main.py and summarize"
              = Some "src/app/main.py") by reflexivity.
  split; [exact H|].
  exact (proj1 (extract_file_name_sound _ _ H)).
Defined.

(** A query without a dot holds no file name. *)
Theorem extract_file_name_needs_dot (query : string)
    (H : ~ In "."%char (chars query)) :
  extract_file_name_from_query query = None.
Proof.
  destruct (extract_file_name_from_query query) as [fname|] eqn:E; [|reflexivity].
  exfalso. destruct (extract_file_name_facts _ _ E) as (Hc & Hdot & _).
  apply H. exact (contains_In _ _ _ Hc Hdot).
Qed.

Lemma extract_file_name_needs_dot_witness :
  ~ In "."%char (chars "hello world") /\
  extract_file_name_from_query "hello world" = None.
Proof.
  assert (H : ~ In "."%char (chars "hello world")).
  { simpl. intros H. repeat (destruct H as [H|H]; [discriminate H|]). exact H. }
  split; [exact H|]. exact (extract_file_name_needs_dot _ H).
Defined.

(** ** The file index *)

Lemma dict_get_set_eq {V} (k : string) (v : V) (d : dict V) :
  dict_get k (dict_set k v d) = Some v.
Proof.
  unfold dict_get. induction d as [|[k' v'] d IH]; simpl.
  - rewrite String.eqb_refl. reflexivity.
  - destruct (String.eqb k k') eqn:E; simpl.
    + rewrite String.eqb_refl. reflexivity.
    + rewrite E. exact IH.
Qed.

Lemma dict_get_set_ne {V} (k k' : string) (v : V) (d : dict V) :
  k' <> k -> dict_get k' (dict_set k v d) = dict_get k' d.
Proof.
  intros Hne. unfold dict_get. induction d as [|[k0 v0] d IH]; simpl.
  - apply String.eqb_neq in Hne. rewrite Hne. reflexivity.
  - destruct (String.eqb k k0) eqn:E; simpl.
    + apply String.eqb_eq in E. subst k0.
      apply String.eqb_neq in Hne. rewrite Hne. reflexivity.
    + destruct (String.eqb k' k0); [reflexivity|exact IH].
Qed.

Lemma dict_set_keys {V} (k : string) (v : V) (d : dict V) :
  map fst (dict_set k v d) =
  if existsb (String.eqb k) (map fst d) then map fst d
  else (map fst d ++ [k])%list.
Proof.
  induction d as [|[k' v'] d IH]; simpl; [reflexivity|].
  destruct (String.eqb k k') eqn:E; simpl.
  - apply String.eqb_eq in E. subst k'. reflexivity.
  - rewrite IH. destruct (existsb (String.eqb k) (map fst d)); reflexivity.
Qed.

Lemma dict_set_In {V} (k : string) (v : V) (d : dict V) :
  In (k, v) (dict_set k v d).
Proof.
  induction d as [|[k' v'] d IH]; simpl; [left; reflexivity|].
  destruct (String.eqb k k'); [left; reflexivity|right; exact IH].
Qed.

(** [_index_file] is an upsert by path.  The record of the path is the
    new one, with the basename as its name; the records of the other
    paths are as before; a path that was indexed keeps its place and the
    index its size, a new path goes to the end; and paths that were
    distinct stay distinct. *)
Theorem index_file_upsert (file_path : string) (e : vec) (t : Topic) :
  let t' := Topic_index_file file_path e t in
  dict_get file_path (file_embeddings t')
    = Some (mkFileInfo (string_of_list_ascii (basename (chars file_path))) file_path e) /\
  (forall other, other <> file_path ->
     dict_get other (file_embeddings t') = dict_get other (file_embeddings t)) /\
  map fst (file_embeddings t') =
    (if existsb (String.eqb file_path) (map fst (file_embeddings t))
     then map fst (file_embeddings t)
     else (map fst (file_embeddings t) ++ [file_path])%list) /\
  (List.NoDup (map fst (file_embeddings t)) ->
   List.NoDup (map fst (file_embeddings t'))) /\
  history t' = history t /\ history_embeddings t' = history_embeddings t /\
  name t' = name t.
Proof.
  cbv zeta. unfold Topic_index_file. cbn [file_embeddings set_file_embeddings].
  split; [apply dict_get_set_eq|].
  split; [intros other Hne; apply dict_get_set_ne; exact Hne|].
  split; [apply dict_set_keys|].
  split; [|repeat split].
  intros Hnd. rewrite dict_set_keys.
  destruct (existsb (String.eqb file_path) (map fst (file_embeddings t))) eqn:E;
    [exact Hnd|].
  apply List.NoDup_app; [exact Hnd|constructor; [intros []|constructor]|].
  intros k Hin [<-|[]].
  assert (existsb (String.eqb file_path) (map fst (file_embeddings t)) = true).
  { apply existsb_exists. exists file_path. split; [exact Hin|apply String.eqb_refl]. }
  congruence.
Qed.

Lemma starts_with_refl (s : list ascii) : starts_with s s = true.
Proof.
  induction s as [|c s IH]; simpl; [reflexivity|].
  rewrite Ascii.eqb_refl. exact IH.
Qed.

Lemma contains_refl (s : list ascii) : contains s s = true.
Proof. destruct s; simpl; [reflexivity|]. rewrite Ascii.eqb_refl, starts_with_refl. reflexivity. Qed.

Lemma add_file_unfold (ollama : string -> vec) (file_path file_content : string)
    (s : State) :
  add_file ollama file_path file_content s =
  let s1 := snd (fetch_embedding ollama (combined_content file_path file_content) s) in
  (Ok tt,
   update_topic (current_topic s)
     (Topic_index_file file_path
        (fetched ollama (combined_content file_path file_content) s)) s1).
Proof.
  unfold add_file. fold (combined_content file_path file_content).
  destruct (fetch_embedding_fetched ollama (combined_content file_path file_content) s)
    as (Hv & _ & _ & Hc & _).
  unfold bind, gets, modify.
  destruct (fetch_embedding ollama (combined_content file_path file_content) s)
    as [[v|x] s1]; cbn [fst snd] in *; [|discriminate].
  injection Hv as ->. rewrite Hc. reflexivity.
Qed.

(** A file that was added is found by its base name, in any case of
    letters: the name pass on the current topic lists its path with the
    score 1.0. *)
Theorem add_file_then_found_by_name
    (ollama : string -> vec) (file_path file_content fname : string) (s : State)
    (Hname : lower (chars fname) = lower (basename (chars file_path))) :
  let s' := snd (add_file ollama file_path file_content s) in
  fst (add_file ollama file_path file_content s) = Ok tt /\
  current_topic s' = current_topic s /\
  In (file_path, 1%Q)
     (name_match_pass fname (file_embeddings (deref (current_topic s') s'))).
Proof.
  cbv zeta. rewrite add_file_unfold. cbv zeta. cbn [fst snd].
  destruct (fetch_embedding_fetched ollama (combined_content file_path file_content) s)
    as (_ & _ & _ & Hc & _).
  split; [reflexivity|]. split; [exact Hc|].
  change (current_topic (update_topic (current_topic s) _ _))
    with (current_topic (snd (fetch_embedding ollama
                                (combined_content file_path file_content) s))).
  rewrite Hc. rewrite deref_update_topic_eq.
  unfold Topic_index_file. cbn [file_embeddings set_file_embeddings].
  unfold name_match_pass. apply in_flat_map.
  eexists. split; [apply dict_set_In|].
  cbn [fst snd file_name]. unfold chars at 2.
  rewrite list_ascii_of_string_of_list_ascii. rewrite Hname.
  rewrite contains_refl. left. reflexivity.
Qed.

Lemma add_file_then_found_by_name_witness :
  lower (chars "MAIN.py") = lower (basename (chars "src/app/main.py")) /\
  In ("src/app/main.py", 1%Q)
     (name_match_pass "MAIN.py"
        (file_embeddings
           (deref 0%nat (snd (add_file Fixtures.ollama_fx "src/app/main.py" "print(1)"
                                (HistoryManager_init 2 (1 # 2))))))).
Proof.
  assert (H : lower (chars "MAIN.py") = lower (basename (chars "src/app/main.py")))
    by reflexivity.
  split; [exact H|].
  exact (proj2 (proj2 (add_file_then_found_by_name Fixtures.ollama_fx
                         "src/app/main.py" "print(1)" "MAIN.py"
                         (HistoryManager_init 2 (1 # 2)) H))).
Defined.

Lemma similarity_pass_empty_embedding (kernel : vec -> vec -> Q)
    (query_embedding : vec) (threshold : Q) (files : dict FileInfo) :
  (exists p info, In (p, info) files /\ embedding info = []) ->
  is_raise (similarity_pass kernel query_embedding threshold files) = true.
Proof.
  intros (p & info & Hin & He).
  induction files as [|[p' info'] files IH]; [destruct Hin|].
  cbn [similarity_pass].
  destruct Hin as [Heq|Hin].
  - injection Heq as -> ->. rewrite He.
    rewrite cosine_similarity_00_empty by (right; reflexivity). reflexivity.
  - destruct (cosine_similarity_00 kernel (Some query_embedding)
                (Some (embedding info'))); [|reflexivity].
    specialize (IH Hin).
    destruct (similarity_pass kernel query_embedding threshold files);
      [discriminate IH|reflexivity].
Qed.

(** A file added while the embedding service yields nothing is indexed
    with the empty vector, and from then on every scoring of the current
    topic's files by embedding raises, whatever the query. *)
Theorem add_file_without_embedding_breaks_scoring
    (ollama : string -> vec) (file_path file_content : string) (s : State)
    (Hnothing : fetched ollama (combined_content file_path file_content) s = []) :
  let s' := snd (add_file ollama file_path file_content s) in
  forall (kernel : vec -> vec -> Q) (query_embedding : vec) (threshold : Q),
    is_raise (similarity_pass kernel query_embedding threshold
                (file_embeddings (deref (current_topic s') s'))) = true.
Proof.
  cbv zeta. intros kernel q thr. rewrite add_file_unfold. cbv zeta. cbn [snd].
  destruct (fetch_embedding_fetched ollama (combined_content file_path file_content) s)
    as (_ & _ & _ & Hc & _).
  change (current_topic (update_topic (current_topic s) _ _))
    with (current_topic (snd (fetch_embedding ollama
                                (combined_content file_path file_content) s))).
  rewrite Hc. rewrite deref_update_topic_eq.
  apply similarity_pass_empty_embedding.
  unfold Topic_index_file. cbn [file_embeddings set_file_embeddings].
  eexists _, _. split; [apply dict_set_In|]. cbn [embedding]. exact Hnothing.
Qed.

Lemma add_file_without_embedding_breaks_scoring_witness :
  fetched (fun _ => []) (combined_content "notes.txt" "hello")
    (HistoryManager_init 2 (1 # 2)) = [] /\
  is_raise (similarity_pass dot [1%Q; 0%Q] (3 # 10)
              (file_embeddings
                 (deref 0%nat (snd (add_file (fun _ => []) "notes.txt" "hello"
                                      (HistoryManager_init 2 (1 # 2))))))) = true.
Proof.
  assert (H : fetched (fun _ => []) (combined_content "notes.txt" "hello")
                (HistoryManager_init 2 (1 # 2)) = []) by reflexivity.
  split; [exact H|].
  exact (add_file_without_embedding_breaks_scoring (fun _ => []) "notes.txt" "hello"
           (HistoryManager_init 2 (1 # 2)) H dot [1%Q; 0%Q] (3 # 10)).
Defined.

(** ** Fetching a slice at once *)

Lemma fetch_enter_unfold (text : string) (s : State) :
  fetch_enter text s =
  let s1 := set_locks_created (S (locks_created s)) s in
  match embedding_cache s !! text with
  | Some e => (Ok (Some e), s1)
  | None => (Ok None, set_ollama_calls (ollama_calls s ++ [text]) s1)
  end.
Proof.
  unfold fetch_enter, bind, new_lock, modify, gets, ret. simpl.
  destruct (embedding_cache s !! text); reflexivity.
Qed.

(** The first phase: every task looks into the cache as it was. *)
Lemma map_m_fetch_enter (texts : list string) :
  forall s, exists s',
    map_m fetch_enter texts s
      = (Ok (map (fun text => embedding_cache s !! text) texts), s') /\
    embedding_cache s' = embedding_cache s /\
    heap s' = heap s /\ topics s' = topics s /\
    current_topic s' = current_topic s /\
    helper_calls s' = helper_calls s.
Proof.
  induction texts as [|text texts IH]; intros s.
  - exists s. repeat split.
  - cbn [map_m map]. unfold bind at 1. rewrite fetch_enter_unfold. cbv zeta.
    destruct (embedding_cache s !! text) as [e|] eqn:E.
    + destruct (IH (set_locks_created (S (locks_created s)) s))
        as (s' & Hr & Hc & Hh & Ht & Hcur & Hhc).
      exists s'. unfold bind. rewrite Hr. unfold ret. cbn [embedding_cache].
      repeat split; assumption.
    + destruct (IH (set_ollama_calls (ollama_calls s ++ [text])
                      (set_locks_created (S (locks_created s)) s)))
        as (s' & Hr & Hc & Hh & Ht & Hcur & Hhc).
      exists s'. unfold bind. rewrite Hr. unfold ret. cbn [embedding_cache].
      repeat split; assumption.
Qed.

Lemma fetch_resume_unfold (ollama : string -> vec) (text : string) (s : State) :
  fetch_resume ollama text s =
  if truthy_list (ollama text)
  then (Ok (ollama text),
        set_embedding_cache (<[text := ollama text]> (embedding_cache s)) s)
  else (Ok [], s).
Proof.
  unfold fetch_resume, bind, modify, ret.
  destruct (truthy_list (ollama text)); reflexivity.
Qed.

(** The second phase, for tasks that looked into the cache [c0]. *)
Lemma map_m_resume (ollama : string -> vec) (c0 : gmap string vec)
    (texts : list string) :
  forall s, exists s',
    map_m (fun tp : string * option vec =>
             match snd tp with
             | Some e => ret e
             | None => fetch_resume ollama (fst tp)
             end)
          (zip texts (map (fun text => c0 !! text) texts)) s
      = (Ok (map (fun text => match c0 !! text with
                              | Some e => e
                              | None => if truthy_list (ollama text)
                                        then ollama text else []
                              end) texts), s') /\
    heap s' = heap s /\ topics s' = topics s /\
    current_topic s' = current_topic s /\
    helper_calls s' = helper_calls s.
Proof.
  induction texts as [|text texts IH]; intros s.
  - exists s. repeat split.
  - cbn [map zip zip_with map_m]. unfold bind at 1. cbn [fst snd].
    destruct (c0 !! text) as [e|] eqn:E.
    + unfold ret at 1.
      destruct (IH s) as (s' & Hr & Hh & Ht & Hc & Hhc).
      exists s'. unfold bind. rewrite Hr. unfold ret.
      repeat split; assumption.
    + rewrite fetch_resume_unfold.
      destruct (truthy_list (ollama text)).
      * destruct (IH (set_embedding_cache (<[text := ollama text]> (embedding_cache s)) s))
          as (s' & Hr & Hh & Ht & Hc & Hhc).
        exists s'. unfold bind. rewrite Hr. unfold ret.
        repeat split; assumption.
      * destruct (IH s) as (s' & Hr & Hh & Ht & Hc & Hhc).
        exists s'. unfold bind. rewrite Hr. unfold ret.
        repeat split; assumption.
Qed.

Lemma map_m_fetch_embedding (ollama : string -> vec) (texts : list string) :
  forall s,
    fst (map_m (fetch_embedding ollama) texts s)
      = Ok (map (fun text => fetched ollama text s) texts).
Proof.
  induction texts as [|text texts IH]; intros s; [reflexivity|].
  cbn [map_m map]. unfold bind at 1.
  destruct (fetch_embedding_fetched ollama text s) as (Hv & _).
  pose proof (fun t' => fetched_stable ollama text t' s) as Hst.
  destruct (fetch_embedding ollama text s) as [[v|x] s1]; cbn [fst snd] in *;
    [|discriminate].
  injection Hv as ->. unfold bind at 1.
  specialize (IH s1).
  destruct (map_m (fetch_embedding ollama) texts s1) as [[ys|x] s2];
    cbn [fst snd] in *; [|discriminate].
  injection IH as ->. unfold ret. cbn [fst]. f_equal. f_equal.
  apply map_ext. intros t'. apply Hst.
Qed.

Lemma gather_fetch_result (ollama : string -> vec) (texts : list string) (s : State) :
  exists s',
    gather_fetch ollama texts s
      = (Ok (map (fun text => fetched ollama text s) texts), s') /\
    heap s' = heap s /\ topics s' = topics s /\ current_topic s' = current_topic s /\
    helper_calls s' = helper_calls s.
Proof.
  unfold gather_fetch.
  destruct (map_m_fetch_enter texts s) as (s1 & Hp & _ & Hh1 & Ht1 & Hc1 & Hhc1).
  rewrite (bind_Ok _ _ _ _ _ Hp).
  destruct (map_m_resume ollama (embedding_cache s) texts s1)
    as (s' & Hr & Hh & Ht & Hc & Hhc).
  exists s'. split; [exact Hr|]. repeat split; congruence.
Qed.

(** Fetching the embeddings of a slice with [asyncio.gather] returns the
    vectors that fetching them one after the other returns: for each
    text the cached vector, else the answer of the service.  The
    interleaving can repeat requests; it changes no vector, no topic and
    no pointer. *)
Theorem gather_fetch_same_embeddings (ollama : string -> vec)
    (texts : list string) (s : State) :
  fst (gather_fetch ollama texts s) = Ok (map (fun text => fetched ollama text s) texts) /\
  fst (gather_fetch ollama texts s) = fst (map_m (fetch_embedding ollama) texts s) /\
  heap (snd (gather_fetch ollama texts s)) = heap s /\
  topics (snd (gather_fetch ollama texts s)) = topics s /\
  current_topic (snd (gather_fetch ollama texts s)) = current_topic s.
Proof.
  destruct (gather_fetch_result ollama texts s) as (s' & Hg & Hh & Ht & Hc & _).
  rewrite Hg. cbn [fst snd].
  split; [reflexivity|]. split; [|repeat split; assumption].
  symmetry. apply map_m_fetch_embedding.
Qed.

(** ** A slice that stays on topic *)

Lemma naming_phase_named (ollama : string -> vec)
    (helper_script : nat -> list Message -> option (list string)) (s : State) :
  strip_is_empty (name (deref (current_topic s) s)) = false ->
  naming_phase ollama helper_script s = (Ok false, s).
Proof.
  intros H. rewrite naming_phase_unfold. cbv zeta. rewrite H.
  rewrite andb_false_r. reflexivity.
Qed.

(** The drift phase on a named topic whose length triggers it, when the
    similarities of the candidate slice can be computed and at most half
    of them are below the threshold: the analysis returns, and it leaves
    every topic, the stored topics and the current topic as they are; the
    summarizer is not asked. *)
Theorem analyze_history_on_topic
    (kernel : vec -> vec -> Q) (ollama : string -> vec)
    (helper_script : nat -> list Message -> option (list string))
    (thr : Q) (freq ss : Z) (s : State) (sims : list Q)
    (Hnamed : strip_is_empty (name (deref (current_topic s) s)) = false)
    (Htrigger : drift_trigger
                  (Z.of_nat (length (history (deref (current_topic s) s)))) freq
                = Ok true)
    (Hsims : map_res
               (fun msg_emb =>
                  cosine_similarity_00 kernel (Some msg_emb)
                    (Some (embedded_description (deref (current_topic s) s))))
               (map (fun text => fetched ollama text s)
                  (map content (slice_from (- ss)
                                  (history (deref (current_topic s) s)))))
             = Ok sims)
    (Hon : drift_declared thr sims = false) :
  let s' := snd (_analyze_history kernel ollama helper_script thr freq ss s) in
  fst (_analyze_history kernel ollama helper_script thr freq ss s) = Ok tt /\
  heap s' = heap s /\ topics s' = topics s /\
  current_topic s' = current_topic s /\ helper_calls s' = helper_calls s.
Proof.
  cbv zeta. unfold _analyze_history.
  rewrite (bind_Ok _ _ _ _ _ (naming_phase_named ollama helper_script s Hnamed)).
  unfold drift_phase.
  assert (Hg0 : gets id s = (Ok s, s)) by reflexivity.
  rewrite (bind_Ok _ _ _ _ _ Hg0).
  assert (Ht : lift (drift_trigger
                       (Z.of_nat (length (history (deref (current_topic s) s)))) freq) s
               = (Ok true, s)).
  { unfold lift. rewrite Htrigger. reflexivity. }
  rewrite (bind_Ok _ _ _ _ _ Ht).
  destruct (gather_fetch_result ollama
              (map content (slice_from (- ss) (history (deref (current_topic s) s)))) s)
    as (s1 & Hg & Hh & Htop & Hc & Hhc).
  rewrite (bind_Ok _ _ _ _ _ Hg).
  assert (Hg1 : gets id s1 = (Ok s1, s1)) by reflexivity.
  rewrite (bind_Ok _ _ _ _ _ Hg1).
  rewrite Hc. rewrite (deref_heap (current_topic s) s s1 Hh).
  assert (Hl : lift (map_res
               (fun msg_emb =>
                  cosine_similarity_00 kernel (Some msg_emb)
                    (Some (embedded_description (deref (current_topic s) s))))
               (map (fun text => fetched ollama text s)
                  (map content (slice_from (- ss)
                                  (history (deref (current_topic s) s)))))) s1
             = (Ok sims, s1)).
  { unfold lift. rewrite Hsims. reflexivity. }
  rewrite (bind_Ok _ _ _ _ _ Hl). rewrite Hon. unfold ret. cbn [fst snd].
  split; [reflexivity|]. split; [exact Hh|]. split; [exact Htop|].
  split; [exact Hc|exact Hhc].
Qed.

Lemma analyze_history_on_topic_witness :
  let r := _analyze_history dot Fixtures.ollama_fx Fixtures.helper_ok
             off_topic_threshold_default off_topic_frequency_default
             slice_size_default on_topic_state in
  drift_declared off_topic_threshold_default [1%Q; 1%Q; 1%Q; 1%Q] = false /\
  fst r = Ok tt /\ heap (snd r) = heap on_topic_state /\
  helper_calls (snd r) = 0%nat.
Proof.
  intros r.
  assert (H1 : strip_is_empty (name (deref (current_topic on_topic_state)
                                       on_topic_state)) = false)
    by (vm_compute; reflexivity).
  assert (H2 : drift_trigger
                 (Z.of_nat (length (history (deref (current_topic on_topic_state)
                                              on_topic_state))))
                 off_topic_frequency_default = Ok true)
    by (vm_compute; reflexivity).
  assert (H3 : map_res
               (fun msg_emb =>
                  cosine_similarity_00 dot (Some msg_emb)
                    (Some (embedded_description (deref (current_topic on_topic_state)
                                                   on_topic_state))))
               (map (fun text => fetched Fixtures.ollama_fx text on_topic_state)
                  (map content (slice_from (- slice_size_default)
                                  (history (deref (current_topic on_topic_state)
                                              on_topic_state)))))
             = Ok [1%Q; 1%Q; 1%Q; 1%Q]) by (vm_compute; reflexivity).
  assert (H4 : drift_declared off_topic_threshold_default [1%Q; 1%Q; 1%Q; 1%Q] = false)
    by (vm_compute; reflexivity).
  split; [exact H4|].
  destruct (analyze_history_on_topic dot Fixtures.ollama_fx Fixtures.helper_ok
              off_topic_threshold_default off_topic_frequency_default
              slice_size_default on_topic_state [1%Q; 1%Q; 1%Q; 1%Q] H1 H2 H3 H4)
    as (Hok & Hh & _ & _ & Hhc).
  split; [exact Hok|]. split; [exact Hh|exact Hhc].
Defined.

(** ** The decision of the drift analysis *)

(** When the summarizer gives no answer for the segment, [split_off]
    asks three times and changes nothing else. *)
Lemma split_off_no_answer (kernel : vec -> vec -> Q) (ollama : string -> vec)
    (helper_script : nat -> list Message -> option (list string))
    (current_name : string) (start : Z) (segment : list Message) (s : State) :
  (forall k, helper_script k segment = None) ->
  split_off kernel ollama helper_script current_name start segment s
  = (Ok tt, set_helper_calls (helper_calls s + 3) s).
Proof.
  intros Hnone. unfold split_off.
  rewrite (bind_Ok _ _ _ _ _ (generate_loop_exhausted helper_script segment 3 Hnone s)).
  reflexivity.
Qed.

(** The candidate slice has [slice_size] messages when the history has
    that many. *)
Lemma slice_from_last_length {A} (xs : list A) (k : Z) :
  0 < k <= Z.of_nat (length xs) ->
  Z.of_nat (length (slice_from (- k) xs)) = k.
Proof.
  intros Hk. unfold slice_from.
  destruct (Z.ltb_spec (- k) 0) as [_|Hge]; [|lia].
  rewrite length_drop. lia.
Qed.

(** C7. The analysis of a named topic whose length triggers it, with
    [sims] the similarities of the candidate slice, the last
    [slice_size] messages.  There is one similarity for each message of
    the slice.  When strictly more than half of them are below the
    threshold, drift is declared: the analysis goes on, after the
    embeddings of the slice were fetched, with the split of the history
    at the start index, and asks the summarizer about the messages from
    that index on.  Otherwise, so also when exactly half are below, the
    analysis ends there and the summarizer is not asked.  The start index
    is the position in the whole history of the first message of the
    slice that is below the threshold; it is the start of the slice when
    no message is below it. *)
Theorem drift_declared_and_start_index
    (kernel : vec -> vec -> Q) (ollama : string -> vec)
    (helper_script : nat -> list Message -> option (list string))
    (thr : Q) (freq ss : Z) (s : State) (sims : list Q)
    (Hnamed : strip_is_empty (name (deref (current_topic s) s)) = false)
    (Htrigger : drift_trigger
                  (Z.of_nat (length (history (deref (current_topic s) s)))) freq
                = Ok true)
    (Hslice : 0 < ss <= Z.of_nat (length (history (deref (current_topic s) s))))
    (Hsims : map_res
               (fun msg_emb =>
                  cosine_similarity_00 kernel (Some msg_emb)
                    (Some (embedded_description (deref (current_topic s) s))))
               (map (fun text => fetched ollama text s)
                  (map content (slice_from (- ss)
                                  (history (deref (current_topic s) s)))))
             = Ok sims) :
  let c := current_topic s in
  let hist := history (deref c s) in
  let n := Z.of_nat (length hist) in
  let s1 := snd (gather_fetch ollama (map content (slice_from (- ss) hist)) s) in
  let start := off_topic_start_index n ss thr sims in
  let r := _analyze_history kernel ollama helper_script thr freq ss s in
  Z.of_nat (length sims) = ss /\
  ((length sims < 2 * count_below thr sims)%nat ->
     r = split_off kernel ollama helper_script (name (deref c s)) start
           (slice_from start hist) s1 /\
     ((forall k, helper_script k (slice_from start hist) = None) ->
        fst r = Ok tt /\ helper_calls (snd r) = (helper_calls s + 3)%nat /\
        heap (snd r) = heap s) /\
     exists (i : nat) (sim : Q),
       sims !! i = Some sim /\ (sim < thr)%Q /\ start = n - ss + Z.of_nat i) /\
  ((2 * count_below thr sims <= length sims)%nat ->
     r = (Ok tt, s1) /\ helper_calls (snd r) = helper_calls s /\
     heap (snd r) = heap s) /\
  (forall (i : nat) (sim : Q),
     sims !! i = Some sim -> (sim < thr)%Q ->
     (forall j sim', (j < i)%nat -> sims !! j = Some sim' -> ~ (sim' < thr)%Q) ->
     start = n - ss + Z.of_nat i /\
     slice_from (- ss) hist !! i = hist !! Z.to_nat start) /\
  ((forall sim, In sim sims -> ~ (sim < thr)%Q) -> start = n - ss).
Proof.
  cbv zeta.
  set (c := current_topic s) in *.
  set (hist := history (deref c s)) in *.
  destruct (drift_decision_facts thr hist sims ss Hslice)
    as (Hiff & _ & Hfirst & Hex & Hdefault).
  cbv zeta in Hiff, Hfirst, Hex, Hdefault.
  destruct (gather_fetch_result ollama (map content (slice_from (- ss) hist)) s)
    as (s1 & Hg & Hh & Htop & Hc & Hhc).
  rewrite Hg. cbn [snd].
  (* the analysis, up to the test of line 504 *)
  assert (Hrun :
    _analyze_history kernel ollama helper_script thr freq ss s =
    (if drift_declared thr sims
     then split_off kernel ollama helper_script (name (deref c s))
            (off_topic_start_index (Z.of_nat (length hist)) ss thr sims)
            (slice_from (off_topic_start_index (Z.of_nat (length hist)) ss thr sims)
               hist)
     else ret tt) s1).
  { unfold _analyze_history.
    rewrite (bind_Ok _ _ _ _ _ (naming_phase_named ollama helper_script s Hnamed)).
    unfold drift_phase.
    assert (Hg0 : gets id s = (Ok s, s)) by reflexivity.
    rewrite (bind_Ok _ _ _ _ _ Hg0).
    assert (Ht : lift (drift_trigger (Z.of_nat (length hist)) freq) s = (Ok true, s)).
    { unfold lift. rewrite Htrigger. reflexivity. }
    fold c. fold hist.
    rewrite (bind_Ok _ _ _ _ _ Ht).
    rewrite (bind_Ok _ _ _ _ _ Hg).
    assert (Hg1 : gets id s1 = (Ok s1, s1)) by reflexivity.
    rewrite (bind_Ok _ _ _ _ _ Hg1).
    rewrite Hc. fold c. rewrite (deref_heap c s s1 Hh). fold hist.
    assert (Hl : lift (map_res
                 (fun msg_emb =>
                    cosine_similarity_00 kernel (Some msg_emb)
                      (Some (embedded_description (deref c s))))
                 (map (fun text => fetched ollama text s)
                    (map content (slice_from (- ss) hist)))) s1
               = (Ok sims, s1)).
    { unfold lift. rewrite Hsims. reflexivity. }
    rewrite (bind_Ok _ _ _ _ _ Hl). reflexivity. }
  split.
  { apply map_res_Ok in Hsims. apply Forall2_length in Hsims.
    rewrite <- Hsims. rewrite !length_map.
    rewrite slice_from_last_length by exact Hslice. lia. }
  split.
  { intros Hmore. apply Hiff in Hmore. rewrite Hmore in Hrun.
    split; [exact Hrun|]. split.
    - intros Hnone. rewrite Hrun.
      rewrite (split_off_no_answer kernel ollama helper_script _ _ _ s1 Hnone).
      cbn [fst snd]. split; [reflexivity|]. split.
      + cbn. rewrite Hhc. reflexivity.
      + cbn. exact Hh.
    - apply Hex. exact Hmore. }
  split.
  { intros Hle.
    assert (E : drift_declared thr sims = false).
    { destruct (drift_declared thr sims) eqn:E; [|reflexivity].
      apply drift_declared_iff in E. lia. }
    rewrite E in Hrun. rewrite Hrun. unfold ret. cbn [fst snd].
    split; [reflexivity|]. split; [exact Hhc|exact Hh]. }
  split; [|exact Hdefault].
  intros i sim Hi Hlt Hbefore.
  destruct (Hfirst i sim Hi Hlt Hbefore) as [Hstart Hlookup].
  split; [exact Hstart|]. rewrite Hstart. exact Hlookup.
Qed.

(** The history of eight messages whose last three leave the subject:
    three of the four similarities of the slice are below 0.7, the first
    of them at position 1 of the slice, so the history is cut at 5.  With
    exactly two of four below 0.7 nothing is cut. *)
Lemma drift_declared_and_start_index_witness :
  let s := Fixtures.drifting_alone in
  let r := _analyze_history dot Fixtures.ollama_fx Fixtures.helper_ok
             off_topic_threshold_default off_topic_frequency_default
             slice_size_default s in
  let r2 := _analyze_history dot Fixtures.ollama_fx Fixtures.helper_ok
              off_topic_threshold_default off_topic_frequency_default
              slice_size_default half_drift_state in
  off_topic_start_index 8 slice_size_default off_topic_threshold_default
    [1; 0; 0; 0]%Q = 5 /\
  r = split_off dot Fixtures.ollama_fx Fixtures.helper_ok "rust" 5
        (slice_from 5 Fixtures.mixed_history)
        (snd (gather_fetch Fixtures.ollama_fx
                (map content (slice_from (- slice_size_default)
                                Fixtures.mixed_history)) s)) /\
  history (deref 0%nat (snd r)) = slice_to 5 Fixtures.mixed_history /\
  history (deref 1%nat (snd r)) = slice_from 5 Fixtures.mixed_history /\
  count_below off_topic_threshold_default [1; 1; 0; 0]%Q = 2%nat /\
  fst r2 = Ok tt /\ heap (snd r2) = heap half_drift_state /\
  helper_calls (snd r2) = 0%nat.
Proof.
  cbv zeta.
  assert (Hnamed : strip_is_empty
                     (name (deref (current_topic Fixtures.drifting_alone)
                              Fixtures.drifting_alone)) = false) by reflexivity.
  assert (Htrigger : drift_trigger
                       (Z.of_nat (length (history
                          (deref (current_topic Fixtures.drifting_alone)
                             Fixtures.drifting_alone))))
                       off_topic_frequency_default = Ok true) by reflexivity.
  assert (Hslice : 0 < slice_size_default
                   <= Z.of_nat (length (history
                        (deref (current_topic Fixtures.drifting_alone)
                           Fixtures.drifting_alone))))
    by (vm_compute; split; [reflexivity|discriminate]).
  assert (Hsims : map_res
            (fun msg_emb =>
               cosine_similarity_00 dot (Some msg_emb)
                 (Some (embedded_description
                          (deref (current_topic Fixtures.drifting_alone)
                             Fixtures.drifting_alone))))
            (map (fun text => fetched Fixtures.ollama_fx text Fixtures.drifting_alone)
               (map content (slice_from (- slice_size_default)
                               (history (deref (current_topic Fixtures.drifting_alone)
                                           Fixtures.drifting_alone)))))
          = Ok [1; 0; 0; 0]%Q) by (vm_compute; reflexivity).
  destruct (drift_declared_and_start_index dot Fixtures.ollama_fx Fixtures.helper_ok
              off_topic_threshold_default off_topic_frequency_default
              slice_size_default Fixtures.drifting_alone [1; 0; 0; 0]%Q
              Hnamed Htrigger Hslice Hsims) as (_ & Hmore & _ & _ & _).
  destruct Hmore as (Hrun & _ & _); [vm_compute; lia|].
  assert (Hnamed2 : strip_is_empty
                      (name (deref (current_topic half_drift_state)
                               half_drift_state)) = false) by reflexivity.
  assert (Htrigger2 : drift_trigger
                        (Z.of_nat (length (history
                           (deref (current_topic half_drift_state)
                              half_drift_state))))
                        off_topic_frequency_default = Ok true) by reflexivity.
  assert (Hslice2 : 0 < slice_size_default
                    <= Z.of_nat (length (history
                         (deref (current_topic half_drift_state)
                            half_drift_state))))
    by (vm_compute; split; [reflexivity|discriminate]).
  assert (Hsims2 : map_res
            (fun msg_emb =>
               cosine_similarity_00 dot (Some msg_emb)
                 (Some (embedded_description
                          (deref (current_topic half_drift_state)
                             half_drift_state))))
            (map (fun text => fetched Fixtures.ollama_fx text half_drift_state)
               (map content (slice_from (- slice_size_default)
                               (history (deref (current_topic half_drift_state)
                                           half_drift_state)))))
          = Ok [1; 1; 0; 0]%Q) by (vm_compute; reflexivity).
  destruct (drift_declared_and_start_index dot Fixtures.ollama_fx Fixtures.helper_ok
              off_topic_threshold_default off_topic_frequency_default
              slice_size_default half_drift_state [1; 1; 0; 0]%Q
              Hnamed2 Htrigger2 Hslice2 Hsims2) as (_ & _ & Hhalf & _ & _).
  destruct Hhalf as (Hrun2 & Hcalls2 & Hheap2); [vm_compute; lia|].
  split; [reflexivity|].
  split; [exact Hrun|].
  split; [vm_compute; reflexivity|].
  split; [vm_compute; reflexivity|].
  split; [reflexivity|].
  split; [rewrite Hrun2; reflexivity|].
  split; [exact Hheap2|exact Hcalls2].
Defined.


(** ** Choosing the files to read *)

Lemma insert_desc_In (x y : string * Q) (l : list (string * Q)) :
  In y (insert_desc x l) <-> y = x \/ In y l.
Proof.
  induction l as [|z l IH]; simpl.
  - split; intros [H|H]; auto.
  - destruct (Qltb (snd x) (snd z)); simpl; rewrite ?IH; split; intros H;
      repeat (destruct H as [H|H]); auto.
Qed.

Lemma sort_desc_In (y : string * Q) (l : list (string * Q)) :
  In y (sort_desc l) <-> In y l.
Proof.
  induction l as [|x l IH]; simpl; [reflexivity|].
  rewrite insert_desc_In, IH. split; intros [H|H]; auto.
Qed.

Lemma insert_desc_length (x : string * Q) (l : list (string * Q)) :
  length (insert_desc x l) = S (length l).
Proof.
  induction l as [|z l IH]; simpl; [reflexivity|].
  destruct (Qltb (snd x) (snd z)); simpl; [rewrite IH|]; reflexivity.
Qed.

Lemma sort_desc_length (l : list (string * Q)) :
  length (sort_desc l) = length l.
Proof.
  induction l as [|x l IH]; simpl; [reflexivity|].
  rewrite insert_desc_length, IH. reflexivity.
Qed.

(** The sorted list starts with an entry of greatest score. *)
Lemma sort_desc_head (l : list (string * Q)) (x : string * Q)
    (rest : list (string * Q)) :
  sort_desc l = x :: rest ->
  In x l /\ forall y, In y l -> (snd y <= snd x)%Q.
Proof.
  revert x rest. induction l as [|a l IH]; intros x rest; simpl; [discriminate|].
  destruct (sort_desc l) as [|y sl] eqn:E.
  - simpl. intros H. injection H as <- <-.
    assert (l = []) by (apply length_zero_iff_nil; rewrite <- sort_desc_length, E;
                         reflexivity).
    subst l. split; [left; reflexivity|].
    intros z [<-|[]]. apply Qle_refl.
  - destruct (IH y sl eq_refl) as [Hin Hmax].
    simpl. destruct (Qltb (snd a) (snd y)) eqn:Elt.
    + intros H. injection H as <- <-.
      split; [right; exact Hin|].
      intros z [<-|Hz]; [apply Qlt_le_weak, Qltb_lt; exact Elt|auto].
    + intros H. injection H as <- <-. apply Qltb_ge in Elt.
      split; [left; reflexivity|].
      intros z [<-|Hz]; [apply Qle_refl|].
      eapply Qle_trans; [apply Hmax; exact Hz|exact Elt].
Qed.

Lemma slice_to_In {A} (k : Z) (l : list A) (x : A) :
  In x (slice_to k l) -> In x l.
Proof.
  unfold slice_to. intros H.
  rewrite <- (take_drop (Z.to_nat
    (if k <? 0 then Z.max (Z.of_nat (length l) + k) 0
     else Z.min k (Z.of_nat (length l)))) l).
  apply in_or_app. left. exact H.
Qed.

Lemma slice_to_length_le {A} (k : Z) (l : list A) :
  0 <= k -> Z.of_nat (length (slice_to k l)) <= k.
Proof.
  intros Hk. unfold slice_to.
  destruct (k <? 0) eqn:E; [apply Z.ltb_lt in E; lia|].
  rewrite length_take. lia.
Qed.

(** The result of [get_relevant_files] given the scores.  Without scores
    it is [None].  With scores it is a list, which can be empty: each of
    its pairs is a scored path with the content of its file, which is
    readable and not empty, and for [top_k >= 0] there are at most
    [top_k] pairs. *)
Theorem select_files_result (disk : string -> option string) (k : Z)
    (file_scores : list (string * Q)) :
  (file_scores = [] <-> select_files disk k file_scores = None) /\
  (forall result, select_files disk k file_scores = Some result ->
     (forall fp file_content, In (fp, file_content) result ->
        file_content <> "" /\ disk fp = Some file_content /\
        exists score, In (fp, score) file_scores) /\
     (0 <= k -> Z.of_nat (length result) <= k)).
Proof.
  unfold select_files. split.
  - destruct file_scores; simpl; split; intros H; congruence.
  - intros result H.
    destruct (truthy_list file_scores); [|discriminate].
    injection H as <-. split.
    + intros fp file_content Hin.
      apply filter_In in Hin. destruct Hin as [Hin Htruthy].
      apply in_map_iff in Hin. destruct Hin as (p & Hread & Hp).
      unfold _read_file in Hread. injection Hread as -> <-.
      cbn [snd] in Htruthy.
      apply in_map_iff in Hp. destruct Hp as ([p' score] & Hfst & Hsel).
      cbn [fst] in Hfst. subst p'.
      apply slice_to_In in Hsel. apply (proj1 (sort_desc_In _ _)) in Hsel.
      split; [apply truthy_str_nonempty; exact Htruthy|].
      split; [|exists score; exact Hsel].
      destruct (disk fp) as [c|]; [reflexivity|discriminate Htruthy].
    + intros Hk.
      etransitivity; [|apply (slice_to_length_le k (sort_desc file_scores) Hk)].
      apply inj_le.
      etransitivity; [apply List.filter_length_le|].
      rewrite !length_map. reflexivity.
Qed.

(** With [top_k = 1], the default, a file that is returned has a score
    that no scored file exceeds. *)
Theorem select_files_top_one_is_best (disk : string -> option string)
    (file_scores : list (string * Q)) (fp file_content : string)
    (H : select_files disk 1 file_scores = Some [(fp, file_content)]) :
  exists score,
    In (fp, score) file_scores /\
    forall fp' score', In (fp', score') file_scores -> (score' <= score)%Q.
Proof.
  unfold select_files in H.
  destruct (truthy_list file_scores); [|discriminate].
  injection H as H.
  unfold slice_to in H.
  destruct (sort_desc file_scores) as [|[p score] rest] eqn:E.
  - destruct (1 <? 0); simpl in H; discriminate.
  - change (1 <? 0) with false in H. cbv iota in H.
    replace (Z.to_nat (1 `min` Z.of_nat (length ((p, score) :: rest)))) with 1%nat in H
      by (simpl length; lia).
    cbn [take map fst List.filter _read_file snd] in H.
    destruct (truthy_str (default "" (disk p))); [|discriminate].
    injection H as -> _.
    destruct (sort_desc_head _ _ _ E) as [Hin Hmax].
    exists score. split; [exact Hin|].
    intros fp' score' Hin'. exact (Hmax (fp', score') Hin').
Qed.

Lemma select_files_top_one_is_best_witness :
  select_files (fun _ => Some "text") 1 [("a.py", 1 # 2); ("b.py", 9 # 10)]%Q
    = Some [("b.py", "text")] /\
  exists score,
    In ("b.py", score) [("a.py", 1 # 2); ("b.py", 9 # 10)]%Q /\
    forall fp' score', In (fp', score') [("a.py", 1 # 2); ("b.py", 9 # 10)]%Q ->
                       (score' <= score)%Q.
Proof.
  assert (H : select_files (fun _ => Some "text") 1
                [("a.py", 1 # 2); ("b.py", 9 # 10)]%Q = Some [("b.py", "text")])
    by reflexivity.
  split; [exact H|].
  exact (select_files_top_one_is_best (fun _ => Some "text")
           [("a.py", 1 # 2); ("b.py", 9 # 10)]%Q "b.py" "text" H).
Defined.

(** ** The prompt *)








(** ** Rendering a folder structure *)

Lemma count_newlines_app (a b : string) :
  count_newlines (a ++ b) = (count_newlines a + count_newlines b)%nat.
Proof.
  induction a as [|c a IH]; simpl; [reflexivity|]. rewrite IH. lia.
Qed.

Lemma count_newlines_spaces (n : nat) : count_newlines (spaces n) = 0%nat.
Proof. induction n as [|n IH]; simpl; [reflexivity|exact IH]. Qed.

Lemma format_item_lines :
  forall (value : Node) (indent : nat) (key : string),
    one_line_item key value ->
    count_newlines (format_item indent key value) = entries_item value.
Proof.
  fix IH 1. intros [v|children] indent key Hclean.
  - simpl in *. rewrite !count_newlines_app, count_newlines_spaces, Hclean.
    reflexivity.
  - cbn [format_item entries_item]. destruct Hclean as [Hkey Hchildren].
    rewrite !count_newlines_app, count_newlines_spaces, Hkey.
    cbn [count_newlines newline Ascii.eqb]. simpl Nat.add at 1.
    change (count_newlines "/") with 0%nat. simpl.
    f_equal.
    induction children as [|[k v] rest IHrest]; [reflexivity|].
    destruct Hchildren as [Hv Hrest].
    rewrite count_newlines_app. rewrite (IH v (indent + 4)%nat k Hv).
    rewrite (IHrest Hrest). reflexivity.
Qed.

(** The rendering has one line for each entry of the structure, folders
    and files alike, when no rendered name holds a line end. *)
Theorem format_structure_one_line_per_entry (folder_structure : Tree)
    (Hclean : one_line folder_structure) :
  count_newlines (format_structure folder_structure) = entries folder_structure.
Proof.
  unfold format_structure.
  induction folder_structure as [|[k v] rest IH]; [reflexivity|].
  destruct Hclean as [Hv Hrest]. cbn [format_substructure entries].
  rewrite count_newlines_app, (format_item_lines v 0 k Hv), (IH Hrest).
  reflexivity.
Qed.

Lemma format_structure_one_line_per_entry_witness :
  one_line [("src", Folder [("main.py", File "main.py");
                             ("lib", Folder [("a.py", File "a.py")])]);
            ("README", File "README.md")] /\
  count_newlines
    (format_structure [("src", Folder [("main.py", File "main.py");
                                        ("lib", Folder [("a.py", File "a.py")])]);
                       ("README", File "README.md")]) = 5%nat.
Proof.
  assert (H : one_line [("src", Folder [("main.py", File "main.py");
                             ("lib", Folder [("a.py", File "a.py")])]);
            ("README", File "README.md")]).
  { simpl. repeat split. }
  split; [exact H|].
  exact (format_structure_one_line_per_entry _ H).
Defined.

(** ** A name match wins *)



(** ** The current topic and the stored ones *)

(** After construction the current topic is not among the stored topics,
    and a switch to a topic that is not stored keeps it so. *)
Theorem current_topic_stays_apart (target : loc) (s : State)
    (Htarget : ~ In target (topics s))
    (Hcur : ~ In (current_topic s) (topics s)) :
  (forall k threshold,
     ~ In (current_topic (HistoryManager_init k threshold))
          (topics (HistoryManager_init k threshold))) /\
  ~ In (current_topic (snd (switch_topic target s)))
       (topics (snd (switch_topic target s))).
Proof.
  split; [intros k threshold; apply init_current_not_stored|].
  apply switch_topic_to_new_keeps_apart; assumption.
Qed.

Lemma current_topic_stays_apart_witness :
  let s := snd (alloc (Topic_init "cooking" "cook recipes") Fixtures.drifting_alone) in
  ~ In 1%nat (topics s) /\
  ~ In (current_topic s) (topics s) /\
  current_topic (snd (switch_topic 1%nat s)) = 1%nat /\
  ~ In (current_topic (snd (switch_topic 1%nat s))) (topics (snd (switch_topic 1%nat s))).
Proof.
  intros s.
  assert (H1 : ~ In 1%nat (topics s)) by (intros []).
  assert (H2 : ~ In (current_topic s) (topics s)) by (intros []).
  split; [exact H1|]. split; [exact H2|]. split; [reflexivity|].
  exact (proj2 (current_topic_stays_apart 1%nat s H1 H2)).
Defined.

(** ** White space *)

(** Names that [str.strip()] empties and names that it does not: the
    empty name, a tab and a space, U+00A0, U+0085 and a space, U+2003,
    U+3000; then U+200B (zero width, no white space), U+00E9 and a name
    with letters. *)
Lemma strip_is_empty_examples :
  strip_is_empty "" = true /\
  strip_is_empty (String "009" " ") = true /\
  strip_is_empty (String "194" (String "160" "")) = true /\
  strip_is_empty (String "194" (String "133" " ")) = true /\
  strip_is_empty (String "226" (String "128" (String "131" ""))) = true /\
  strip_is_empty (String "227" (String "128" (String "128" ""))) = true /\
  strip_is_empty (String "226" (String "128" (String "139" ""))) = false /\
  strip_is_empty (String "195" (String "169" "")) = false /\
  strip_is_empty " rust " = false.
Proof. split_all; reflexivity. Qed.

(** White space in front does not change the answer. *)
Lemma only_space_skip (b : ascii) (bs : list ascii) :
  is_space b = true -> only_space (b :: bs) = only_space bs.
Proof. intros H. cbn [only_space]. rewrite H. reflexivity. Qed.

(** A topic named with a no-break space is an unnamed topic: with more
    than four messages the analysis asks the summarizer and names it. *)
Lemma analyze_history_blank_name :
  let r := _analyze_history dot Fixtures.ollama_fx Fixtures.helper_ok
             off_topic_threshold_default off_topic_frequency_default
             slice_size_default blank_named_eight in
  fst r = Ok tt /\ name (deref 0%nat (snd r)) = "cooking" /\
  helper_calls (snd r) = 1%nat.
Proof. split_all; vm_compute; reflexivity. Qed.
